(** * AI Code Mentor: the backend's request pipeline, embedded and verified

    The development follows the backend of the repository:

    - [backend/core/code_parser.py]: the syntax pre-check and the function
      name extraction over the parse tree;
    - [backend/core/llm_services.py]: provider selection at import time and
      the four service functions that call an LLM chain;
    - [backend/models/schemas.py] and [backend/main.py]: the request and
      response records and the four POST endpoints;
    - [frontend/app.py]: the helper that calls the backend and the block
      of the UI script that displays an analysis.

    Python values are embedded shallowly.  A [str] is a list of code points,
    a dict literal is an association list, an exception is a value of [exn]
    carried by [Raise], and every call that leaves the process (the parser,
    an LLM chain, [print]) is recorded in a trace of events.  An awaited
    chain call is a call that returns or raises; one request runs to its
    end before the next, the interleaving of concurrent requests is not
    part of the model. *)

From Stdlib Require Import List NArith ZArith Bool String Ascii Lia Permutation.
From Equations Require Import Equations.
Import ListNotations.

Set Warnings "-register-all".

(** * Python strings *)

Module Str.

Local Open Scope N_scope.

(** A Python [str] is a sequence of Unicode code points. *)
Definition codepoint := N.
Definition str := list codepoint.

(** ASCII literals of the source. *)
Definition py (s : string) : str :=
  map N_of_ascii (list_ascii_of_string s).

Fixpoint eqb (a b : str) : bool :=
  match a, b with
  | [], [] => true
  | x :: a', y :: b' => N.eqb x y && eqb a' b'
  | _, _ => false
  end.

(** [str.isspace] on one code point: the code points for which CPython's
    [Py_UNICODE_ISSPACE] holds. *)
Definition is_space (c : codepoint) : bool :=
  ((9 <=? c) && (c <=? 13)) || ((28 <=? c) && (c <=? 32))
  || (c =? 133) || (c =? 160) || (c =? 5760)
  || ((8192 <=? c) && (c <=? 8202))
  || (c =? 8232) || (c =? 8233) || (c =? 8239) || (c =? 8287)
  || (c =? 12288).

(** Code points in the surrogate range cannot be encoded as UTF-8. *)
Definition is_surrogate (c : codepoint) : bool :=
  (55296 <=? c) && (c <=? 57343).

Fixpoint drop_while (p : codepoint -> bool) (s : str) : str :=
  match s with
  | [] => []
  | c :: s' => if p c then drop_while p s' else s
  end.

(** [s.lstrip()], [s.rstrip()] and [s.strip()] without arguments. *)
Definition lstrip (s : str) : str := drop_while is_space s.
Definition rstrip (s : str) : str := rev (drop_while is_space (rev s)).
Definition strip (s : str) : str := rstrip (lstrip s).

(** [s.split(sep)] for a one-character separator: every occurrence of the
    separator cuts, so the result always has at least one piece. *)
Fixpoint split (sep : codepoint) (s : str) : list str :=
  match s with
  | [] => [[]]
  | c :: s' =>
      if c =? sep then [] :: split sep s'
      else match split sep s' with
           | [] => [[c]]
           | piece :: pieces => (c :: piece) :: pieces
           end
  end.

(** [sep.join(pieces)], the inverse of [split]. *)
Fixpoint join (sep : codepoint) (pieces : list str) : str :=
  match pieces with
  | [] => []
  | [p] => p
  | p :: ps => p ++ sep :: join sep ps
  end.

(** Truth value of a string in a condition: empty is false. *)
Definition truthy (s : str) : bool :=
  match s with [] => false | _ :: _ => true end.

(** A line is blank when it holds nothing but whitespace. *)
Definition is_blank (s : str) : bool := forallb is_space s.

Definition newline : codepoint := 10.

End Str.

Import Str.

(** * Python values, exceptions and effects *)

Module Py.

(** The values that travel through the service functions: strings, lists
    and dict literals with string keys (kept in insertion order). *)
Inductive value : Type :=
| VNone
| VStr (s : str)
| VList (items : list value)
| VDict (entries : list (str * value)).

Definition dict := list (str * value).

Fixpoint lookup (d : dict) (k : str) : option value :=
  match d with
  | [] => None
  | (k', v) :: d' => if Str.eqb k' k then Some v else lookup d' k
  end.

(** [d.get(k)]: the value, or [None] when the key is absent. *)
Definition get (d : dict) (k : str) : value :=
  match lookup d k with Some v => v | None => VNone end.

Definition keys (d : dict) : list str := map fst d.

(** Truth value of an object in a condition. *)
Definition value_truthy (v : value) : bool :=
  match v with
  | VNone => false
  | VStr s => truthy s
  | VList items => match items with [] => false | _ => true end
  | VDict entries => match entries with [] => false | _ => true end
  end.

Definition opt_truthy (o : option str) : bool :=
  match o with None => false | Some s => truthy s end.

(** The exception classes that occur, with their base class. *)
Inductive exn_class : Set :=
| BaseException | Exception
| KeyboardInterrupt | CancelledError
| SyntaxError | ValueError | UnicodeError | UnicodeEncodeError
| MemoryError | RuntimeError | RecursionError
| ImportError | LookupError | KeyError
| ValidationError | RequestValidationError | HTTPException.

Scheme Equality for exn_class.

Definition base (c : exn_class) : option exn_class :=
  match c with
  | BaseException => None
  | Exception | KeyboardInterrupt | CancelledError => Some BaseException
  | SyntaxError | ValueError | MemoryError | RuntimeError | ImportError
  | LookupError | RequestValidationError | HTTPException => Some Exception
  | UnicodeError | ValidationError => Some ValueError
  | UnicodeEncodeError => Some UnicodeError
  | RecursionError => Some RuntimeError
  | KeyError => Some LookupError
  end.

Fixpoint issubclass_upto (depth : nat) (c d : exn_class) : bool :=
  exn_class_beq c d ||
  match depth with
  | O => false
  | S depth' =>
      match base c with
      | Some b => issubclass_upto depth' b d
      | None => false
      end
  end.

(** [issubclass(c, d)]; no chain of bases is longer than five. *)
Definition issubclass (c d : exn_class) : bool := issubclass_upto 5 c d.

(** An exception object: its class and [str(e)]; an [HTTPException]
    carries a status code and a detail instead. *)
Inductive exn : Type :=
| Exn (cls : exn_class) (msg : str)
| HTTPExn (status_code : N) (detail : value).

Definition class_of (e : exn) : exn_class :=
  match e with
  | Exn cls _ => cls
  | HTTPExn _ _ => HTTPException
  end.

Definition isinstance (e : exn) (c : exn_class) : bool :=
  issubclass (class_of e) c.

(** What a call does: it returns or it raises. *)
Inductive outcome (A : Type) : Type :=
| Ret (a : A)
| Raise (e : exn).
Arguments Ret {A} a.
Arguments Raise {A} e.

(** The parse tree, as far as [ast.walk] and [isinstance] look at it:
    every node has a kind and its child nodes in field order. *)
Inductive node_kind : Type :=
| ModuleNode
| FunctionDef (name : str)
| AsyncFunctionDef (name : str)
| ClassDef (name : str)
| OtherNode.

Inductive node : Type :=
| Node (kind : node_kind) (children : list node).

Definition kind_of (n : node) : node_kind :=
  match n with Node k _ => k end.

(** [ast.iter_child_nodes]. *)
Definition iter_child_nodes (n : node) : list node :=
  match n with Node _ cs => cs end.

(** The four chains of [llm_services.py]. *)
Inductive chain : Set :=
| explain_chain | suggest_chain | debug_chain | what_if_chain.

(** An f-string is kept as its pieces; how an exception or a list prints
    is left to the log. *)
Inductive piece : Type :=
| Text (s : str)
| ShowExn (e : exn)
| ShowList (l : list str).

(** Calls that leave the process, in the order they happen. *)
Inductive event : Type :=
| Printed (line : list piece)
| AstParse (code : str)
| Ainvoke (c : chain) (inputs : dict).

Definition trace := list event.

(** The outside world of a request: the grammar behind [ast.parse] and the
    hosted model behind each chain.  Both are arbitrary. *)
Record World : Type := {
  grammar : str -> outcome node;
  ainvoke : chain -> dict -> outcome str
}.

(** Computations: they extend the trace and return or raise. *)
Definition M (A : Type) : Type := trace -> outcome A * trace.

Definition ret {A} (a : A) : M A := fun t => (Ret a, t).

Definition raise {A} (e : exn) : M A := fun t => (Raise e, t).

Definition bind {A B} (m : M A) (k : A -> M B) : M B :=
  fun t =>
    match m t with
    | (Ret a, t') => k a t'
    | (Raise e, t') => (Raise e, t')
    end.

Definition emit (ev : event) : M unit := fun t => (Ret tt, t ++ [ev]).

Definition lift {A} (o : outcome A) : M A := fun t => (o, t).

Definition print (line : list piece) : M unit := emit (Printed line).

(** The first [except] clause whose class matches takes the exception. *)
Fixpoint select_handler {A} (handlers : list (exn_class * (exn -> M A)))
    (e : exn) : option (M A) :=
  match handlers with
  | [] => None
  | (cls, h) :: rest =>
      if isinstance e cls then Some (h e) else select_handler rest e
  end.

(** [try: body except C1 as e: h1 except C2 as e: h2 ...]. *)
Definition try_except {A} (body : M A)
    (handlers : list (exn_class * (exn -> M A))) : M A :=
  fun t =>
    match body t with
    | (Ret a, t') => (Ret a, t')
    | (Raise e, t') =>
        match select_handler handlers e with
        | Some h => h t'
        | None => (Raise e, t')
        end
    end.

(** Running a computation from the empty trace. *)
Definition run {A} (m : M A) : outcome A * trace := m [].
Definition result_of {A} (m : M A) : outcome A := fst (run m).
Definition trace_of {A} (m : M A) : trace := snd (run m).

End Py.

Import Py.

Declare Scope py_scope.
Delimit Scope py_scope with py.
Notation "x <- c1 ;; c2" := (bind c1 (fun x => c2))
  (at level 61, c1 at next level, right associativity) : py_scope.
Notation "c1 ;;; c2" := (bind c1 (fun _ => c2))
  (at level 61, right associativity) : py_scope.
Local Open Scope py_scope.

(** Events of a given sort in a trace. *)
Definition is_ainvoke (ev : event) : bool :=
  match ev with Ainvoke _ _ => true | _ => false end.

Definition is_ast_parse (ev : event) : bool :=
  match ev with AstParse _ => true | _ => false end.

Definition network_calls (t : trace) : list event := filter is_ainvoke t.

Definition syntax_checks (t : trace) : list event := filter is_ast_parse t.

(** * [backend/core/code_parser.py] *)

Module CodeParser.

(** [ast.parse(code)]: the source is first encoded as UTF-8, which fails
    on a lone surrogate with [UnicodeEncodeError]; the grammar then returns
    the tree or raises. *)
Definition ast_parse (w : World) (code : str) : M node :=
  emit (AstParse code) ;;;
  if existsb is_surrogate code
  then raise (Exn UnicodeEncodeError (py "surrogates not allowed"))
  else lift (grammar w code).

Definition parse_python_code (w : World) (code : str) : M (option node) :=
  try_except
    (tree <- ast_parse w code ;;
     ret (Some tree))
    [(SyntaxError, fun e =>
        print [Text (py "Syntax Error during parsing: "); ShowExn e] ;;;
        ret None)].

Fixpoint node_size (n : node) : nat :=
  match n with
  | Node _ cs => S (list_sum (map node_size cs))
  end.

Definition forest_size (ns : list node) : nat := list_sum (map node_size ns).

(** The loop of [ast.walk]: take the node at the left of the queue, put its
    children at the right, yield the node. *)
Equations? walk_queue (todo : list node) : list node
  by wf (forest_size todo) lt :=
walk_queue [] := [];
walk_queue (n :: rest) := n :: walk_queue (rest ++ iter_child_nodes n).
Proof.
  unfold forest_size. rewrite map_app, list_sum_app.
  destruct n as [k cs]. simpl. lia.
Qed.

(** [ast.walk(node)]. *)
Definition walk (n : node) : list node := walk_queue [n].

Definition get_function_definitions (tree : node) : list str :=
  fold_left
    (fun functions n =>
       match kind_of n with
       | FunctionDef name => functions ++ [name]
       | _ => functions
       end)
    (walk tree) [].

End CodeParser.

Import CodeParser.

(** * [backend/core/llm_services.py] *)

Module LlmServices.

Inductive provider_class : Set :=
| ChatOpenAI | ChatAnthropic | ChatGroq | ChatGoogleGenerativeAI.

Record provider_config : Type := {
  class : provider_class;
  model : str;
  api_key_name : str
}.

Definition PROVIDER_CONFIG : list (str * provider_config) :=
  [ (py "openai",
     {| class := ChatOpenAI; model := py "gpt-3.5-turbo";
        api_key_name := py "OPENAI_API_KEY" |});
    (py "anthropic",
     {| class := ChatAnthropic; model := py "claude-3-sonnet-20240229";
        api_key_name := py "ANTHROPIC_API_KEY" |});
    (py "groq",
     {| class := ChatGroq; model := py "llama3-8b-8192";
        api_key_name := py "GROQ_API_KEY" |});
    (py "google",
     {| class := ChatGoogleGenerativeAI; model := py "gemini-pro";
        api_key_name := py "GOOGLE_API_KEY" |}) ].

Fixpoint config_lookup (table : list (str * provider_config)) (name : str)
    : option provider_config :=
  match table with
  | [] => None
  | (k, c) :: rest => if Str.eqb k name then Some c else config_lookup rest name
  end.

(** The client object: what it was constructed from.  The temperature
    0.3 is kept as mantissa and decimal exponent. *)
Record llm_client : Type := {
  client_class : provider_class;
  client_model : str;
  client_temperature : Z * Z
}.

(** What the process finds when it starts: the environment after
    [load_dotenv()], [str.lower], and whether constructing a client of a
    given class raises. *)
Record Host : Type := {
  getenv : str -> option str;
  lower : str -> str;
  construct : provider_class -> str -> option exn
}.

(** [os.getenv("LLM_PROVIDER", "groq").lower()]. *)
Definition LLM_PROVIDER_of (h : Host) : str :=
  lower h
    (match getenv h (py "LLM_PROVIDER") with
     | Some v => v
     | None => py "groq"
     end).

(** The module body down to the check of [llm]: it returns the client, or
    raises and the import fails. *)
Definition initialise (h : Host) : M llm_client :=
  let LLM_PROVIDER := LLM_PROVIDER_of h in
  print [Text (py "--- Attempting to initialize LLM provider: ");
         Text LLM_PROVIDER; Text (py " ---")] ;;;
  llm <-
    match config_lookup PROVIDER_CONFIG LLM_PROVIDER with
    | Some config =>
        let api_key := getenv h (api_key_name config) in
        if negb (opt_truthy api_key) then
          print [Text (py "Warning: API key '"); Text (api_key_name config);
                 Text (py "' not found in environment variables for provider '");
                 Text LLM_PROVIDER; Text (py "'.")] ;;;
          ret None
        else
          try_except
            (client <-
               match construct h (class config) (model config) with
               | Some e => raise e
               | None =>
                   ret {| client_class := class config;
                          client_model := model config;
                          client_temperature := (3, -1)%Z |}
               end ;;
             print [Text (py "--- Successfully initialized LLM with provider: ");
                    Text LLM_PROVIDER; Text (py ", model: ");
                    Text (model config); Text (py " ---")] ;;;
             ret (Some client))
            [ (ImportError, fun _ =>
                 print [Text (py "Error: Required package for '");
                        Text LLM_PROVIDER; Text (py "' not installed.")] ;;;
                 print [Text (py "Please install the necessary package (e.g., pip install langchain-");
                        Text LLM_PROVIDER; Text (py ")")] ;;;
                 ret None);
              (Exception, fun e =>
                 print [Text (py "Error initializing LLM provider ");
                        Text LLM_PROVIDER; Text (py ": "); ShowExn e] ;;;
                 ret None) ]
    | None =>
        print [Text (py "Error: Unsupported LLM_PROVIDER '");
               Text LLM_PROVIDER;
               Text (py "' specified in environment variables.")] ;;;
        print [Text (py "Available providers: ");
               ShowList (map fst PROVIDER_CONFIG)] ;;;
        ret None
    end ;;
  match llm with
  | None =>
      raise (Exn RuntimeError
               (py "Failed to initialize any LLM provider. Please check your .env configuration and installed packages."))
  | Some client => ret client
  end.

(** [await chain.ainvoke(inputs)]. *)
Definition ainvoke_chain (w : World) (c : chain) (inputs : dict) : M str :=
  emit (Ainvoke c inputs) ;;;
  lift (ainvoke w c inputs).

Section Services.

Variable LLM_PROVIDER : str.
Variable w : World.

Definition get_code_explanation (code : str) : M dict :=
  tree <- parse_python_code w code ;;
  match tree with
  | None => ret [(py "error", VStr (py "Syntax error in code, cannot parse."))]
  | Some _ =>
      try_except
        (explanation <- ainvoke_chain w explain_chain [(py "code", VStr code)] ;;
         ret [(py "overall_summary", VStr explanation)])
        [(Exception, fun e =>
            print [Text (py "LLM Error during explanation for provider ");
                   Text LLM_PROVIDER; Text (py ": "); ShowExn e] ;;;
            ret [(py "error",
                  VStr (py "Failed to get explanation from LLM: An internal error occurred."))])]
  end.

Definition get_code_suggestions (code : str) : M dict :=
  try_except
    (suggestions_text <- ainvoke_chain w suggest_chain [(py "code", VStr code)] ;;
     let suggestions_list :=
       map (fun s => VStr (strip s))
         (filter (fun s => truthy (strip s)) (split newline suggestions_text)) in
     ret [(py "suggestions", VList suggestions_list)])
    [(Exception, fun e =>
        print [Text (py "LLM Error during suggestions for provider ");
               Text LLM_PROVIDER; Text (py ": "); ShowExn e] ;;;
        ret [(py "error",
              VStr (py "Failed to get suggestions from LLM: An internal error occurred."))])].

Definition get_code_debugging_info (code : str) : M dict :=
  try_except
    (debug_text <- ainvoke_chain w debug_chain [(py "code", VStr code)] ;;
     let potential_bugs :=
       map (fun line => VDict [(py "issue", VStr (strip line))])
         (filter (fun line => truthy (strip line)) (split newline debug_text)) in
     ret [(py "potential_bugs", VList potential_bugs)])
    [(Exception, fun e =>
        print [Text (py "LLM Error during debugging for provider ");
               Text LLM_PROVIDER; Text (py ": "); ShowExn e] ;;;
        ret [(py "error",
              VStr (py "Failed to get debugging info from LLM: An internal error occurred."))])].

Definition answer_what_if_question (code user_question : str) : M dict :=
  try_except
    (response_text <-
       ainvoke_chain w what_if_chain
         [(py "code", VStr code); (py "user_question", VStr user_question)] ;;
     ret [(py "explanation", VStr response_text)])
    [(Exception, fun e =>
        print [Text (py "LLM Error during 'what if' for provider ");
               Text LLM_PROVIDER; Text (py ": "); ShowExn e] ;;;
        ret [(py "error",
              VStr (py "Failed to answer 'what if' question: An internal error occurred."))])].

End Services.

End LlmServices.

Import LlmServices.

(** * [backend/models/schemas.py] *)

Module Schemas.

Record CodeInput : Type := {
  code : str;
  language : str;
  user_question : option str
}.

(** Validation of one keyword argument against an [Optional[...]] field
    whose default is [None]. *)
Definition optional_str (field : str) (kwargs : dict) : outcome (option str) :=
  match get kwargs field with
  | VNone => Ret None
  | VStr s => Ret (Some s)
  | _ => Raise (Exn ValidationError field)
  end.

Fixpoint all_str (items : list value) : option (list str) :=
  match items with
  | [] => Some []
  | VStr s :: rest =>
      match all_str rest with
      | Some l => Some (s :: l)
      | None => None
      end
  | _ :: _ => None
  end.

Fixpoint all_str_entries (entries : list (str * value)) : option (list (str * str)) :=
  match entries with
  | [] => Some []
  | (k, VStr s) :: rest =>
      match all_str_entries rest with
      | Some l => Some ((k, s) :: l)
      | None => None
      end
  | _ :: _ => None
  end.

Fixpoint all_str_dicts (items : list value) : option (list (list (str * str))) :=
  match items with
  | [] => Some []
  | VDict entries :: rest =>
      match all_str_entries entries, all_str_dicts rest with
      | Some d, Some l => Some (d :: l)
      | _, _ => None
      end
  | _ :: _ => None
  end.

Definition optional_list_str (field : str) (kwargs : dict)
    : outcome (option (list str)) :=
  match get kwargs field with
  | VNone => Ret None
  | VList items =>
      match all_str items with
      | Some l => Ret (Some l)
      | None => Raise (Exn ValidationError field)
      end
  | _ => Raise (Exn ValidationError field)
  end.

Definition optional_list_dict (field : str) (kwargs : dict)
    : outcome (option (list (list (str * str)))) :=
  match get kwargs field with
  | VNone => Ret None
  | VList items =>
      match all_str_dicts items with
      | Some l => Ret (Some l)
      | None => Raise (Exn ValidationError field)
      end
  | _ => Raise (Exn ValidationError field)
  end.

(** [Optional[Dict[int, str]]]: no caller passes this field, and only its
    absence is accepted here. *)
Definition optional_int_dict (field : str) (kwargs : dict)
    : outcome (option (list (Z * str))) :=
  match get kwargs field with
  | VNone => Ret None
  | _ => Raise (Exn ValidationError field)
  end.

Definition obind {A B} (o : outcome A) (k : A -> outcome B) : outcome B :=
  match o with
  | Ret a => k a
  | Raise e => Raise e
  end.

Definition json_opt_str (o : option str) : value :=
  match o with Some s => VStr s | None => VNone end.

Module ExplanationResponse.
Record t : Type := {
  line_by_line : option (list (Z * str));
  overall_summary : option str;
  error : option str
}.
(** The model built from keyword arguments. *)
Definition of_kwargs (kwargs : dict) : outcome t :=
  obind (optional_int_dict (py "line_by_line") kwargs) (fun l =>
  obind (optional_str (py "overall_summary") kwargs) (fun s =>
  obind (optional_str (py "error") kwargs) (fun e =>
  Ret {| line_by_line := l; overall_summary := s; error := e |}))).
End ExplanationResponse.

Module SuggestionResponse.
Record t : Type := {
  suggestions : option (list str);
  error : option str
}.
Definition of_kwargs (kwargs : dict) : outcome t :=
  obind (optional_list_str (py "suggestions") kwargs) (fun l =>
  obind (optional_str (py "error") kwargs) (fun e =>
  Ret {| suggestions := l; error := e |})).
End SuggestionResponse.

Module DebugResponse.
Record t : Type := {
  potential_bugs : option (list (list (str * str)));
  error : option str
}.
Definition of_kwargs (kwargs : dict) : outcome t :=
  obind (optional_list_dict (py "potential_bugs") kwargs) (fun l =>
  obind (optional_str (py "error") kwargs) (fun e =>
  Ret {| potential_bugs := l; error := e |})).
End DebugResponse.

Module WhatIfResponse.
Record t : Type := {
  explanation : option str;
  modified_code : option str;
  error : option str
}.
Definition of_kwargs (kwargs : dict) : outcome t :=
  obind (optional_str (py "explanation") kwargs) (fun x =>
  obind (optional_str (py "modified_code") kwargs) (fun m =>
  obind (optional_str (py "error") kwargs) (fun e =>
  Ret {| explanation := x; modified_code := m; error := e |}))).
End WhatIfResponse.

End Schemas.

Import Schemas.

(** * [backend/main.py] *)

Module Main.

Definition HTTP_400_BAD_REQUEST : N := 400.
Definition HTTP_500_INTERNAL_SERVER_ERROR : N := 500.
Definition HTTP_422_UNPROCESSABLE_ENTITY : N := 422.
Definition HTTP_200_OK : N := 200.

(** [result["error"]]. *)
Definition getitem (d : dict) (k : str) : outcome value :=
  match lookup d k with
  | Some v => Ret v
  | None => Raise (Exn KeyError k)
  end.

Section Endpoints.

Variable LLM_PROVIDER : str.
Variable w : World.

Definition explain_code (payload : CodeInput) : M ExplanationResponse.t :=
  if negb (truthy (code payload)) then
    raise (HTTPExn HTTP_400_BAD_REQUEST (VStr (py "No code provided")))
  else
    result <- get_code_explanation LLM_PROVIDER w (code payload) ;;
    if value_truthy (get result (py "error")) then
      detail <- lift (getitem result (py "error")) ;;
      raise (HTTPExn HTTP_500_INTERNAL_SERVER_ERROR detail)
    else lift (ExplanationResponse.of_kwargs result).

Definition suggest_improvements (payload : CodeInput) : M SuggestionResponse.t :=
  if negb (truthy (code payload)) then
    raise (HTTPExn HTTP_400_BAD_REQUEST (VStr (py "No code provided")))
  else
    result <- get_code_suggestions LLM_PROVIDER w (code payload) ;;
    if value_truthy (get result (py "error")) then
      detail <- lift (getitem result (py "error")) ;;
      raise (HTTPExn HTTP_500_INTERNAL_SERVER_ERROR detail)
    else lift (SuggestionResponse.of_kwargs result).

Definition debug_code (payload : CodeInput) : M DebugResponse.t :=
  if negb (truthy (code payload)) then
    raise (HTTPExn HTTP_400_BAD_REQUEST (VStr (py "No code provided")))
  else
    result <- get_code_debugging_info LLM_PROVIDER w (code payload) ;;
    if value_truthy (get result (py "error")) then
      detail <- lift (getitem result (py "error")) ;;
      raise (HTTPExn HTTP_500_INTERNAL_SERVER_ERROR detail)
    else lift (DebugResponse.of_kwargs result).

(** After the guard the question is a string; the [None] branch of the
    match below is the guard's own. *)
Definition what_if_scenario (payload : CodeInput) : M WhatIfResponse.t :=
  if negb (truthy (code payload)) || negb (opt_truthy (user_question payload)) then
    raise (HTTPExn HTTP_400_BAD_REQUEST (VStr (py "Code and user question required")))
  else
    match user_question payload with
    | None =>
        raise (HTTPExn HTTP_400_BAD_REQUEST (VStr (py "Code and user question required")))
    | Some question =>
        result <- answer_what_if_question LLM_PROVIDER w (code payload) question ;;
        if value_truthy (get result (py "error")) then
          detail <- lift (getitem result (py "error")) ;;
          raise (HTTPExn HTTP_500_INTERNAL_SERVER_ERROR detail)
        else lift (WhatIfResponse.of_kwargs result)
    end.

(** A JSON request body that is an object, as far as the fields of
    [CodeInput] go, each of them absent, null or a string.  For [code] and
    [user_question], [None] is a key that is absent or null: validation
    treats the two alike.  For [language] they differ: [None] is an absent
    key, [Some None] is null. *)
Record RequestBody : Type := {
  body_code : option str;
  body_language : option (option str);
  body_user_question : option str
}.

(** The fields that validation refuses: [code: str] has no default and is
    required, and neither it nor [language: str] may be null;
    [user_question: Optional[str]] may be absent or null. *)
Definition invalid_fields (b : RequestBody) : list str :=
  match body_code b with
  | None => [py "code"]
  | Some _ => []
  end
  ++ match body_language b with
     | Some None => [py "language"]
     | _ => []
     end.

Definition comma : codepoint := 44%N.

(** The framework builds the [payload] argument from the body before it
    calls the endpoint, and refuses the request when a field is invalid;
    the validation error names the fields. *)
Definition validate_body (b : RequestBody) : outcome CodeInput :=
  match body_code b, body_language b with
  | Some c, None =>
      Ret {| code := c; language := py "python";
             user_question := body_user_question b |}
  | Some c, Some (Some l) =>
      Ret {| code := c; language := l;
             user_question := body_user_question b |}
  | _, _ =>
      Raise (Exn RequestValidationError (join comma (invalid_fields b)))
  end.

Inductive route : Set := explain | suggest | debug | whatif.

(** The payload of a successful response, one shape per route. *)
Inductive response : Type :=
| Explanation (r : ExplanationResponse.t)
| Suggestion (r : SuggestionResponse.t)
| Debugging (r : DebugResponse.t)
| WhatIf (r : WhatIfResponse.t).

(** A POST request to one of the four routes. *)
Definition post (r : route) (b : RequestBody) : M response :=
  payload <- lift (validate_body b) ;;
  match r with
  | explain => x <- explain_code payload ;; ret (Explanation x)
  | suggest => x <- suggest_improvements payload ;; ret (Suggestion x)
  | debug => x <- debug_code payload ;; ret (Debugging x)
  | whatif => x <- what_if_scenario payload ;; ret (WhatIf x)
  end.

End Endpoints.

(** A string can be sent when it encodes as UTF-8: it holds no lone
    surrogate. *)
Definition encodable (s : str) : bool := negb (existsb is_surrogate s).

Definition opt_encodable {A} (f : A -> bool) (o : option A) : bool :=
  match o with
  | Some a => f a
  | None => true
  end.

(** What the framework can serialise into a response body. *)
Class Serialisable (A : Type) : Type := serialisable : A -> bool.

#[export] Instance explanation_serialisable : Serialisable ExplanationResponse.t :=
  fun x =>
    opt_encodable (forallb (fun kv => encodable (snd kv)))
      (ExplanationResponse.line_by_line x)
    && opt_encodable encodable (ExplanationResponse.overall_summary x)
    && opt_encodable encodable (ExplanationResponse.error x).

#[export] Instance suggestion_serialisable : Serialisable SuggestionResponse.t :=
  fun x =>
    opt_encodable (forallb encodable) (SuggestionResponse.suggestions x)
    && opt_encodable encodable (SuggestionResponse.error x).

#[export] Instance debug_serialisable : Serialisable DebugResponse.t :=
  fun x =>
    opt_encodable
      (forallb (forallb (fun kv => encodable (fst kv) && encodable (snd kv))))
      (DebugResponse.potential_bugs x)
    && opt_encodable encodable (DebugResponse.error x).

#[export] Instance what_if_serialisable : Serialisable WhatIfResponse.t :=
  fun x =>
    opt_encodable encodable (WhatIfResponse.explanation x)
    && opt_encodable encodable (WhatIfResponse.modified_code x)
    && opt_encodable encodable (WhatIfResponse.error x).

#[export] Instance response_serialisable : Serialisable response :=
  fun resp =>
    match resp with
    | Explanation x => serialisable x
    | Suggestion x => serialisable x
    | Debugging x => serialisable x
    | WhatIf x => serialisable x
    end.

(** The status line of the answer: 200 for a returned model that can be
    serialised, 500 when serialising it fails, and for an exception what
    the framework's exception handlers give. *)
Definition status_of {A} `{Serialisable A} (o : outcome A) : N :=
  match o with
  | Ret a =>
      if serialisable a then HTTP_200_OK else HTTP_500_INTERNAL_SERVER_ERROR
  | Raise (HTTPExn status _) => status
  | Raise (Exn RequestValidationError _) => HTTP_422_UNPROCESSABLE_ENTITY
  | Raise (Exn _ _) => HTTP_500_INTERNAL_SERVER_ERROR
  end.

(** The process: importing [backend.main] imports [llm_services], whose
    module body runs [initialise]; requests are served only after the
    import has returned.  Each request's outcome is kept; an exception in
    one handler does not stop the server. *)
Fixpoint serve_all (LLM_PROVIDER : str) (w : World)
    (requests : list (route * RequestBody)) : M (list (outcome response)) :=
  match requests with
  | [] => ret []
  | (r, b) :: rest =>
      fun t =>
        let '(o, t') := post LLM_PROVIDER w r b t in
        match serve_all LLM_PROVIDER w rest t' with
        | (Ret os, t'') => (Ret (o :: os), t'')
        | (Raise e, t'') => (Raise e, t'')
        end
  end.

Definition backend (h : Host) (w : World)
    (requests : list (route * RequestBody)) : M (list (outcome response)) :=
  _ <- initialise h ;;
  serve_all (LLM_PROVIDER_of h) w requests.

End Main.

Import Main.

(** * [frontend/app.py], the display of one debug record *)

Module Frontend.

(** [d.get(k, default)]. *)
Definition get_default (d : dict) (k : str) (default : value) : value :=
  match lookup d k with
  | Some v => v
  | None => default
  end.

(** The two reads of the branch that displays the debug result. *)
Definition issue_of (bug : dict) : value :=
  get_default bug (py "issue") (VStr (py "Unknown issue")).

Definition line_of (bug : dict) : value :=
  get_default bug (py "line") (VStr (py "N/A")).

End Frontend.

Import Frontend.

(** * Notions used in the statements *)

(** The name of a node that is a [FunctionDef], as a list of at most one. *)
Definition function_name (n : node) : list str :=
  match kind_of n with
  | FunctionDef name => [name]
  | _ => []
  end.

(** The names of the functions defined at the top level of a module: the
    [FunctionDef] nodes that are direct children of the root. *)
Definition spec_top_level_function_names (tree : node) : list str :=
  flat_map function_name (iter_child_nodes tree).

(** Every node of a tree, the root first, by structural recursion. *)
Fixpoint descendants (n : node) : list node :=
  match n with
  | Node _ cs => n :: flat_map descendants cs
  end.

(** The non-blank lines of a text, in the order of the text. *)
Definition spec_nonblank_lines (text : str) : list str :=
  filter (fun line => negb (is_blank line)) (split newline text).

(** A result dict with one key, the payload's or the error's. *)
Definition exactly_one_key (payload : str) (d : dict) : Prop :=
  keys d = [payload] \/ keys d = [py "error"].

Definition syntax_error_result : dict :=
  [(py "error", VStr (py "Syntax error in code, cannot parse."))].

(** An outcome that is a dict carrying the syntax-error message. *)
Definition reports_syntax_error (o : outcome dict) : Prop :=
  exists d, o = Ret d
            /\ get d (py "error") = VStr (py "Syntax error in code, cannot parse.").

(** The inputs a chain is invoked with. *)
Definition code_inputs (code : str) : dict := [(py "code", VStr code)].

Definition what_if_inputs (code question : str) : dict :=
  [(py "code", VStr code); (py "user_question", VStr question)].

(** The lines that the suggestion and debug post-processing keeps. *)
Definition kept_lines (text : str) : list str :=
  map strip (spec_nonblank_lines text).

Definition issue_record (issue : str) : value :=
  VDict [(py "issue", VStr issue)].

(** The generic message of each service after a failed chain call. *)
Definition internal_error (c : chain) : dict :=
  [(py "error",
    VStr (match c with
          | explain_chain =>
              py "Failed to get explanation from LLM: An internal error occurred."
          | suggest_chain =>
              py "Failed to get suggestions from LLM: An internal error occurred."
          | debug_chain =>
              py "Failed to get debugging info from LLM: An internal error occurred."
          | what_if_chain =>
              py "Failed to answer 'what if' question: An internal error occurred."
          end))].

(** What one run of a service that goes straight to its chain looks like:
    the call is recorded, and then the payload is returned, or the generic
    error after an [Exception], or the exception passes. *)
Inductive service_run (c : chain) (payload : str) (inputs : dict) (t0 : trace)
    : outcome dict * trace -> Prop :=
| run_payload (v : value) :
    service_run c payload inputs t0
      (Ret [(payload, v)], t0 ++ [Ainvoke c inputs])
| run_error (line : list piece) :
    service_run c payload inputs t0
      (Ret (internal_error c), (t0 ++ [Ainvoke c inputs]) ++ [Printed line])
| run_raise (e : exn) :
    isinstance e Exception = false ->
    service_run c payload inputs t0 (Raise e, t0 ++ [Ainvoke c inputs]).

(** The chain was invoked once with these inputs, no syntax check was
    made, and the outcome is no syntax-error result. *)
Definition reaches_network (c : chain) (inputs : dict) (t0 : trace)
    (r : outcome dict * trace) : Prop :=
  network_calls (snd r) = network_calls t0 ++ [Ainvoke c inputs]
  /\ syntax_checks (snd r) = syntax_checks t0
  /\ ~ reports_syntax_error (fst r).

(** The outcome is a dict with one key, or an exception of a class that
    the function does not catch. *)
Definition one_key_or_uncaught (payload : str) (caught : exn_class)
    (o : outcome dict) : Prop :=
  (exists d, o = Ret d /\ exactly_one_key payload d)
  \/ (exists e, o = Raise e /\ isinstance e caught = false).

(** The message of the 400 answer of each route. *)
Definition fixed_message (r : route) : str :=
  match r with
  | whatif => py "Code and user question required"
  | _ => py "No code provided"
  end.

(** A field the endpoint needs is absent from the body or empty. *)
Definition field_missing (r : route) (b : RequestBody) : bool :=
  negb (opt_truthy (body_code b))
  || match r with
     | whatif => negb (opt_truthy (body_user_question b))
     | _ => false
     end.

(** The provider is unsupported, or its credential is absent or empty, or
    constructing the client raises an [Exception]. *)
Definition misconfigured (h : Host) : Prop :=
  match config_lookup PROVIDER_CONFIG (LLM_PROVIDER_of h) with
  | None => True
  | Some config =>
      opt_truthy (getenv h (api_key_name config)) = false
      \/ exists e, construct h (class config) (model config) = Some e
                   /\ isinstance e Exception = true
  end.

Definition is_print (ev : event) : bool :=
  match ev with Printed _ => true | _ => false end.

(** The runtime error of a failed start. *)
Definition startup_error : exn :=
  Exn RuntimeError
    (py "Failed to initialize any LLM provider. Please check your .env configuration and installed packages.").

(** ** Concrete inputs *)

(** A small world for the examples: the text [def f(:] is a syntax error,
    any other text is given the tree of an empty module, and every chain
    answers three lines of which the middle one is blank. *)
Definition sample_world : World := {|
  grammar := fun code =>
    if Str.eqb code (py "def f(:")
    then Raise (Exn SyntaxError (py "invalid syntax (<unknown>, line 1)"))
    else Ret (Node ModuleNode []);
  ainvoke := fun _ _ =>
    Ret (py "  Use a list. " ++ [10; 32; 9; 10]%N ++ py "Avoid globals.")
|}.

(** The tree of the module

      class A:
          def m(self): pass
      def f(): pass

    Each function has its [arguments] node and its [Pass] statement as
    children; the [arguments] of [m] hold the one [arg]. *)
Definition sample_tree : node :=
  Node ModuleNode
    [ Node (ClassDef (py "A"))
        [ Node (FunctionDef (py "m"))
            [Node OtherNode [Node OtherNode []]; Node OtherNode []] ];
      Node (FunctionDef (py "f")) [Node OtherNode []; Node OtherNode []] ].

(** ASCII lowercasing, enough for the provider names. *)
Definition ascii_lower (s : str) : str :=
  map (fun c => if ((65 <=? c) && (c <=? 90))%N then (c + 32)%N else c) s.

(** A host without any environment variable set. *)
Definition bare_host : Host := {|
  getenv := fun _ => None;
  lower := ascii_lower;
  construct := fun _ _ => None
|}.

From Stdlib Require DecimalString.

(** * Notions for the further properties *)

(** How many newline characters a text holds. *)
Definition count_newlines (text : str) : nat :=
  List.length (filter (N.eqb newline) text).

(** The chain behind each route, the key of its payload, and the inputs
    the chain gets. *)
Definition chain_of (r : route) : chain :=
  match r with
  | explain => explain_chain
  | suggest => suggest_chain
  | debug => debug_chain
  | whatif => what_if_chain
  end.

Definition inputs_of (r : route) (code question : str) : dict :=
  match r with
  | whatif => what_if_inputs code question
  | _ => code_inputs code
  end.

(** The [error] field of a response. *)
Definition error_of (resp : response) : option str :=
  match resp with
  | Explanation x => ExplanationResponse.error x
  | Suggestion x => SuggestionResponse.error x
  | Debugging x => DebugResponse.error x
  | WhatIf x => WhatIfResponse.error x
  end.

(** The response of a route whose chain answered [text]. *)
Definition success_response (r : route) (text : str) : response :=
  match r with
  | explain =>
      Explanation {| ExplanationResponse.line_by_line := None;
                     ExplanationResponse.overall_summary := Some text;
                     ExplanationResponse.error := None |}
  | suggest =>
      Suggestion {| SuggestionResponse.suggestions := Some (kept_lines text);
                    SuggestionResponse.error := None |}
  | debug =>
      Debugging {| DebugResponse.potential_bugs :=
                     Some (map (fun issue => [(py "issue", issue)])
                             (kept_lines text));
                   DebugResponse.error := None |}
  | whatif =>
      WhatIf {| WhatIfResponse.explanation := Some text;
                WhatIfResponse.modified_code := None;
                WhatIfResponse.error := None |}
  end.

(** The request passes validation ([code] is a string and [language] is
    not null) and the endpoint's guard: the fields that the route reads
    are not empty. *)
Definition well_formed (r : route) (b : RequestBody) (code question : str) : Prop :=
  body_code b = Some code
  /\ body_language b <> Some None
  /\ truthy code = true
  /\ match r with
     | whatif => body_user_question b = Some question /\ truthy question = true
     | _ => True
     end.

(** Whether the [language] of a body is null. *)
Definition language_is_null (b : RequestBody) : bool :=
  match body_language b with
  | Some None => true
  | _ => false
  end.

(** The pre-check of [/explain] lets the code pass; the other routes have
    none. *)
Definition precheck_passes (w : World) (r : route) (code : str) : Prop :=
  match r with
  | explain =>
      existsb is_surrogate code = false /\ exists tree, grammar w code = Ret tree
  | _ => True
  end.

(** The nodes below the top level of a module: the children of the
    module's children, with all their descendants. *)
Definition below_top_level (tree : node) : list node :=
  flat_map descendants (flat_map iter_child_nodes (iter_child_nodes tree)).

(** A world whose suggestion chain answers a text for the code [x] and,
    for any other code, the lines kept from that text. *)
Definition stable_world : World := {|
  grammar := grammar sample_world;
  ainvoke := fun _ inputs =>
    let text := py " a " ++ [10; 10]%N ++ py "b  " in
    match get inputs (py "code") with
    | VStr c => if Str.eqb c (py "x") then Ret text
                else Ret (join newline (kept_lines text))
    | _ => Ret text
    end
|}.

(** The service function behind each route. *)
Definition service_of (provider : str) (w : World) (r : route)
    (code question : str) : M dict :=
  match r with
  | explain => get_code_explanation provider w code
  | suggest => get_code_suggestions provider w code
  | debug => get_code_debugging_info provider w code
  | whatif => answer_what_if_question provider w code question
  end.

(** The dict a service returns when its chain answered [text]. *)
Definition payload_of (r : route) (text : str) : dict :=
  match r with
  | explain => [(py "overall_summary", VStr text)]
  | suggest => [(py "suggestions", VList (map VStr (kept_lines text)))]
  | debug => [(py "potential_bugs", VList (map issue_record (kept_lines text)))]
  | whatif => [(py "explanation", VStr text)]
  end.

(** The trace once the pre-check, where there is one, has passed. *)
Definition after_precheck (r : route) (code : str) (t0 : trace) : trace :=
  match r with
  | explain => t0 ++ [AstParse code]
  | _ => t0
  end.

(** The text of the generic error of a chain. *)
Definition internal_error_message (c : chain) : value :=
  get (internal_error c) (py "error").

(** The key of the payload of each route. *)
Definition payload_key (r : route) : str :=
  match r with
  | explain => py "overall_summary"
  | suggest => py "suggestions"
  | debug => py "potential_bugs"
  | whatif => py "explanation"
  end.

(** A world whose chains all fail with an exception that names a secret. *)
Definition failing_world : World := {|
  grammar := grammar sample_world;
  ainvoke := fun _ _ =>
    Raise (Exn RuntimeError (py "401 Unauthorized: invalid key sk-live-1234"))
|}.

(** The fields of a response that no code path fills. *)
Definition unused_fields_empty (resp : response) : Prop :=
  match resp with
  | Explanation x => ExplanationResponse.line_by_line x = None
  | WhatIf x => WhatIfResponse.modified_code x = None
  | _ => True
  end.

(** A host on which Groq is configured under an upper-case name. *)
Definition groq_host : Host := {|
  getenv := fun name =>
    if Str.eqb name (py "LLM_PROVIDER") then Some (py "GROQ")
    else if Str.eqb name (py "GROQ_API_KEY") then Some (py "gsk_0")
    else None;
  lower := ascii_lower;
  construct := fun _ _ => None
|}.

(** The same host with the key of another provider set as well. *)
Definition groq_host_with_openai_key : Host := {|
  getenv := fun name =>
    if Str.eqb name (py "OPENAI_API_KEY") then Some (py "sk-0")
    else getenv groq_host name;
  lower := ascii_lower;
  construct := fun _ _ => None
|}.

(** * [frontend/app.py] *)

Module App.

Definition BACKEND_URL : str := py "http://localhost:8000".

(** What [requests] and the JSON decoder may raise, by the classes that
    the [except] clauses of [call_api] tell apart. *)
Inductive raised_kind : Set :=
| RequestError        (* a RequestException that is no JSONDecodeError *)
| RequestsJSONError   (* requests' JSONDecodeError: a RequestException too *)
| JSONError           (* json.JSONDecodeError that is no RequestException *)
| OtherError          (* any other Exception *)
| NotAnException.     (* a BaseException that is no Exception *)

(** The exceptions of the UI process. *)
Inductive py_exc : Type :=
| HTTPError (status : N)                 (* from [raise_for_status] *)
| Raised (k : raised_kind) (msg : str)   (* from the library *)
| UnboundLocalError (name : str)
| AttributeError (attribute : str)
| KeyMissing (key : str)
| TypeError.

Definition is_request_exception (e : py_exc) : bool :=
  match e with
  | HTTPError _ | Raised RequestError _ | Raised RequestsJSONError _ => true
  | _ => false
  end.

Definition is_json_decode_error (e : py_exc) : bool :=
  match e with
  | Raised RequestsJSONError _ | Raised JSONError _ => true
  | _ => false
  end.

Definition is_exception (e : py_exc) : bool :=
  match e with
  | Raised NotAnException _ => false
  | _ => true
  end.

Inductive ui_outcome (A : Type) : Type :=
| Done (a : A)
| Crash (e : py_exc).
Arguments Done {A} a.
Arguments Crash {A} e.

(** The response object of [requests]: [json] is what [response.json()]
    does. *)
Record HttpResponse : Type := {
  status_code : N;
  json : ui_outcome value;
  text : str
}.

(** The network: what [requests.post(url, json=payload, timeout=...)]
    does. *)
Record Net : Type := {
  requests_post : str -> dict -> N -> ui_outcome HttpResponse
}.

(** The pieces of an f-string, or the one argument of a display call. *)
Inductive ui_piece : Type :=
| Lit (s : str)
| Val (v : value)
| Exc (e : py_exc).

(** The display calls: on [st] itself and on [result_placeholder]. *)
Inductive widget : Set :=
| st_spinner | st_error | st_text | st_warning
| ph_markdown | ph_warning | ph_error | ph_info | ph_code.

Inductive ui_event : Type :=
| HttpPost (url : str) (payload : dict) (timeout : N)
| Display (w : widget) (line : list ui_piece).

Definition UI (A : Type) : Type :=
  list ui_event -> ui_outcome A * list ui_event.

Definition ui_ret {A} (a : A) : UI A := fun t => (Done a, t).

Definition ui_raise {A} (e : py_exc) : UI A := fun t => (Crash e, t).

Definition ui_bind {A B} (m : UI A) (k : A -> UI B) : UI B :=
  fun t =>
    match m t with
    | (Done a, t') => k a t'
    | (Crash e, t') => (Crash e, t')
    end.

Definition ui_lift {A} (o : ui_outcome A) : UI A := fun t => (o, t).

Definition ui_emit (ev : ui_event) : UI unit := fun t => (Done tt, t ++ [ev]).

Definition show (w : widget) (line : list ui_piece) : UI unit :=
  ui_emit (Display w line).

(** [try: body except ...: handlers]: every exception of the body goes to
    [handlers], which re-raises what no clause takes. *)
Definition ui_try {A} (body : UI A) (handlers : py_exc -> UI A) : UI A :=
  fun t =>
    match body t with
    | (Done a, t') => (Done a, t')
    | (Crash e, t') => handlers e t'
    end.

Declare Scope ui_scope.
Delimit Scope ui_scope with ui.
Notation "x <- c1 ;; c2" := (ui_bind c1 (fun x => c2))
  (at level 61, c1 at next level, right associativity) : ui_scope.
Notation "c1 ;;; c2" := (ui_bind c1 (fun _ => c2))
  (at level 61, right associativity) : ui_scope.
Local Open Scope ui_scope.

(** [for x in items: body(x)]. *)
Fixpoint for_each {A} (items : list A) (body : A -> UI unit) : UI unit :=
  match items with
  | [] => ui_ret tt
  | x :: rest => body x ;;; for_each rest body
  end.

(** [v.get(k)], [v.get(k, default)], [v[k]] and iteration over [v], for
    the JSON values of the backend's answers: null, strings, arrays and
    objects. *)
Definition py_get (v : value) (k : str) : UI value :=
  match v with
  | VDict d => ui_ret (get d k)
  | _ => ui_raise (AttributeError (py "get"))
  end.

Definition py_get_default (v : value) (k : str) (default : value) : UI value :=
  match v with
  | VDict d => ui_ret (get_default d k default)
  | _ => ui_raise (AttributeError (py "get"))
  end.

Definition py_item (v : value) (k : str) : UI value :=
  match v with
  | VDict d =>
      match lookup d k with
      | Some x => ui_ret x
      | None => ui_raise (KeyMissing k)
      end
  | _ => ui_raise TypeError
  end.

Definition py_iter (v : value) : UI (list value) :=
  match v with
  | VList items => ui_ret items
  | VStr s => ui_ret (map (fun c => VStr [c]) s)
  | VDict d => ui_ret (map (fun kv => VStr (fst kv)) d)
  | VNone => ui_raise TypeError
  end.

(** [response.raise_for_status()]. *)
Definition raise_for_status (response : HttpResponse) : UI unit :=
  if ((400 <=? status_code response) && (status_code response <? 600))%N
  then ui_raise (HTTPError (status_code response))
  else ui_ret tt.

(** The local variable [response] when it is read in a handler: it is
    unbound when [requests.post] itself raised. *)
Definition read_response (response : option HttpResponse) : UI HttpResponse :=
  match response with
  | Some r => ui_ret r
  | None => ui_raise (UnboundLocalError (py "response"))
  end.

(** The two [except] clauses of [call_api], with the inner [try]. *)
Definition handlers (response : option HttpResponse) (e : py_exc) : UI value :=
  if is_request_exception e then
    show st_error [Lit (py "API request failed: "); Exc e] ;;;
    ui_try
      (r <- read_response response ;;
       body <- ui_lift (json r) ;;
       error_detail <-
         py_get_default body (py "detail") (VStr (py "No details available.")) ;;
       show st_error [Lit (py "Backend Error: "); Val error_detail])
      (fun e' =>
         if is_exception e' then
           show st_error
             [Lit (py "Could not retrieve error details from the backend.")]
         else ui_raise e') ;;;
    ui_ret VNone
  else if is_json_decode_error e then
    show st_error [Lit (py "Failed to decode API response. Received:")] ;;;
    r <- read_response response ;;
    show st_text [Lit (text r)] ;;;
    ui_ret VNone
  else ui_raise e.

Definition api_payload (code : str) (question : option str) : dict :=
  [(py "code", VStr code)]
  ++ match question with
     | Some q => if truthy q then [(py "user_question", VStr q)] else []
     | None => []
     end.

(** [call_api(endpoint, code, question)]; the result [None] is [VNone]. *)
Definition call_api (net : Net) (endpoint code : str) (question : option str)
    : UI value :=
  let url := BACKEND_URL ++ py "/" ++ endpoint in
  let payload := api_payload code question in
  ui_emit (HttpPost url payload 60) ;;;
  match requests_post net url payload 60 with
  | Crash e => handlers None e
  | Done response =>
      ui_try
        (raise_for_status response ;;;
         ui_lift (json response))
        (handlers (Some response))
  end.

(** The options of the select box. *)
Definition action_options : list str :=
  [py "Explain Code"; py "Suggest Improvements"; py "Debug Code";
   py "Answer 'What Is Ask'"].

(** [a and b.get(k)] as a condition. *)
Definition and_get (result : value) (k : str) : UI bool :=
  if value_truthy result then
    v <- py_get result k ;; ui_ret (value_truthy v)
  else ui_ret false.

Section Analysis.

Variable net : Net.
Variables code_input what_if_question action : str.

Definition explain_branch : UI value :=
  result <- call_api net (py "explain") code_input None ;;
  (if value_truthy result then
     show ph_markdown [Lit (py "### Explanation:")] ;;;
     summary <- py_get result (py "overall_summary") ;;
     if value_truthy summary then
       v <- py_item result (py "overall_summary") ;;
       show ph_markdown [Val v]
     else show ph_warning [Lit (py "No explanation received.")]
   else ui_ret tt) ;;;
  ui_ret result.

Definition suggest_branch : UI value :=
  result <- call_api net (py "suggest") code_input None ;;
  c <- and_get result (py "suggestions") ;;
  (if c then
     show ph_markdown [Lit (py "### Suggestions:")] ;;;
     v <- py_item result (py "suggestions") ;;
     items <- py_iter v ;;
     for_each items (fun suggestion =>
       show ph_markdown [Lit (py "- "); Val suggestion])
   else if value_truthy result then
     show ph_warning [Lit (py "No suggestions received or an error occurred.")]
   else ui_ret tt) ;;;
  ui_ret result.

Definition debug_branch : UI value :=
  result <- call_api net (py "debug") code_input None ;;
  c <- and_get result (py "potential_bugs") ;;
  (if c then
     show ph_markdown [Lit (py "### Potential Bugs / Issues:")] ;;;
     v <- py_item result (py "potential_bugs") ;;
     items <- py_iter v ;;
     for_each items (fun bug =>
       issue <- py_get_default bug (py "issue") (VStr (py "Unknown issue")) ;;
       line <- py_get_default bug (py "line") (VStr (py "N/A")) ;;
       show ph_markdown
         [Lit (py "- **Line "); Val line; Lit (py ":** "); Val issue])
   else if value_truthy result then
     show ph_warning [Lit (py "No debugging info received or an error occurred.")]
   else ui_ret tt) ;;;
  ui_ret result.

Definition what_if_branch : UI value :=
  if truthy what_if_question then
    result <- call_api net (py "whatif") code_input (Some what_if_question) ;;
    (if value_truthy result then
       show ph_markdown [Lit (py "### 'What If' Analysis:")] ;;;
       explanation <- py_get result (py "explanation") ;;
       (if value_truthy explanation then
          v <- py_item result (py "explanation") ;;
          show ph_markdown [Val v]
        else ui_ret tt) ;;;
       modified <- py_get result (py "modified_code") ;;
       if value_truthy modified then
         show ph_markdown [Lit (newline :: py "**Modified Code:**")] ;;;
         v <- py_item result (py "modified_code") ;;
         show ph_code [Val v; Lit (py "python")]
       else
         explanation' <- py_get result (py "explanation") ;;
         if negb (value_truthy explanation') then
           show ph_warning
             [Lit (py "No response received for 'What If' scenario.")]
         else ui_ret tt
     else ui_ret tt) ;;;
    ui_ret result
  else
    show st_warning [Lit (py "Please enter a 'What If' question.")] ;;;
    ui_ret VNone.

(** The block under "Analysis Result", from the click of the button on. *)
Definition analysis (submit_button : bool) : UI unit :=
  if submit_button && truthy code_input then
    show st_spinner [Lit (py "Analyzing code... Please wait.")] ;;;
    result <-
      (if Str.eqb action (py "Explain Code") then explain_branch
       else if Str.eqb action (py "Suggest Improvements") then suggest_branch
       else if Str.eqb action (py "Debug Code") then debug_branch
       else if Str.eqb action (py "Answer 'What If'") then what_if_branch
       else ui_ret VNone) ;;
    c <- and_get result (py "error") ;;
    if c then
      e <- py_get result (py "error") ;;
      show ph_error
        [Lit (py "Error during '"); Lit action; Lit (py "': "); Val e]
    else if negb (value_truthy result)
            && negb (Str.eqb action (py "Answer 'What If'")
                     && negb (truthy what_if_question)) then
      show ph_error [Lit (py "Failed to get analysis from the backend.")]
    else ui_ret tt
  else if submit_button && negb (truthy code_input) then
    show st_warning [Lit (py "Please enter some code to analyze.")]
  else
    show ph_info
      [Lit (py "Enter code and select an action to see the analysis here.")].

End Analysis.

End App.

Import App.

(** ** Notions for the statements about the UI *)

Definition is_post (ev : ui_event) : bool :=
  match ev with HttpPost _ _ _ => true | Display _ _ => false end.

(** The requests in a run of the UI. *)
Definition posts (t : list ui_event) : list ui_event := filter is_post t.

(** A computation that sends nothing. *)
Definition quiet {A} (m : UI A) : Prop :=
  forall t, posts (snd (m t)) = posts t.

Definition url_of (endpoint : str) : str := BACKEND_URL ++ py "/" ++ endpoint.

(** The requests that one run of the analysis block sends. *)
Definition expected_posts (code_input what_if_question action : str)
    (submit_button : bool) : list ui_event :=
  if submit_button && truthy code_input then
    if Str.eqb action (py "Explain Code") then
      [HttpPost (url_of (py "explain")) (api_payload code_input None) 60]
    else if Str.eqb action (py "Suggest Improvements") then
      [HttpPost (url_of (py "suggest")) (api_payload code_input None) 60]
    else if Str.eqb action (py "Debug Code") then
      [HttpPost (url_of (py "debug")) (api_payload code_input None) 60]
    else if Str.eqb action (py "Answer 'What If'") then
      if truthy what_if_question then
        [HttpPost (url_of (py "whatif"))
           (api_payload code_input (Some what_if_question)) 60]
      else []
    else []
  else [].

(** The JSON body of a response model: every field, [None] as null. *)
Definition json_opt {A} (f : A -> value) (o : option A) : value :=
  match o with Some a => f a | None => VNone end.

Definition json_record (bug : list (str * str)) : value :=
  VDict (map (fun kv => (fst kv, VStr (snd kv))) bug).

Definition to_json (resp : response) : value :=
  match resp with
  | Explanation x =>
      VDict [(py "line_by_line",
              json_opt
                (fun l =>
                   VDict (map (fun kv =>
                                 (py (DecimalString.NilZero.string_of_int (Z.to_int (fst kv))),
                                  VStr (snd kv))) l))
                (ExplanationResponse.line_by_line x));
             (py "overall_summary", json_opt VStr (ExplanationResponse.overall_summary x));
             (py "error", json_opt VStr (ExplanationResponse.error x))]
  | Suggestion x =>
      VDict [(py "suggestions",
              json_opt (fun l => VList (map VStr l)) (SuggestionResponse.suggestions x));
             (py "error", json_opt VStr (SuggestionResponse.error x))]
  | Debugging x =>
      VDict [(py "potential_bugs",
              json_opt (fun l => VList (map json_record l))
                (DebugResponse.potential_bugs x));
             (py "error", json_opt VStr (DebugResponse.error x))]
  | WhatIf x =>
      VDict [(py "explanation", json_opt VStr (WhatIfResponse.explanation x));
             (py "modified_code", json_opt VStr (WhatIfResponse.modified_code x));
             (py "error", json_opt VStr (WhatIfResponse.error x))]
  end.

(** A network whose every answer is the given response. *)
Definition constant_net (r : HttpResponse) : Net :=
  {| requests_post := fun _ _ _ => Done r |}.

(** A network that is down. *)
Definition dead_net : Net :=
  {| requests_post := fun _ _ _ =>
       Crash (Raised RequestError (py "Connection refused")) |}.

(** The endpoint that each of the first three options calls. *)
Definition endpoint_of (action : str) : option str :=
  if Str.eqb action (py "Explain Code") then Some (py "explain")
  else if Str.eqb action (py "Suggest Improvements") then Some (py "suggest")
  else if Str.eqb action (py "Debug Code") then Some (py "debug")
  else None.

Definition spinner : ui_event :=
  Display st_spinner [Lit (py "Analyzing code... Please wait.")].

Definition failed_analysis : ui_event :=
  Display ph_error [Lit (py "Failed to get analysis from the backend.")].

(** The line that the UI writes for one potential bug, and for one
    suggestion. *)
Definition bug_line (issue : str) : ui_event :=
  Display ph_markdown
    [Lit (py "- **Line "); Val (VStr (py "N/A")); Lit (py ":** ");
     Val (VStr issue)].

Definition suggestion_line (suggestion : str) : ui_event :=
  Display ph_markdown [Lit (py "- "); Val (VStr suggestion)].

(** An answer with status 200 and the given JSON body. *)
Definition ok_response (body : value) : HttpResponse :=
  {| status_code := 200; json := Done body; text := [] |}.

(** An answer with an error status and a detail, as the framework gives
    for an [HTTPException]. *)
Definition error_response (status : N) (detail : value) : HttpResponse :=
  {| status_code := status; json := Done (VDict [(py "detail", detail)]);
     text := [] |}.

(** ** What the result placeholder shows *)

(** [result_placeholder] is [st.empty()], a slot for one element: each
    call on it replaces what the slot held.  What it shows after a run is
    what the last call on it wrote. *)
Definition on_placeholder (ev : ui_event) : bool :=
  match ev with
  | Display (ph_markdown | ph_warning | ph_error | ph_info | ph_code) _ => true
  | _ => false
  end.

Fixpoint last_of {A} (l : list A) : option A :=
  match l with
  | [] => None
  | [x] => Some x
  | _ :: rest => last_of rest
  end.

Definition placeholder_shows (t : list ui_event) : option ui_event :=
  last_of (filter on_placeholder t).

Definition no_debugging_info : ui_event :=
  Display ph_warning [Lit (py "No debugging info received or an error occurred.")].

Definition no_suggestions : ui_event :=
  Display ph_warning [Lit (py "No suggestions received or an error occurred.")].

Definition no_explanation : ui_event :=
  Display ph_warning [Lit (py "No explanation received.")].

(** * String facts *)


Lemma eqb_refl (a : str) : Str.eqb a a = true.
Proof.
  induction a as [|x a IH]; simpl; [reflexivity|].
  rewrite N.eqb_refl, IH. reflexivity.
Qed.

Lemma eqb_eq (a b : str) : Str.eqb a b = true <-> a = b.
Proof.
  split.
  - revert b. induction a as [|x a IH]; intros [|y b] H; simpl in H;
      try discriminate; [reflexivity|].
    apply andb_true_iff in H. destruct H as [Hx Hab].
    apply N.eqb_eq in Hx. subst y. f_equal. apply IH. exact Hab.
  - intros ->. apply eqb_refl.
Qed.

Lemma drop_while_all (p : codepoint -> bool) (s : str) :
  drop_while p s = [] <-> forallb p s = true.
Proof.
  induction s as [|c s IH]; simpl.
  - tauto.
  - destruct (p c); simpl.
    + exact IH.
    + split; discriminate.
Qed.

Lemma drop_while_suffix (p : codepoint -> bool) (s : str) :
  exists pre, s = pre ++ drop_while p s /\ forallb p pre = true.
Proof.
  induction s as [|c s [pre [E A]]]; simpl.
  - exists []. split; reflexivity.
  - destruct (p c) eqn:Hc.
    + exists (c :: pre). simpl. rewrite Hc, A. split; [f_equal; exact E | reflexivity].
    + exists []. split; reflexivity.
Qed.

Lemma drop_while_head (p : codepoint -> bool) (s : str) c r :
  drop_while p s = c :: r -> p c = false.
Proof.
  induction s as [|x s IH]; simpl; [discriminate|].
  destruct (p x) eqn:Hx; [exact IH|].
  intros E. injection E as -> _. exact Hx.
Qed.

Lemma drop_while_fix (p : codepoint -> bool) (s : str) :
  drop_while p (drop_while p s) = drop_while p s.
Proof.
  destruct (drop_while p s) as [|c r] eqn:E; [reflexivity|].
  simpl. rewrite (drop_while_head p s c r E). reflexivity.
Qed.

Lemma forallb_rev (p : codepoint -> bool) (s : str) :
  forallb p (rev s) = forallb p s.
Proof.
  induction s as [|c s IH]; simpl; [reflexivity|].
  rewrite forallb_app, IH. simpl. rewrite andb_true_r. apply andb_comm.
Qed.

(** Stripping leaves nothing exactly when the line is blank. *)
Lemma strip_nil_iff (s : str) : strip s = [] <-> is_blank s = true.
Proof.
  unfold strip, rstrip, lstrip, is_blank.
  destruct (drop_while_suffix is_space s) as [pre [E A]].
  split.
  - intros H.
    assert (H' : drop_while is_space (rev (drop_while is_space s)) = []).
    { apply (f_equal (@rev codepoint)) in H. rewrite rev_involutive in H. exact H. }
    apply drop_while_all in H'. rewrite forallb_rev in H'.
    rewrite E, forallb_app, A, H'. reflexivity.
  - intros H. apply drop_while_all in H. rewrite H. reflexivity.
Qed.

Lemma truthy_strip (s : str) : truthy (strip s) = negb (is_blank s).
Proof.
  destruct (is_blank s) eqn:B.
  - apply strip_nil_iff in B. rewrite B. reflexivity.
  - destruct (strip s) eqn:E; [|reflexivity].
    apply strip_nil_iff in E. congruence.
Qed.

(** A stripped string starts with a character that is not whitespace. *)
Lemma strip_head (s : str) c r : strip s = c :: r -> is_space c = false.
Proof.
  unfold strip, rstrip, lstrip.
  set (t := drop_while is_space s).
  destruct (drop_while_suffix is_space (rev t)) as [pre [E A]].
  intros H.
  assert (Ht : t = rev (drop_while is_space (rev t)) ++ rev pre).
  { rewrite <- rev_app_distr, <- E, rev_involutive. reflexivity. }
  rewrite H in Ht. simpl in Ht.
  apply (drop_while_head is_space s c (r ++ rev pre)). exact Ht.
Qed.

(** What stripping returns is never blank, unless it is empty. *)
Lemma strip_not_blank (s : str) : strip s <> [] -> is_blank (strip s) = false.
Proof.
  intros H. destruct (strip s) as [|c r] eqn:E; [congruence|].
  unfold is_blank. simpl. rewrite (strip_head s c r E). reflexivity.
Qed.

Lemma split_not_nil (sep : codepoint) (s : str) : split sep s <> [].
Proof.
  destruct s as [|c s]; simpl; [discriminate|].
  destruct (c =? sep)%N; [discriminate|].
  destruct (split sep s); discriminate.
Qed.

(** The pieces, joined again by the separator, give the text back. *)
Lemma join_split (sep : codepoint) (s : str) : join sep (split sep s) = s.
Proof.
  induction s as [|c s IH]; simpl; [reflexivity|].
  destruct (N.eqb_spec c sep) as [->|Hne].
  - simpl. destruct (split sep s) eqn:E.
    + exfalso. exact (split_not_nil sep s E).
    + rewrite IH. reflexivity.
  - destruct (split sep s) as [|p ps] eqn:E.
    + exfalso. exact (split_not_nil sep s E).
    + simpl in *. destruct ps; simpl; rewrite <- IH; reflexivity.
Qed.

(** No piece contains the separator. *)
Lemma split_no_sep (sep : codepoint) (s : str) :
  Forall (fun piece => ~ In sep piece) (split sep s).
Proof.
  induction s as [|c s IH]; simpl.
  - constructor; [intros [] | constructor].
  - destruct (N.eqb_spec c sep) as [->|Hne].
    + constructor; [intros [] | exact IH].
    + destruct (split sep s) as [|p ps].
      * constructor; [|constructor]. intros [H|[]]. congruence.
      * inversion IH as [|? ? Hp Hps]; subst.
        constructor; [|exact Hps].
        intros [H|H]; [congruence | exact (Hp H)].
Qed.


(** Stripping twice is stripping once. *)
Lemma strip_idem (s : str) : strip (strip s) = strip s.
Proof.
  assert (L : lstrip (strip s) = strip s).
  { unfold lstrip. destruct (strip s) as [|c r] eqn:E; [reflexivity|].
    simpl. rewrite (strip_head s c r E). reflexivity. }
  unfold strip at 1. rewrite L.
  unfold strip, rstrip.
  rewrite rev_involutive, drop_while_fix. reflexivity.
Qed.

(** * Effects: what each function adds to the trace *)

Arguments isinstance : simpl never.
Arguments py : simpl never.
Arguments network_calls : simpl never.
Arguments syntax_checks : simpl never.

Ltac unfold_effects :=
  unfold ainvoke_chain, ast_parse, print in *;
  unfold try_except, bind, emit, lift, ret, raise in *;
  cbn [select_handler fst snd] in *.

Lemma network_calls_app (a b : trace) :
  network_calls (a ++ b) = network_calls a ++ network_calls b.
Proof. apply filter_app. Qed.

Lemma syntax_checks_app (a b : trace) :
  syntax_checks (a ++ b) = syntax_checks a ++ syntax_checks b.
Proof. apply filter_app. Qed.

Lemma network_calls_print (t : trace) (line : list piece) :
  network_calls (t ++ [Printed line]) = network_calls t.
Proof. rewrite network_calls_app. apply app_nil_r. Qed.

Lemma network_calls_parse (t : trace) (code : str) :
  network_calls (t ++ [AstParse code]) = network_calls t.
Proof. rewrite network_calls_app. apply app_nil_r. Qed.

Lemma syntax_checks_print (t : trace) (line : list piece) :
  syntax_checks (t ++ [Printed line]) = syntax_checks t.
Proof. rewrite syntax_checks_app. apply app_nil_r. Qed.

Lemma syntax_checks_ainvoke (t : trace) (c : chain) (inputs : dict) :
  syntax_checks (t ++ [Ainvoke c inputs]) = syntax_checks t.
Proof. rewrite syntax_checks_app. apply app_nil_r. Qed.

Lemma unicode_error_is_no_syntax_error (msg : str) :
  isinstance (Exn UnicodeEncodeError msg) SyntaxError = false.
Proof. reflexivity. Qed.

(** The pre-check returns the tree, returns [None] after a [SyntaxError],
    or lets any other exception through; it calls the parser once and no
    chain. *)
Lemma parse_python_code_cases (w : World) (code : str) (t0 : trace) :
  let r := parse_python_code w code t0 in
  network_calls (snd r) = network_calls t0 /\
  ((exists tree, fst r = Ret (Some tree) /\ grammar w code = Ret tree) \/
   (exists e, fst r = Ret None /\ isinstance e SyntaxError = true) \/
   (exists e, fst r = Raise e /\ isinstance e SyntaxError = false)).
Proof.
  unfold parse_python_code. unfold_effects.
  destruct (existsb is_surrogate code).
  - cbn [select_handler]. rewrite unicode_error_is_no_syntax_error.
    cbn [fst snd]. split; [apply network_calls_parse|].
    right. right. eexists. split; [reflexivity|].
    apply unicode_error_is_no_syntax_error.
  - destruct (grammar w code) as [tree|e] eqn:G; cbn [select_handler fst snd].
    + split; [apply network_calls_parse|].
      left. exists tree. split; reflexivity.
    + destruct (isinstance e SyntaxError) eqn:I; cbn [fst snd].
      * split; [rewrite network_calls_print; apply network_calls_parse|].
        right. left. exists e. split; [reflexivity | exact I].
      * split; [apply network_calls_parse|].
        right. right. exists e. split; [reflexivity | exact I].
Qed.

(** An exception of the grammar that is no [SyntaxError] leaves
    [parse_python_code] as it came. *)
Lemma parse_python_code_lets_through (w : World) (code : str) (e : exn) (t0 : trace) :
  existsb is_surrogate code = false ->
  grammar w code = Raise e ->
  isinstance e SyntaxError = false ->
  fst (parse_python_code w code t0) = Raise e.
Proof.
  intros S G I. unfold parse_python_code. unfold_effects.
  rewrite S, G. cbn [select_handler fst snd]. rewrite I. reflexivity.
Qed.

(** After a failed pre-check the explanation service returns at once. *)
Lemma explanation_after_failed_check
    (provider : str) (w : World) (code : str) (t0 t1 : trace) :
  parse_python_code w code t0 = (Ret None, t1) ->
  get_code_explanation provider w code t0 = (Ret syntax_error_result, t1)
  /\ network_calls t1 = network_calls t0.
Proof.
  intros H. split.
  - unfold get_code_explanation, bind. rewrite H. reflexivity.
  - pose proof (parse_python_code_cases w code t0) as [N _].
    rewrite H in N. exact N.
Qed.

(** * The claims *)

(** C1. When the syntax pre-check fails ([parse_python_code] returns
    [None]), [get_code_explanation] returns the dict whose [error] entry is
    the syntax-error message, and no chain is invoked: the trace is the one
    the pre-check left, with no network call added. *)
Theorem explain_short_circuits_on_syntax_error
    (provider : str) (w : World) (code : str) (t0 t1 : trace) :
  parse_python_code w code t0 = (Ret None, t1) ->
  get_code_explanation provider w code t0 = (Ret syntax_error_result, t1)
  /\ get syntax_error_result (py "error")
     = VStr (py "Syntax error in code, cannot parse.")
  /\ network_calls t1 = network_calls t0.
Proof.
  intros H.
  destruct (explanation_after_failed_check provider w code t0 t1 H) as [E N].
  split; [exact E|]. split; [reflexivity | exact N].
Qed.

Lemma explain_short_circuits_on_syntax_error_witness :
  exists t1,
    parse_python_code sample_world (py "def f(:") [] = (Ret None, t1)
    /\ get_code_explanation (py "groq") sample_world (py "def f(:") []
       = (Ret syntax_error_result, t1)
    /\ network_calls t1 = [].
Proof.
  eexists. split; [vm_compute; reflexivity|].
  split.
  - apply (explain_short_circuits_on_syntax_error (py "groq") sample_world
             (py "def f(:") []).
    vm_compute. reflexivity.
  - reflexivity.
Defined.

(** C2, as stated, fails: on the text [def f(:] the pre-check fails and
    the [/explain] endpoint does not return a response body with an [error]
    field; it raises an [HTTPException] with status 500. *)
Lemma explain_syntax_error_no_body_counterexample :
  let payload := {| code := py "def f(:"; language := py "python";
                    user_question := None |} in
  result_of (parse_python_code sample_world (code payload)) = Ret None
  /\ result_of (explain_code (py "groq") sample_world payload)
     = Raise (HTTPExn 500 (VStr (py "Syntax error in code, cannot parse.")))
  /\ ~ (exists r, result_of (explain_code (py "groq") sample_world payload) = Ret r
                  /\ ExplanationResponse.error r
                     = Some (py "Syntax error in code, cannot parse.")).
Proof.
  cbv zeta. split; [vm_compute; reflexivity|].
  split; [vm_compute; reflexivity|].
  intros [r [H _]]. vm_compute in H. discriminate H.
Qed.

(** C2, amended. When the pre-check fails on [/explain], the endpoint
    raises an [HTTPException] with status 500 whose detail is the
    syntax-error message; the framework answers with that status, and no
    chain is invoked. *)
Theorem explain_syntax_error_is_http_500
    (provider : str) (w : World) (payload : CodeInput) (t0 t1 : trace) :
  truthy (code payload) = true ->
  parse_python_code w (code payload) t0 = (Ret None, t1) ->
  explain_code provider w payload t0
  = (Raise (HTTPExn HTTP_500_INTERNAL_SERVER_ERROR
              (VStr (py "Syntax error in code, cannot parse."))), t1)
  /\ status_of (fst (explain_code provider w payload t0)) = 500%N
  /\ network_calls t1 = network_calls t0.
Proof.
  intros T H.
  destruct (explanation_after_failed_check provider w _ t0 t1 H) as [E N].
  assert (R : explain_code provider w payload t0
              = (Raise (HTTPExn HTTP_500_INTERNAL_SERVER_ERROR
                          (VStr (py "Syntax error in code, cannot parse."))), t1)).
  { unfold explain_code. rewrite T. cbn [negb]. unfold bind. rewrite E.
    reflexivity. }
  split; [exact R|]. split; [rewrite R; reflexivity | exact N].
Qed.

Lemma explain_syntax_error_is_http_500_witness :
  let payload := {| code := py "def f(:"; language := py "python";
                    user_question := None |} in
  truthy (code payload) = true
  /\ status_of (fst (explain_code (py "groq") sample_world payload [])) = 500%N.
Proof.
  cbv zeta. split; [reflexivity|].
  destruct (explain_syntax_error_is_http_500 (py "groq") sample_world
              {| code := py "def f(:"; language := py "python";
                 user_question := None |} []
              (snd (parse_python_code sample_world (py "def f(:") []))
              eq_refl eq_refl) as [_ [S _]].
  exact S.
Defined.


(** ** The service functions, run *)

Lemma kept_lines_comprehension {A} (f : str -> A) (text : str) :
  map (fun s => f (strip s))
    (filter (fun s => truthy (strip s)) (split newline text))
  = map f (kept_lines text).
Proof.
  unfold kept_lines, spec_nonblank_lines. rewrite map_map.
  f_equal. apply filter_ext. intros s. apply truthy_strip.
Qed.

Lemma kept_lines_not_blank (text : str) :
  Forall (fun entry => entry <> [] /\ is_blank entry = false) (kept_lines text).
Proof.
  unfold kept_lines, spec_nonblank_lines.
  apply Forall_forall. intros entry H.
  apply in_map_iff in H. destruct H as [line [<- H]].
  apply filter_In in H. destruct H as [_ B].
  apply negb_true_iff in B.
  assert (N : strip line <> []).
  { intros E. apply strip_nil_iff in E. congruence. }
  split; [exact N | apply strip_not_blank; exact N].
Qed.

(** The suggestion service: one chain call, then the list of kept lines,
    the generic error for an [Exception], or the exception itself. *)
Lemma get_code_suggestions_run (provider : str) (w : World) (code : str) (t0 : trace) :
  let t1 := t0 ++ [Ainvoke suggest_chain (code_inputs code)] in
  match ainvoke w suggest_chain (code_inputs code) with
  | Ret text =>
      get_code_suggestions provider w code t0
      = (Ret [(py "suggestions", VList (map VStr (kept_lines text)))], t1)
  | Raise e =>
      if isinstance e Exception then
        exists line,
          get_code_suggestions provider w code t0
          = (Ret (internal_error suggest_chain), t1 ++ [Printed line])
      else get_code_suggestions provider w code t0 = (Raise e, t1)
  end.
Proof.
  unfold get_code_suggestions, code_inputs. unfold_effects.
  destruct (ainvoke w suggest_chain _) as [text|e]; cbn [select_handler].
  - rewrite kept_lines_comprehension. reflexivity.
  - destruct (isinstance e Exception); [eexists|]; reflexivity.
Qed.

Lemma get_code_debugging_info_run (provider : str) (w : World) (code : str) (t0 : trace) :
  let t1 := t0 ++ [Ainvoke debug_chain (code_inputs code)] in
  match ainvoke w debug_chain (code_inputs code) with
  | Ret text =>
      get_code_debugging_info provider w code t0
      = (Ret [(py "potential_bugs", VList (map issue_record (kept_lines text)))], t1)
  | Raise e =>
      if isinstance e Exception then
        exists line,
          get_code_debugging_info provider w code t0
          = (Ret (internal_error debug_chain), t1 ++ [Printed line])
      else get_code_debugging_info provider w code t0 = (Raise e, t1)
  end.
Proof.
  unfold get_code_debugging_info, code_inputs. unfold_effects.
  destruct (ainvoke w debug_chain _) as [text|e]; cbn [select_handler].
  - rewrite (kept_lines_comprehension issue_record). reflexivity.
  - destruct (isinstance e Exception); [eexists|]; reflexivity.
Qed.

Lemma answer_what_if_question_run (provider : str) (w : World)
    (code question : str) (t0 : trace) :
  let t1 := t0 ++ [Ainvoke what_if_chain (what_if_inputs code question)] in
  match ainvoke w what_if_chain (what_if_inputs code question) with
  | Ret text =>
      answer_what_if_question provider w code question t0
      = (Ret [(py "explanation", VStr text)], t1)
  | Raise e =>
      if isinstance e Exception then
        exists line,
          answer_what_if_question provider w code question t0
          = (Ret (internal_error what_if_chain), t1 ++ [Printed line])
      else answer_what_if_question provider w code question t0 = (Raise e, t1)
  end.
Proof.
  unfold answer_what_if_question, what_if_inputs. unfold_effects.
  destruct (ainvoke w what_if_chain _) as [text|e]; cbn [select_handler].
  - reflexivity.
  - destruct (isinstance e Exception); [eexists|]; reflexivity.
Qed.

(** The explanation service after a successful pre-check. *)
Lemma get_code_explanation_run (provider : str) (w : World) (code : str)
    (tree : node) (t0 t1 : trace) :
  parse_python_code w code t0 = (Ret (Some tree), t1) ->
  let t2 := t1 ++ [Ainvoke explain_chain (code_inputs code)] in
  match ainvoke w explain_chain (code_inputs code) with
  | Ret text =>
      get_code_explanation provider w code t0
      = (Ret [(py "overall_summary", VStr text)], t2)
  | Raise e =>
      if isinstance e Exception then
        exists line,
          get_code_explanation provider w code t0
          = (Ret (internal_error explain_chain), t2 ++ [Printed line])
      else get_code_explanation provider w code t0 = (Raise e, t2)
  end.
Proof.
  intros H. cbv zeta.
  assert (G : forall k : option node -> M dict,
             bind (parse_python_code w code) k t0 = k (Some tree) t1).
  { intros k. unfold bind. rewrite H. reflexivity. }
  unfold get_code_explanation, code_inputs. rewrite G. unfold_effects.
  destruct (ainvoke w explain_chain _) as [text|e]; cbn [select_handler].
  - reflexivity.
  - destruct (isinstance e Exception); [eexists|]; reflexivity.
Qed.

Lemma get_code_suggestions_service_run (provider : str) (w : World) (code : str) (t0 : trace) :
  service_run suggest_chain (py "suggestions") (code_inputs code) t0
    (get_code_suggestions provider w code t0).
Proof.
  pose proof (get_code_suggestions_run provider w code t0) as R. cbv zeta in R.
  destruct (ainvoke w suggest_chain (code_inputs code)) as [text|e].
  - rewrite R. constructor.
  - destruct (isinstance e Exception) eqn:I.
    + destruct R as [line ->]. constructor.
    + rewrite R. constructor. exact I.
Qed.

Lemma get_code_debugging_info_service_run (provider : str) (w : World) (code : str) (t0 : trace) :
  service_run debug_chain (py "potential_bugs") (code_inputs code) t0
    (get_code_debugging_info provider w code t0).
Proof.
  pose proof (get_code_debugging_info_run provider w code t0) as R. cbv zeta in R.
  destruct (ainvoke w debug_chain (code_inputs code)) as [text|e].
  - rewrite R. constructor.
  - destruct (isinstance e Exception) eqn:I.
    + destruct R as [line ->]. constructor.
    + rewrite R. constructor. exact I.
Qed.

Lemma answer_what_if_question_service_run (provider : str) (w : World)
    (code question : str) (t0 : trace) :
  service_run what_if_chain (py "explanation") (what_if_inputs code question) t0
    (answer_what_if_question provider w code question t0).
Proof.
  pose proof (answer_what_if_question_run provider w code question t0) as R.
  cbv zeta in R.
  destruct (ainvoke w what_if_chain (what_if_inputs code question)) as [text|e].
  - rewrite R. constructor.
  - destruct (isinstance e Exception) eqn:I.
    + destruct R as [line ->]. constructor.
    + rewrite R. constructor. exact I.
Qed.

Lemma network_calls_ainvoke (t : trace) (c : chain) (inputs : dict) :
  network_calls (t ++ [Ainvoke c inputs]) = network_calls t ++ [Ainvoke c inputs].
Proof. rewrite network_calls_app. reflexivity. Qed.

Lemma internal_error_is_no_syntax_error (c : chain) :
  get (internal_error c) (py "error")
  <> VStr (py "Syntax error in code, cannot parse.").
Proof. destruct c; vm_compute; discriminate. Qed.

Lemma service_run_reaches_network (c : chain) (payload : str) (inputs : dict)
    (t0 : trace) (r : outcome dict * trace) :
  Str.eqb payload (py "error") = false ->
  service_run c payload inputs t0 r ->
  reaches_network c inputs t0 r.
Proof.
  intros P R. unfold reaches_network.
  destruct R as [v|line|e I]; cbn [fst snd].
  - split; [apply network_calls_ainvoke|].
    split; [apply syntax_checks_ainvoke|].
    intros [d [E G]]. injection E as <-.
    unfold get in G. cbn [lookup] in G. rewrite P in G. discriminate G.
  - split; [rewrite network_calls_print; apply network_calls_ainvoke|].
    split; [rewrite syntax_checks_print; apply syntax_checks_ainvoke|].
    intros [d [E G]]. injection E as <-.
    exact (internal_error_is_no_syntax_error c G).
  - split; [apply network_calls_ainvoke|].
    split; [apply syntax_checks_ainvoke|].
    intros [d [E _]]. discriminate E.
Qed.

Lemma service_run_one_key (c : chain) (payload : str) (inputs : dict)
    (t0 : trace) (r : outcome dict * trace) :
  service_run c payload inputs t0 r ->
  one_key_or_uncaught payload Exception (fst r).
Proof.
  intros R. destruct R as [v|line|e I]; cbn [fst].
  - left. eexists. split; [reflexivity|]. left. reflexivity.
  - left. eexists. split; [reflexivity|]. right. reflexivity.
  - right. exists e. split; [reflexivity | exact I].
Qed.

Lemma syntax_error_is_exception (e : exn) :
  isinstance e Exception = false -> isinstance e SyntaxError = false.
Proof.
  unfold isinstance. destruct (class_of e); vm_compute; congruence.
Qed.

(** C4. The suggestion and the debug post-processing keep exactly the
    non-blank lines of the response text, each stripped, in the order of
    the text; no entry of the result is empty or blank. *)
Theorem postprocessing_keeps_nonblank_lines_in_order
    (provider : str) (w : World) (code text : str) (t0 : trace) :
  (ainvoke w suggest_chain (code_inputs code) = Ret text ->
   fst (get_code_suggestions provider w code t0)
   = Ret [(py "suggestions",
           VList (map VStr (map strip (spec_nonblank_lines text))))])
  /\ (ainvoke w debug_chain (code_inputs code) = Ret text ->
      fst (get_code_debugging_info provider w code t0)
      = Ret [(py "potential_bugs",
              VList (map issue_record (map strip (spec_nonblank_lines text))))])
  /\ Forall (fun entry => entry <> [] /\ is_blank entry = false)
       (map strip (spec_nonblank_lines text)).
Proof.
  split; [|split].
  - intros H. pose proof (get_code_suggestions_run provider w code t0) as R.
    cbv zeta in R. rewrite H in R. rewrite R. reflexivity.
  - intros H. pose proof (get_code_debugging_info_run provider w code t0) as R.
    cbv zeta in R. rewrite H in R. rewrite R. reflexivity.
  - apply kept_lines_not_blank.
Qed.

Lemma postprocessing_keeps_nonblank_lines_in_order_witness :
  let text := (py "  Use a list. " ++ [10; 32; 9; 10]%N ++ py "Avoid globals.") in
  spec_nonblank_lines text = [py "  Use a list. "; py "Avoid globals."]
  /\ fst (get_code_suggestions (py "groq") sample_world (py "x") [])
     = Ret [(py "suggestions",
             VList [VStr (py "Use a list."); VStr (py "Avoid globals.")])]
  /\ fst (get_code_debugging_info (py "groq") sample_world (py "x") [])
     = Ret [(py "potential_bugs",
             VList [issue_record (py "Use a list.");
                    issue_record (py "Avoid globals.")])].
Proof.
  cbv zeta.
  pose proof (postprocessing_keeps_nonblank_lines_in_order (py "groq")
                sample_world (py "x")
                (py "  Use a list. " ++ [10; 32; 9; 10]%N ++ py "Avoid globals.")
                []) as [S [D _]].
  split; [vm_compute; reflexivity|].
  split.
  - rewrite S; [vm_compute; reflexivity | reflexivity].
  - rewrite D; [vm_compute; reflexivity | reflexivity].
Defined.

(** C5. For every code string and question, the suggestion, debug and
    what-if services invoke their chain exactly once with the text as it
    came, make no syntax check, and never produce the syntax-error
    result. *)
Theorem unchecked_services_always_reach_network
    (provider : str) (w : World) (code question : str) (t0 : trace) :
  reaches_network suggest_chain (code_inputs code) t0
    (get_code_suggestions provider w code t0)
  /\ reaches_network debug_chain (code_inputs code) t0
       (get_code_debugging_info provider w code t0)
  /\ reaches_network what_if_chain (what_if_inputs code question) t0
       (answer_what_if_question provider w code question t0).
Proof.
  split; [|split].
  - apply (service_run_reaches_network suggest_chain (py "suggestions"));
      [reflexivity | apply get_code_suggestions_service_run].
  - apply (service_run_reaches_network debug_chain (py "potential_bugs"));
      [reflexivity | apply get_code_debugging_info_service_run].
  - apply (service_run_reaches_network what_if_chain (py "explanation"));
      [reflexivity | apply answer_what_if_question_service_run].
Qed.

(** C8, at the input that breaks it. For a code string that holds a lone
    surrogate, [ast.parse] raises [UnicodeEncodeError], which is an
    [Exception] but no [SyntaxError]: [parse_python_code] does not return
    [None], the exception reaches the caller, and [get_code_explanation],
    which calls the pre-check outside its [try], lets it through as well. *)
Theorem parse_python_code_lets_unicode_error_through
    (provider : str) (w : World) (t0 : trace) :
  let e := Exn UnicodeEncodeError (py "surrogates not allowed") in
  fst (parse_python_code w [55296%N] t0) = Raise e
  /\ isinstance e Exception = true
  /\ isinstance e SyntaxError = false
  /\ fst (get_code_explanation provider w [55296%N] t0) = Raise e.
Proof.
  cbv zeta.
  assert (P : parse_python_code w [55296%N] t0
              = (Raise (Exn UnicodeEncodeError (py "surrogates not allowed")),
                 t0 ++ [AstParse [55296%N]])).
  { unfold parse_python_code. unfold_effects. cbn [existsb].
    replace (is_surrogate 55296%N || false) with true by reflexivity.
    cbn [select_handler]. rewrite unicode_error_is_no_syntax_error.
    reflexivity. }
  split; [rewrite P; reflexivity|].
  split; [reflexivity|]. split; [reflexivity|].
  unfold get_code_explanation, bind. rewrite P. reflexivity.
Qed.

(** C9. Each of the four service functions returns a dict with exactly one
    key, the payload field of that function or [error]; when it returns no
    dict, an exception of a class it does not catch has been raised. *)
Theorem service_results_have_exactly_one_key
    (provider : str) (w : World) (code question : str) (t0 : trace) :
  one_key_or_uncaught (py "overall_summary") SyntaxError
    (fst (get_code_explanation provider w code t0))
  /\ one_key_or_uncaught (py "suggestions") Exception
       (fst (get_code_suggestions provider w code t0))
  /\ one_key_or_uncaught (py "potential_bugs") Exception
       (fst (get_code_debugging_info provider w code t0))
  /\ one_key_or_uncaught (py "explanation") Exception
       (fst (answer_what_if_question provider w code question t0)).
Proof.
  split; [|split; [|split]].
  - pose proof (parse_python_code_cases w code t0) as [_ C]. cbv zeta in C.
    destruct (parse_python_code w code t0) as [o t1] eqn:P. cbn [fst] in C.
    destruct C as [[tree [-> _]] | [[e [-> _]] | [e [-> I]]]].
    + pose proof (get_code_explanation_run provider w code tree t0 t1 P) as R.
      cbv zeta in R.
      destruct (ainvoke w explain_chain (code_inputs code)) as [text|e].
      * rewrite R. left. eexists. split; [reflexivity|]. left. reflexivity.
      * destruct (isinstance e Exception) eqn:I.
        -- destruct R as [line ->]. left. eexists.
           split; [reflexivity|]. right. reflexivity.
        -- rewrite R. right. exists e.
           split; [reflexivity | apply syntax_error_is_exception; exact I].
    + destruct (explanation_after_failed_check provider w code t0 t1 P) as [-> _].
      left. eexists. split; [reflexivity|]. right. reflexivity.
    + right. exists e. split; [|exact I].
      unfold get_code_explanation, bind. rewrite P. reflexivity.
  - exact (service_run_one_key _ _ _ _ _
             (get_code_suggestions_service_run provider w code t0)).
  - exact (service_run_one_key _ _ _ _ _
             (get_code_debugging_info_service_run provider w code t0)).
  - exact (service_run_one_key _ _ _ _ _
             (answer_what_if_question_service_run provider w code question t0)).
Qed.

(** C10. Every record of the [potential_bugs] list is a dict with the one
    key [issue]; its value is a line of the response, stripped and not
    empty. No record has a [line] key, so the read of that key in the UI
    always falls back to its default. *)
Theorem debug_records_carry_only_issue
    (provider : str) (w : World) (code text : str) (t0 : trace) :
  ainvoke w debug_chain (code_inputs code) = Ret text ->
  exists bugs : list dict,
    fst (get_code_debugging_info provider w code t0)
    = Ret [(py "potential_bugs", VList (map VDict bugs))]
    /\ Forall
         (fun bug =>
            exists issue,
              bug = [(py "issue", VStr issue)]
              /\ keys bug = [py "issue"]
              /\ issue <> []
              /\ strip issue = issue
              /\ (exists line, In line (split newline text) /\ issue = strip line)
              /\ lookup bug (py "line") = None
              /\ line_of bug = VStr (py "N/A"))
         bugs.
Proof.
  intros H.
  exists (map (fun issue => [(py "issue", VStr issue)]) (kept_lines text)).
  split.
  - pose proof (get_code_debugging_info_run provider w code t0) as R.
    cbv zeta in R. rewrite H in R. rewrite R. rewrite map_map. reflexivity.
  - apply Forall_forall. intros bug B.
    apply in_map_iff in B. destruct B as [issue [<- B]].
    exists issue. split; [reflexivity|]. split; [reflexivity|].
    pose proof (kept_lines_not_blank text) as K.
    rewrite Forall_forall in K. destruct (K issue B) as [N _].
    unfold kept_lines, spec_nonblank_lines in B.
    apply in_map_iff in B. destruct B as [line [E B]].
    apply filter_In in B. destruct B as [L _].
    split; [exact N|].
    split; [rewrite <- E; apply strip_idem|].
    split; [exists line; split; [exact L | symmetry; exact E]|].
    split; reflexivity.
Qed.

Lemma debug_records_carry_only_issue_witness :
  exists bugs : list dict,
    fst (get_code_debugging_info (py "groq") sample_world (py "x") [])
    = Ret [(py "potential_bugs", VList (map VDict bugs))]
    /\ Forall (fun bug => keys bug = [py "issue"]) bugs.
Proof.
  destruct (debug_records_carry_only_issue (py "groq") sample_world (py "x")
              (py "  Use a list. " ++ [10; 32; 9; 10]%N ++ py "Avoid globals.")
              [] eq_refl) as [bugs [R F]].
  exists bugs. split; [exact R|].
  apply Forall_forall. intros bug B.
  rewrite Forall_forall in F.
  destruct (F bug B) as [issue [_ [K _]]]. exact K.
Defined.

(** ** The endpoints' guards *)

(** A request with an empty [code] is refused by every endpoint before the
    service is called. *)
Lemma empty_code_is_refused (provider : str) (w : World) (r : route)
    (payload : CodeInput) (t0 : trace) :
  truthy (code payload) = false ->
  (payload' <- lift (Ret payload) ;;
   match r with
   | explain => x <- explain_code provider w payload' ;; ret (Explanation x)
   | suggest => x <- suggest_improvements provider w payload' ;; ret (Suggestion x)
   | debug => x <- debug_code provider w payload' ;; ret (Debugging x)
   | whatif => x <- what_if_scenario provider w payload' ;; ret (WhatIf x)
   end) t0
  = (Raise (HTTPExn HTTP_400_BAD_REQUEST (VStr (fixed_message r))), t0).
Proof.
  intros T.
  destruct r; unfold explain_code, suggest_improvements, debug_code,
    what_if_scenario, bind, lift, raise; rewrite T; reflexivity.
Qed.




(** ** Start of the process *)

Lemma network_calls_prints (t ps : trace) :
  forallb is_print ps = true -> network_calls (t ++ ps) = network_calls t.
Proof.
  intros P. rewrite network_calls_app.
  replace (network_calls ps) with (@nil event); [apply app_nil_r|].
  induction ps as [|ev ps IH]; [reflexivity|].
  cbn in P. apply andb_true_iff in P. destruct P as [Pe Pp].
  destruct ev; try discriminate Pe. exact (IH Pp).
Qed.

Lemma syntax_checks_prints (t ps : trace) :
  forallb is_print ps = true -> syntax_checks (t ++ ps) = syntax_checks t.
Proof.
  intros P. rewrite syntax_checks_app.
  replace (syntax_checks ps) with (@nil event); [apply app_nil_r|].
  induction ps as [|ev ps IH]; [reflexivity|].
  cbn in P. apply andb_true_iff in P. destruct P as [Pe Pp].
  destruct ev; try discriminate Pe. exact (IH Pp).
Qed.

(** The module body, case by case; it only prints. *)
Lemma initialise_cases (h : Host) (t0 : trace) :
  (exists ps, snd (initialise h t0) = t0 ++ ps /\ forallb is_print ps = true)
  /\ fst (initialise h t0)
     = match config_lookup PROVIDER_CONFIG (LLM_PROVIDER_of h) with
       | None => Raise startup_error
       | Some config =>
           if opt_truthy (getenv h (api_key_name config)) then
             match construct h (class config) (model config) with
             | None =>
                 Ret {| client_class := class config;
                        client_model := model config;
                        client_temperature := (3, -1)%Z |}
             | Some e =>
                 if isinstance e Exception then Raise startup_error else Raise e
             end
           else Raise startup_error
       end.
Proof.
  unfold initialise. unfold_effects.
  destruct (config_lookup PROVIDER_CONFIG (LLM_PROVIDER_of h)) as [config|].
  - destruct (opt_truthy (getenv h (api_key_name config))); cbn [negb].
    + destruct (construct h (class config) (model config)) as [e|];
        cbn [select_handler].
      * destruct (isinstance e ImportError) eqn:I.
        -- assert (X : isinstance e Exception = true).
           { unfold isinstance in *. destruct (class_of e);
               vm_compute in I; try discriminate I; reflexivity. }
           rewrite X. cbn [fst snd]. split; [|reflexivity].
           eexists. rewrite <- !app_assoc. split; reflexivity.
        -- destruct (isinstance e Exception); cbn [fst snd];
             (split; [|reflexivity]); eexists;
             rewrite <- ?app_assoc; split; reflexivity.
      * cbn [fst snd]. split; [|reflexivity].
        eexists. rewrite <- !app_assoc. split; reflexivity.
    + cbn [fst snd]. split; [|reflexivity].
      eexists. rewrite <- !app_assoc. split; reflexivity.
  - cbn [fst snd]. split; [|reflexivity].
    eexists. rewrite <- !app_assoc. split; reflexivity.
Qed.

(** C7. When the provider name is not in the table, or the credential is
    absent, or constructing the client raises, the module body ends with
    the [RuntimeError]; the backend raises it before serving any request,
    so that no syntax check and no chain call is ever made. *)
Theorem misconfigured_provider_refuses_to_start
    (h : Host) (w : World) (requests : list (route * RequestBody)) (t0 : trace) :
  misconfigured h ->
  fst (initialise h t0) = Raise startup_error
  /\ class_of startup_error = RuntimeError
  /\ fst (backend h w requests t0) = Raise startup_error
  /\ network_calls (snd (backend h w requests t0)) = network_calls t0
  /\ syntax_checks (snd (backend h w requests t0)) = syntax_checks t0.
Proof.
  intros Mis.
  destruct (initialise_cases h t0) as [[ps [T P]] R].
  assert (I : fst (initialise h t0) = Raise startup_error).
  { rewrite R. unfold misconfigured in Mis.
    destruct (config_lookup PROVIDER_CONFIG (LLM_PROVIDER_of h)) as [config|];
      [|reflexivity].
    destruct (opt_truthy (getenv h (api_key_name config))); [|reflexivity].
    destruct Mis as [K | [e [C X]]]; [discriminate K|].
    rewrite C, X. reflexivity. }
  assert (B : backend h w requests t0 = (Raise startup_error, t0 ++ ps)).
  { unfold backend, bind.
    rewrite (surjective_pairing (initialise h t0)), I, T. reflexivity. }
  split; [exact I|]. split; [reflexivity|].
  rewrite B. cbn [fst snd]. split; [reflexivity|].
  split; [apply network_calls_prints | apply syntax_checks_prints]; exact P.
Qed.

Lemma misconfigured_provider_refuses_to_start_witness :
  misconfigured bare_host
  /\ fst (backend bare_host sample_world
            [(explain, {| body_code := Some (py "x"); body_language := None;
                          body_user_question := None |})] [])
     = Raise startup_error.
Proof.
  assert (Mis : misconfigured bare_host) by (left; reflexivity).
  split; [exact Mis|].
  destruct (misconfigured_provider_refuses_to_start bare_host sample_world
              [(explain, {| body_code := Some (py "x"); body_language := None;
                            body_user_question := None |})] [] Mis)
    as [_ [_ [B _]]].
  exact B.
Defined.

(** ** The walk over the tree *)

(** The loop with its accumulator is the concatenation of the names. *)
Lemma collect_function_names (ns : list node) (acc : list str) :
  fold_left
    (fun functions n =>
       match kind_of n with
       | FunctionDef name => functions ++ [name]
       | _ => functions
       end)
    ns acc
  = acc ++ flat_map function_name ns.
Proof.
  revert acc. induction ns as [|n ns IH]; intros acc; cbn [fold_left flat_map].
  - symmetry. apply app_nil_r.
  - rewrite IH. unfold function_name at 2.
    destruct (kind_of n); cbn [app]; rewrite <- ?app_assoc; reflexivity.
Qed.

Lemma get_function_definitions_walk (tree : node) :
  get_function_definitions tree = flat_map function_name (walk tree).
Proof. unfold get_function_definitions. apply collect_function_names. Qed.

(** The queue is emptied level by level: what is in the queue comes out
    first, in order, before any of its children. *)
Lemma walk_queue_app (a b : list node) :
  walk_queue (a ++ b) = a ++ walk_queue (b ++ flat_map iter_child_nodes a).
Proof.
  revert b. induction a as [|x a IH]; intros b.
  - cbn [app flat_map]. rewrite app_nil_r. reflexivity.
  - cbn [app flat_map]. simp walk_queue.
    rewrite <- app_assoc, IH, <- app_assoc. reflexivity.
Qed.

Lemma walk_queue_levels (q : list node) :
  walk_queue q = q ++ walk_queue (flat_map iter_child_nodes q).
Proof.
  rewrite <- (app_nil_r q) at 1. rewrite walk_queue_app. reflexivity.
Qed.

(** The walk visits every node of the forest once. *)
Lemma walk_queue_descendants (q : list node) :
  Permutation (walk_queue q) (flat_map descendants q).
Proof.
  funelim (walk_queue q).
  - constructor.
  - cbn [flat_map]. destruct n as [k cs]. cbn [descendants app iter_child_nodes] in *.
    apply perm_skip.
    match goal with IH : Permutation _ _ |- _ => rewrite IH end.
    rewrite flat_map_app. apply Permutation_app_comm.
Qed.

(** C3, as stated, fails: for the module with a class [A] that has a
    method [m], and a function [f], the result lists [m] as well. *)
Lemma nested_function_listed_counterexample :
  get_function_definitions sample_tree = [py "f"; py "m"]
  /\ spec_top_level_function_names sample_tree = [py "f"]
  /\ get_function_definitions sample_tree
     <> spec_top_level_function_names sample_tree.
Proof.
  split; [reflexivity|]. split; [reflexivity|].
  intros H. vm_compute in H. discriminate H.
Qed.

(** C3, amended. [get_function_definitions] returns the names of all
    [FunctionDef] nodes of the tree, nested functions and methods
    included, breadth first: the root's own name if it is a function, then
    the top-level function names, then the names found deeper; as a
    multiset these are the names of the [FunctionDef] nodes among all
    descendants. *)
Theorem function_definitions_of_whole_tree (tree : node) :
  get_function_definitions tree
  = function_name tree ++ spec_top_level_function_names tree
    ++ flat_map function_name
         (walk_queue (flat_map iter_child_nodes (iter_child_nodes tree)))
  /\ Permutation (get_function_definitions tree)
       (flat_map function_name (descendants tree))
  /\ (forall name,
        In name (get_function_definitions tree)
        <-> exists n, In n (descendants tree) /\ kind_of n = FunctionDef name).
Proof.
  assert (P : Permutation (get_function_definitions tree)
                (flat_map function_name (descendants tree))).
  { rewrite get_function_definitions_walk. unfold walk.
    apply Permutation_flat_map.
    rewrite (walk_queue_descendants [tree]). cbn [flat_map].
    rewrite app_nil_r. reflexivity. }
  split; [|split; [exact P|]].
  - rewrite get_function_definitions_walk. unfold walk.
    rewrite walk_queue_levels. cbn [flat_map app]. rewrite app_nil_r.
    rewrite walk_queue_levels. rewrite flat_map_app. reflexivity.
  - intros name. split.
    + intros H. apply (Permutation_in _ P) in H.
      apply in_flat_map in H. destruct H as [n [D F]].
      exists n. split; [exact D|].
      unfold function_name in F. destruct (kind_of n); try contradiction.
      destruct F as [->|[]]. reflexivity.
    + intros [n [D K]]. apply (Permutation_in _ (Permutation_sym P)).
      apply in_flat_map. exists n. split; [exact D|].
      unfold function_name. rewrite K. left. reflexivity.
Qed.

(** * Further properties of the code *)

(** ** Lines of a response text *)

Lemma is_space_newline : is_space newline = true.
Proof. reflexivity. Qed.

(** A string is its stripped part between two runs of whitespace. *)
Lemma strip_decompose (s : str) :
  exists pre post,
    s = pre ++ strip s ++ post
    /\ is_blank pre = true /\ is_blank post = true.
Proof.
  unfold strip, rstrip, lstrip, is_blank.
  destruct (drop_while_suffix is_space s) as [pre [E A]].
  set (t := drop_while is_space s) in *.
  destruct (drop_while_suffix is_space (rev t)) as [pre' [E' A']].
  exists pre, (rev pre'). split; [|split].
  - rewrite <- rev_app_distr, <- E', rev_involutive. exact E.
  - exact A.
  - rewrite forallb_rev. exact A'.
Qed.

Lemma strip_incl (s : str) (c : codepoint) : In c (strip s) -> In c s.
Proof.
  intros H. destruct (strip_decompose s) as [pre [post [E _]]].
  rewrite E. apply in_or_app. right. apply in_or_app. left. exact H.
Qed.

(** A stripped string ends with a character that is not whitespace. *)
Lemma strip_last (s : str) (r : str) (c : codepoint) :
  strip s = r ++ [c] -> is_space c = false.
Proof.
  unfold strip, rstrip. intros H.
  apply (f_equal (@rev codepoint)) in H.
  rewrite rev_involutive, rev_app_distr in H. cbn [rev app] in H.
  exact (drop_while_head is_space _ c (rev r) H).
Qed.

Lemma split_length (sep : codepoint) (s : str) :
  List.length (split sep s) = S (List.length (filter (N.eqb sep) s)).
Proof.
  induction s as [|c s IH]; [reflexivity|].
  cbn [split filter]. rewrite (N.eqb_sym sep c).
  destruct (N.eqb c sep).
  - cbn [List.length]. rewrite IH. reflexivity.
  - destruct (split sep s) as [|p ps]; [discriminate IH|]. exact IH.
Qed.

Lemma split_no_sep_single (sep : codepoint) (p : str) :
  ~ In sep p -> split sep p = [p].
Proof.
  induction p as [|c p IH]; intros H; [reflexivity|].
  cbn [split]. destruct (N.eqb_spec c sep) as [->|Hne].
  - exfalso. apply H. left. reflexivity.
  - rewrite IH; [reflexivity|]. intros I. apply H. right. exact I.
Qed.

Lemma split_app_sep (sep : codepoint) (p s : str) :
  ~ In sep p -> split sep (p ++ sep :: s) = p :: split sep s.
Proof.
  induction p as [|c p IH]; intros H.
  - cbn [app split]. rewrite N.eqb_refl. reflexivity.
  - cbn [app split]. destruct (N.eqb_spec c sep) as [->|Hne].
    + exfalso. apply H. left. reflexivity.
    + rewrite IH; [reflexivity|]. intros I. apply H. right. exact I.
Qed.

(** Splitting what was joined gives the pieces back, when there is a
    piece and no piece holds the separator. *)
Lemma split_join (sep : codepoint) (pieces : list str) :
  pieces <> [] ->
  Forall (fun p => ~ In sep p) pieces ->
  split sep (join sep pieces) = pieces.
Proof.
  induction pieces as [|p ps IH]; intros N F; [congruence|].
  inversion F as [|? ? Hp Hps]; subst.
  destruct ps as [|q qs].
  - cbn [join]. apply split_no_sep_single. exact Hp.
  - change (join sep (p :: q :: qs)) with (p ++ sep :: join sep (q :: qs)).
    rewrite split_app_sep by exact Hp.
    rewrite IH; [reflexivity | discriminate | exact Hps].
Qed.

(** Every piece of a text is blank exactly when the text is: the newline
    is whitespace itself. *)
Lemma split_all_blank (text : str) :
  forallb is_blank (split newline text) = is_blank text.
Proof.
  induction text as [|c s IH]; [reflexivity|].
  cbn [split]. destruct (N.eqb_spec c newline) as [->|Hne].
  - cbn [forallb is_blank]. rewrite IH. reflexivity.
  - destruct (split newline s) as [|p ps] eqn:E.
    + exfalso. exact (split_not_nil newline s E).
    + cbn [forallb] in *. unfold is_blank at 1. cbn [forallb].
      fold (is_blank p). rewrite <- andb_assoc, IH. reflexivity.
Qed.

Lemma kept_lines_nil_iff (text : str) :
  kept_lines text = [] <-> is_blank text = true.
Proof.
  rewrite <- split_all_blank. unfold kept_lines, spec_nonblank_lines.
  induction (split newline text) as [|p ps IH]; cbn [filter forallb map].
  - tauto.
  - destruct (is_blank p); cbn [negb map andb].
    + exact IH.
    + split; discriminate.
Qed.

Lemma kept_lines_in (text entry : str) :
  In entry (kept_lines text) ->
  exists line, In line (split newline text)
               /\ is_blank line = false /\ entry = strip line.
Proof.
  unfold kept_lines, spec_nonblank_lines. intros H.
  apply in_map_iff in H. destruct H as [line [E H]].
  apply filter_In in H. destruct H as [L B].
  exists line. split; [exact L|]. split; [|symmetry; exact E].
  apply negb_true_iff. exact B.
Qed.

Lemma kept_lines_no_newline (text : str) :
  Forall (fun entry => ~ In newline entry) (kept_lines text).
Proof.
  apply Forall_forall. intros entry H.
  destruct (kept_lines_in text entry H) as [line [L [_ ->]]].
  intros I. apply strip_incl in I.
  pose proof (split_no_sep newline text) as F.
  rewrite Forall_forall in F. exact (F line L I).
Qed.

(** Processing again what was kept, joined by newlines, keeps it all. *)
Lemma kept_lines_idem (text : str) :
  kept_lines (join newline (kept_lines text)) = kept_lines text.
Proof.
  destruct (kept_lines text) as [|e es] eqn:K; [reflexivity|].
  unfold kept_lines at 1, spec_nonblank_lines.
  rewrite split_join;
    [| discriminate | rewrite <- K; apply kept_lines_no_newline].
  pose proof (kept_lines_not_blank text) as NB. rewrite K in NB.
  assert (S : forall l, Forall (fun entry => entry <> [] /\ is_blank entry = false) l ->
                        (forall x, In x l -> strip x = x) ->
                        map strip (filter (fun line => negb (is_blank line)) l) = l).
  { induction l as [|x l IH]; intros F I; [reflexivity|].
    inversion F as [|? ? [_ B] Fl]; subst.
    cbn [filter]. rewrite B. cbn [negb map].
    rewrite (I x (or_introl eq_refl)). f_equal.
    apply IH; [exact Fl|]. intros y Hy. apply I. right. exact Hy. }
  apply S; [exact NB|].
  intros x Hx. rewrite <- K in Hx.
  destruct (kept_lines_in text x Hx) as [line [_ [_ ->]]]. apply strip_idem.
Qed.

Lemma kept_lines_length (text : str) :
  List.length (kept_lines text) <= S (count_newlines text).
Proof.
  unfold kept_lines, spec_nonblank_lines, count_newlines.
  rewrite length_map, <- split_length. apply filter_length_le.
Qed.

Lemma suggestions_of_text (provider : str) (w : World) (code text : str) (t0 : trace) :
  ainvoke w suggest_chain (code_inputs code) = Ret text ->
  get_code_suggestions provider w code t0
  = (Ret [(py "suggestions", VList (map VStr (kept_lines text)))],
     t0 ++ [Ainvoke suggest_chain (code_inputs code)]).
Proof.
  intros H. pose proof (get_code_suggestions_run provider w code t0) as R.
  cbv zeta in R. rewrite H in R. exact R.
Qed.

Lemma potential_bugs_of_text (provider : str) (w : World) (code text : str) (t0 : trace) :
  ainvoke w debug_chain (code_inputs code) = Ret text ->
  get_code_debugging_info provider w code t0
  = (Ret [(py "potential_bugs", VList (map issue_record (kept_lines text)))],
     t0 ++ [Ainvoke debug_chain (code_inputs code)]).
Proof.
  intros H. pose proof (get_code_debugging_info_run provider w code t0) as R.
  cbv zeta in R. rewrite H in R. exact R.
Qed.

Lemma map_nil_iff {A B} (f : A -> B) (l : list A) : map f l = [] <-> l = [].
Proof. destruct l; cbn; split; congruence. Qed.

(** X1. The list of suggestions, and the list of potential bugs, is empty
    exactly when the response text holds nothing but whitespace (the empty
    text and a text of newlines included). *)
Theorem blank_response_gives_empty_list
    (provider : str) (w : World) (code text : str) (t0 : trace) :
  (ainvoke w suggest_chain (code_inputs code) = Ret text ->
   (fst (get_code_suggestions provider w code t0)
    = Ret [(py "suggestions", VList [])]
    <-> is_blank text = true))
  /\ (ainvoke w debug_chain (code_inputs code) = Ret text ->
      (fst (get_code_debugging_info provider w code t0)
       = Ret [(py "potential_bugs", VList [])]
       <-> is_blank text = true)).
Proof.
  split; intros H.
  - rewrite (suggestions_of_text provider w code text t0 H). cbn [fst].
    rewrite <- kept_lines_nil_iff. split.
    + intros E. injection E as E. apply map_nil_iff in E. exact E.
    + intros ->. reflexivity.
  - rewrite (potential_bugs_of_text provider w code text t0 H). cbn [fst].
    rewrite <- kept_lines_nil_iff. split.
    + intros E. injection E as E. apply map_nil_iff in E. exact E.
    + intros ->. reflexivity.
Qed.

Lemma blank_response_gives_empty_list_witness :
  let w := {| grammar := grammar sample_world;
              ainvoke := fun _ _ => Ret [32; 10; 9; 10; 10]%N |} in
  fst (get_code_suggestions (py "groq") w (py "x") [])
  = Ret [(py "suggestions", VList [])]
  /\ fst (get_code_debugging_info (py "groq") w (py "x") [])
     = Ret [(py "potential_bugs", VList [])].
Proof.
  cbv zeta.
  destruct (blank_response_gives_empty_list (py "groq")
              {| grammar := grammar sample_world;
                 ainvoke := fun _ _ => Ret [32; 10; 9; 10; 10]%N |}
              (py "x") [32; 10; 9; 10; 10]%N []) as [S D].
  split.
  - apply (S eq_refl). reflexivity.
  - apply (D eq_refl). reflexivity.
Defined.

(** X2. Every suggestion, and every issue, is one trimmed line: it holds
    no newline, and neither its first nor its last character is
    whitespace. *)
Theorem kept_entries_are_trimmed_lines
    (provider : str) (w : World) (code text : str) (t0 : trace) :
  let trimmed (entry : str) :=
    ~ In newline entry
    /\ (forall c rest, entry = c :: rest -> is_space c = false)
    /\ (forall rest c, entry = rest ++ [c] -> is_space c = false) in
  (ainvoke w suggest_chain (code_inputs code) = Ret text ->
   exists entries,
     fst (get_code_suggestions provider w code t0)
     = Ret [(py "suggestions", VList (map VStr entries))]
     /\ Forall trimmed entries)
  /\ (ainvoke w debug_chain (code_inputs code) = Ret text ->
      exists entries,
        fst (get_code_debugging_info provider w code t0)
        = Ret [(py "potential_bugs", VList (map issue_record entries))]
        /\ Forall trimmed entries).
Proof.
  cbv zeta.
  assert (T : Forall (fun entry =>
                ~ In newline entry
                /\ (forall c rest, entry = c :: rest -> is_space c = false)
                /\ (forall rest c, entry = rest ++ [c] -> is_space c = false))
              (kept_lines text)).
  { apply Forall_forall. intros entry H.
    pose proof (kept_lines_no_newline text) as NL.
    rewrite Forall_forall in NL. split; [exact (NL entry H)|].
    destruct (kept_lines_in text entry H) as [line [_ [_ ->]]].
    split.
    - intros c rest E. exact (strip_head line c rest E).
    - intros rest c E. exact (strip_last line rest c E). }
  split; intros H; exists (kept_lines text); (split; [|exact T]).
  - rewrite (suggestions_of_text provider w code text t0 H). reflexivity.
  - rewrite (potential_bugs_of_text provider w code text t0 H). reflexivity.
Qed.

Lemma kept_entries_are_trimmed_lines_witness :
  exists entries,
    fst (get_code_suggestions (py "groq") sample_world (py "x") [])
    = Ret [(py "suggestions", VList (map VStr entries))]
    /\ Forall (fun entry => ~ In newline entry) entries.
Proof.
  destruct (kept_entries_are_trimmed_lines (py "groq") sample_world (py "x")
              (py "  Use a list. " ++ [10; 32; 9; 10]%N ++ py "Avoid globals.")
              []) as [S _].
  destruct (S eq_refl) as [entries [R F]].
  exists entries. split; [exact R|].
  apply Forall_forall. intros entry H. rewrite Forall_forall in F.
  exact (proj1 (F entry H)).
Defined.

(** X3. The post-processing is stable: when the chain is given back its
    own suggestions, one per line, the same suggestions come out. *)
Theorem suggestions_are_stable
    (provider : str) (w : World) (code code' text : str) (t0 : trace) :
  ainvoke w suggest_chain (code_inputs code) = Ret text ->
  ainvoke w suggest_chain (code_inputs code')
  = Ret (join newline (kept_lines text)) ->
  fst (get_code_suggestions provider w code' t0)
  = fst (get_code_suggestions provider w code t0).
Proof.
  intros H H'.
  rewrite (suggestions_of_text provider w code text t0 H).
  rewrite (suggestions_of_text provider w code' _ t0 H').
  cbn [fst]. rewrite kept_lines_idem. reflexivity.
Qed.

Lemma suggestions_are_stable_witness :
  fst (get_code_suggestions (py "groq") stable_world (py "y") [])
  = Ret [(py "suggestions", VList [VStr (py "a"); VStr (py "b")])].
Proof.
  rewrite (suggestions_are_stable (py "groq") stable_world (py "x") (py "y")
             (py " a " ++ [10; 10]%N ++ py "b  ") [] eq_refl eq_refl).
  vm_compute. reflexivity.
Defined.

(** X4. There are never more suggestions, or potential bugs, than the
    response text has lines: at most one more than its newlines. *)
Theorem entries_bounded_by_lines
    (provider : str) (w : World) (code text : str) (t0 : trace) :
  (ainvoke w suggest_chain (code_inputs code) = Ret text ->
   exists entries,
     fst (get_code_suggestions provider w code t0)
     = Ret [(py "suggestions", VList entries)]
     /\ List.length entries <= S (count_newlines text))
  /\ (ainvoke w debug_chain (code_inputs code) = Ret text ->
      exists bugs,
        fst (get_code_debugging_info provider w code t0)
        = Ret [(py "potential_bugs", VList bugs)]
        /\ List.length bugs <= S (count_newlines text)).
Proof.
  split; intros H; eexists; (split; [|rewrite length_map; apply kept_lines_length]).
  - rewrite (suggestions_of_text provider w code text t0 H). reflexivity.
  - rewrite (potential_bugs_of_text provider w code text t0 H). reflexivity.
Qed.

Lemma entries_bounded_by_lines_witness :
  exists entries,
    fst (get_code_suggestions (py "groq") sample_world (py "x") [])
    = Ret [(py "suggestions", VList entries)]
    /\ List.length entries <= 3.
Proof.
  destruct (entries_bounded_by_lines (py "groq") sample_world (py "x")
              (py "  Use a list. " ++ [10; 32; 9; 10]%N ++ py "Avoid globals.")
              []) as [S _].
  destruct (S eq_refl) as [entries [R L]].
  exists entries. split; [exact R | exact L].
Defined.

(** ** Surrogates in a response text *)

Lemma is_space_bound (c : codepoint) : is_space c = true -> (c <= 12288)%N.
Proof.
  unfold is_space. intros H.
  repeat (apply orb_true_iff in H; destruct H as [H|H]);
    repeat match goal with
           | H : (_ && _)%bool = true |- _ =>
               apply andb_true_iff in H; destruct H
           | H : (_ <=? _)%N = true |- _ => apply N.leb_le in H
           | H : (_ =? _)%N = true |- _ => apply N.eqb_eq in H
           end; lia.
Qed.

Lemma surrogate_is_no_space (c : codepoint) :
  is_surrogate c = true -> is_space c = false.
Proof.
  intros H. destruct (is_space c) eqn:E; [|reflexivity].
  apply is_space_bound in E. unfold is_surrogate in H.
  apply andb_true_iff in H. destruct H as [H _]. apply N.leb_le in H. lia.
Qed.

Lemma split_incl (sep : codepoint) (s piece : str) (c : codepoint) :
  In piece (split sep s) -> In c piece -> In c s.
Proof.
  revert piece. induction s as [|x s IH]; intros piece P I.
  - cbn in P. destruct P as [<-|[]]. exact I.
  - cbn [split] in P. destruct (N.eqb x sep).
    + destruct P as [<-|P]; [destruct I|]. right. exact (IH piece P I).
    + destruct (split sep s) as [|q qs] eqn:E.
      * exfalso. exact (split_not_nil sep s E).
      * destruct P as [<-|P].
        -- destruct I as [<-|I]; [left; reflexivity|].
           right. apply (IH q); [left; reflexivity | exact I].
        -- right. apply (IH piece); [right; exact P | exact I].
Qed.

Lemma split_covers (sep : codepoint) (s : str) (c : codepoint) :
  In c s -> c <> sep -> exists piece, In piece (split sep s) /\ In c piece.
Proof.
  intros I N. induction s as [|x s IH]; [destruct I|].
  cbn [split]. destruct (N.eqb_spec x sep) as [->|Hne].
  - destruct I as [E|I]; [congruence|].
    destruct (IH I) as [piece [P C]]. exists piece. split; [right; exact P | exact C].
  - destruct (split sep s) as [|q qs] eqn:E.
    + exfalso. exact (split_not_nil sep s E).
    + destruct I as [<-|I].
      * exists (x :: q). split; [left; reflexivity | left; reflexivity].
      * destruct (IH I) as [piece [[<-|P] C]].
        -- exists (x :: q). split; [left; reflexivity | right; exact C].
        -- exists piece. split; [right; exact P | exact C].
Qed.

Lemma forallb_In_false (p : codepoint -> bool) (s : str) (c : codepoint) :
  In c s -> p c = false -> forallb p s = false.
Proof.
  intros I P. destruct (forallb p s) eqn:F; [|reflexivity].
  rewrite forallb_forall in F. rewrite (F c I) in P. discriminate P.
Qed.

(** Stripping keeps every character that is not whitespace. *)
Lemma strip_keeps (s : str) (c : codepoint) :
  In c s -> is_space c = false -> In c (strip s).
Proof.
  intros I N. destruct (strip_decompose s) as [pre [post [E [Bpre Bpost]]]].
  rewrite E in I. apply in_app_or in I. destruct I as [I|I].
  - unfold is_blank in Bpre. rewrite (forallb_In_false is_space pre c I N) in Bpre.
    discriminate Bpre.
  - apply in_app_or in I. destruct I as [I|I]; [exact I|].
    unfold is_blank in Bpost.
    rewrite (forallb_In_false is_space post c I N) in Bpost. discriminate Bpost.
Qed.

Lemma encodable_false_iff (s : str) :
  encodable s = false <-> exists c, In c s /\ is_surrogate c = true.
Proof.
  unfold encodable. rewrite negb_false_iff. apply existsb_exists.
Qed.

(** The kept lines can be sent exactly when the text can: a surrogate is
    no whitespace and no newline, so it is never dropped. *)
Lemma kept_lines_encodable (text : str) :
  forallb encodable (kept_lines text) = encodable text.
Proof.
  destruct (encodable text) eqn:E.
  - apply forallb_forall. intros entry H.
    destruct (kept_lines_in text entry H) as [line [L [_ ->]]].
    destruct (encodable (strip line)) eqn:X; [reflexivity|].
    apply encodable_false_iff in X. destruct X as [c [I S]].
    assert (F : encodable text = false).
    { apply encodable_false_iff. exists c. split; [|exact S].
      apply (split_incl newline text line c L). apply strip_incl. exact I. }
    congruence.
  - apply encodable_false_iff in E. destruct E as [c [I S]].
    pose proof (surrogate_is_no_space c S) as NS.
    assert (N : c <> newline).
    { intros ->. rewrite is_space_newline in NS. discriminate NS. }
    destruct (split_covers newline text c I N) as [line [L C]].
    assert (B : is_blank line = false)
      by (exact (forallb_In_false is_space line c C NS)).
    assert (K : In (strip line) (kept_lines text)).
    { unfold kept_lines, spec_nonblank_lines. apply in_map.
      apply filter_In. split; [exact L|]. rewrite B. reflexivity. }
    destruct (forallb encodable (kept_lines text)) eqn:F; [|reflexivity].
    rewrite forallb_forall in F. specialize (F _ K).
    assert (X : encodable (strip line) = false).
    { apply encodable_false_iff. exists c. split; [|exact S].
      apply strip_keeps; assumption. }
    congruence.
Qed.

(** The response of a route can be serialised exactly when the text of
    the chain can be encoded. *)
Lemma success_response_serialisable (r : route) (text : str) :
  serialisable (success_response r text) = encodable text.
Proof.
  destruct r; cbn [success_response]; unfold serialisable, response_serialisable,
    serialisable, explanation_serialisable, suggestion_serialisable,
    debug_serialisable, what_if_serialisable;
    cbn [opt_encodable ExplanationResponse.line_by_line
         ExplanationResponse.overall_summary ExplanationResponse.error
         SuggestionResponse.suggestions SuggestionResponse.error
         DebugResponse.potential_bugs DebugResponse.error
         WhatIfResponse.explanation WhatIfResponse.modified_code
         WhatIfResponse.error andb].
  - apply andb_true_r.
  - rewrite andb_true_r. apply kept_lines_encodable.
  - rewrite andb_true_r. rewrite <- kept_lines_encodable.
    induction (kept_lines text) as [|e es IH]; [reflexivity|].
    cbn [map forallb fst snd]. rewrite IH.
    change (encodable (py "issue")) with true. cbn [andb].
    rewrite andb_true_r. reflexivity.
  - rewrite !andb_true_r. reflexivity.
Qed.

(** ** The endpoints, run *)

Lemma all_str_map (l : list str) : all_str (map VStr l) = Some l.
Proof.
  induction l as [|s l IH]; [reflexivity|]. cbn [map all_str]. rewrite IH.
  reflexivity.
Qed.

Lemma all_str_dicts_map (l : list str) :
  all_str_dicts (map issue_record l)
  = Some (map (fun issue => [(py "issue", issue)]) l).
Proof.
  induction l as [|s l IH]; [reflexivity|].
  cbn [map all_str_dicts issue_record all_str_entries]. rewrite IH.
  reflexivity.
Qed.

Lemma parse_python_code_passes (w : World) (code : str) (tree : node) (t0 : trace) :
  existsb is_surrogate code = false ->
  grammar w code = Ret tree ->
  parse_python_code w code t0 = (Ret (Some tree), t0 ++ [AstParse code]).
Proof.
  intros S G. unfold parse_python_code. unfold_effects.
  rewrite S, G. reflexivity.
Qed.

(** What the guards leave of a request whose fields are there. *)
Lemma post_well_formed (provider : str) (w : World) (r : route)
    (b : RequestBody) (code question : str) (t0 : trace) :
  well_formed r b code question ->
  post provider w r b t0
  = match r with
    | explain =>
        (result <- get_code_explanation provider w code ;;
         x <- (if value_truthy (get result (py "error")) then
                 detail <- lift (getitem result (py "error")) ;;
                 raise (HTTPExn HTTP_500_INTERNAL_SERVER_ERROR detail)
               else lift (ExplanationResponse.of_kwargs result)) ;;
         ret (Explanation x)) t0
    | suggest =>
        (result <- get_code_suggestions provider w code ;;
         x <- (if value_truthy (get result (py "error")) then
                 detail <- lift (getitem result (py "error")) ;;
                 raise (HTTPExn HTTP_500_INTERNAL_SERVER_ERROR detail)
               else lift (SuggestionResponse.of_kwargs result)) ;;
         ret (Suggestion x)) t0
    | debug =>
        (result <- get_code_debugging_info provider w code ;;
         x <- (if value_truthy (get result (py "error")) then
                 detail <- lift (getitem result (py "error")) ;;
                 raise (HTTPExn HTTP_500_INTERNAL_SERVER_ERROR detail)
               else lift (DebugResponse.of_kwargs result)) ;;
         ret (Debugging x)) t0
    | whatif =>
        (result <- answer_what_if_question provider w code question ;;
         x <- (if value_truthy (get result (py "error")) then
                 detail <- lift (getitem result (py "error")) ;;
                 raise (HTTPExn HTTP_500_INTERNAL_SERVER_ERROR detail)
               else lift (WhatIfResponse.of_kwargs result)) ;;
         ret (WhatIf x)) t0
    end.
Proof.
  intros [C [L [T Q]]].
  assert (V : exists language,
             validate_body b
             = Ret {| Schemas.code := code; Schemas.language := language;
                      Schemas.user_question := body_user_question b |}).
  { unfold validate_body. rewrite C.
    destruct (body_language b) as [[l|]|]; [| congruence |]; eexists; reflexivity. }
  destruct V as [language V]. unfold post. rewrite V.
  destruct r; unfold explain_code, suggest_improvements, debug_code,
    what_if_scenario, bind, lift, ret, raise;
    cbn [Schemas.code Schemas.user_question].
  - rewrite T. cbn [negb].
    destruct (get_code_explanation provider w code t0) as [[d|e] t1];
      [|reflexivity].
    destruct (value_truthy (get d (py "error"))); [|reflexivity].
    destruct (getitem d (py "error")); reflexivity.
  - rewrite T. cbn [negb].
    destruct (get_code_suggestions provider w code t0) as [[d|e] t1];
      [|reflexivity].
    destruct (value_truthy (get d (py "error"))); [|reflexivity].
    destruct (getitem d (py "error")); reflexivity.
  - rewrite T. cbn [negb].
    destruct (get_code_debugging_info provider w code t0) as [[d|e] t1];
      [|reflexivity].
    destruct (value_truthy (get d (py "error"))); [|reflexivity].
    destruct (getitem d (py "error")); reflexivity.
  - destruct Q as [Q TQ]. rewrite Q, T. cbn [opt_truthy]. rewrite TQ.
    cbn [negb orb].
    destruct (answer_what_if_question provider w code question t0)
      as [[d|e] t1]; [|reflexivity].
    destruct (value_truthy (get d (py "error"))); [|reflexivity].
    destruct (getitem d (py "error")); reflexivity.
Qed.

Lemma service_success (provider : str) (w : World) (r : route)
    (code question text : str) (t0 : trace) :
  precheck_passes w r code ->
  ainvoke w (chain_of r) (inputs_of r code question) = Ret text ->
  service_of provider w r code question t0
  = (Ret (payload_of r text),
     after_precheck r code t0 ++ [Ainvoke (chain_of r) (inputs_of r code question)]).
Proof.
  intros P H. destruct r; cbn [service_of payload_of after_precheck chain_of inputs_of] in *.
  - destruct P as [S [tree G]].
    pose proof (get_code_explanation_run provider w code tree t0 _
                  (parse_python_code_passes w code tree t0 S G)) as R.
    cbv zeta in R. rewrite H in R. exact R.
  - exact (suggestions_of_text provider w code text t0 H).
  - exact (potential_bugs_of_text provider w code text t0 H).
  - pose proof (answer_what_if_question_run provider w code question t0) as R.
    cbv zeta in R. rewrite H in R. exact R.
Qed.

Lemma service_failure (provider : str) (w : World) (r : route)
    (code question : str) (e : exn) (t0 : trace) :
  precheck_passes w r code ->
  ainvoke w (chain_of r) (inputs_of r code question) = Raise e ->
  isinstance e Exception = true ->
  exists line,
    service_of provider w r code question t0
    = (Ret (internal_error (chain_of r)),
       (after_precheck r code t0
        ++ [Ainvoke (chain_of r) (inputs_of r code question)])
       ++ [Printed line]).
Proof.
  intros P H I. destruct r; cbn [service_of after_precheck chain_of inputs_of] in *.
  - destruct P as [S [tree G]].
    pose proof (get_code_explanation_run provider w code tree t0 _
                  (parse_python_code_passes w code tree t0 S G)) as R.
    cbv zeta in R. rewrite H, I in R. exact R.
  - pose proof (get_code_suggestions_run provider w code t0) as R.
    cbv zeta in R. rewrite H, I in R. exact R.
  - pose proof (get_code_debugging_info_run provider w code t0) as R.
    cbv zeta in R. rewrite H, I in R. exact R.
  - pose proof (answer_what_if_question_run provider w code question t0) as R.
    cbv zeta in R. rewrite H, I in R. exact R.
Qed.

(** The endpoint after its guards, in terms of the service's outcome. *)
Lemma post_after_service (provider : str) (w : World) (r : route)
    (b : RequestBody) (code question : str) (t0 t1 : trace) (d : dict) :
  well_formed r b code question ->
  service_of provider w r code question t0 = (Ret d, t1) ->
  (d = internal_error (chain_of r) \/ d = syntax_error_result ->
   post provider w r b t0
   = (Raise (HTTPExn HTTP_500_INTERNAL_SERVER_ERROR (get d (py "error"))), t1))
  /\ (forall text, d = payload_of r text ->
      post provider w r b t0 = (Ret (success_response r text), t1)).
Proof.
  intros WF S. rewrite (post_well_formed provider w r b code question t0 WF).
  split.
  - intros E.
    assert (V : value_truthy (get d (py "error")) = true
                /\ getitem d (py "error") = Ret (get d (py "error"))).
    { destruct E as [-> | ->]; [destruct r|]; split; reflexivity. }
    destruct V as [V G].
    destruct r; cbn [service_of] in S; unfold bind at 1; rewrite S;
      unfold bind, lift, raise; rewrite V, G; reflexivity.
  - intros text ->.
    destruct r; cbn [service_of] in S; unfold bind at 1; rewrite S;
      unfold bind, lift, ret; cbn [payload_of success_response].
    + reflexivity.
    + unfold SuggestionResponse.of_kwargs, obind, optional_list_str.
      change (get [(py "suggestions", VList (map VStr (kept_lines text)))]
                (py "suggestions"))
        with (VList (map VStr (kept_lines text))).
      cbv beta iota. rewrite all_str_map. reflexivity.
    + unfold DebugResponse.of_kwargs, obind, optional_list_dict.
      change (get [(py "potential_bugs",
                    VList (map issue_record (kept_lines text)))]
                (py "potential_bugs"))
        with (VList (map issue_record (kept_lines text))).
      cbv beta iota. rewrite all_str_dicts_map. reflexivity.
    + reflexivity.
Qed.

(** X5. A request that passes validation, whose fields are not empty,
    whose code passes the pre-check (on [/explain]) and whose chain answers
    a text, makes the endpoint return the response model with the payload
    of its route and without an error, after one chain call with the code
    as it came.  The answer has status 200 when the text can be encoded,
    and status 500 when it holds a lone surrogate and cannot be sent. *)
Theorem endpoint_returns_payload
    (provider : str) (w : World) (r : route) (b : RequestBody)
    (code question text : str) (t0 : trace) :
  well_formed r b code question ->
  precheck_passes w r code ->
  ainvoke w (chain_of r) (inputs_of r code question) = Ret text ->
  fst (post provider w r b t0) = Ret (success_response r text)
  /\ status_of (fst (post provider w r b t0))
     = (if encodable text then 200%N else 500%N)
  /\ network_calls (snd (post provider w r b t0))
     = network_calls t0 ++ [Ainvoke (chain_of r) (inputs_of r code question)].
Proof.
  intros WF P H.
  pose proof (service_success provider w r code question text t0 P H) as S.
  destruct (post_after_service provider w r b code question t0 _ _ WF S)
    as [_ OK].
  rewrite (OK text eq_refl). cbn [fst snd].
  split; [reflexivity|]. split.
  - cbn [status_of]. rewrite success_response_serialisable. reflexivity.
  - rewrite network_calls_ainvoke. f_equal.
    destruct r; cbn [after_precheck]; try reflexivity. apply network_calls_parse.
Qed.

Lemma endpoint_returns_payload_witness :
  let b := {| body_code := Some (py "x"); body_language := Some (Some (py "python"));
              body_user_question := None |} in
  fst (post (py "groq") sample_world suggest b [])
  = Ret (Suggestion {| SuggestionResponse.suggestions :=
                         Some [py "Use a list."; py "Avoid globals."];
                       SuggestionResponse.error := None |})
  /\ status_of (fst (post (py "groq") sample_world suggest b [])) = 200%N.
Proof.
  cbv zeta.
  assert (WF : well_formed suggest
                 {| body_code := Some (py "x");
                    body_language := Some (Some (py "python"));
                    body_user_question := None |} (py "x") []).
  { split; [reflexivity|]. split; [discriminate|]. split; reflexivity. }
  destruct (endpoint_returns_payload (py "groq") sample_world suggest _
              (py "x") []
              (py "  Use a list. " ++ [10; 32; 9; 10]%N ++ py "Avoid globals.")
              [] WF I eq_refl) as [R [S _]].
  split; [rewrite R; vm_compute; reflexivity|].
  rewrite S. reflexivity.
Defined.

(** X6. When the chain raises an [Exception], whatever it is, the endpoint
    raises an [HTTPException] with status 500 whose detail is the fixed
    message of that service: nothing of the exception reaches the client. *)
Theorem endpoint_hides_chain_failure
    (provider : str) (w : World) (r : route) (b : RequestBody)
    (code question : str) (e : exn) (t0 : trace) :
  well_formed r b code question ->
  precheck_passes w r code ->
  ainvoke w (chain_of r) (inputs_of r code question) = Raise e ->
  isinstance e Exception = true ->
  fst (post provider w r b t0)
  = Raise (HTTPExn HTTP_500_INTERNAL_SERVER_ERROR
             (internal_error_message (chain_of r)))
  /\ status_of (fst (post provider w r b t0)) = 500%N.
Proof.
  intros WF P H I.
  destruct (service_failure provider w r code question e t0 P H I) as [line S].
  destruct (post_after_service provider w r b code question t0 _ _ WF S)
    as [KO _].
  rewrite (KO (or_introl eq_refl)). split; reflexivity.
Qed.

Lemma endpoint_hides_chain_failure_witness :
  let b := {| body_code := Some (py "x"); body_language := None;
              body_user_question := Some (py "what if x were 2?") |} in
  fst (post (py "groq") failing_world whatif b [])
  = Raise (HTTPExn 500
             (VStr (py "Failed to answer 'what if' question: An internal error occurred."))).
Proof.
  cbv zeta.
  assert (WF : well_formed whatif
                 {| body_code := Some (py "x"); body_language := None;
                    body_user_question := Some (py "what if x were 2?") |}
                 (py "x") (py "what if x were 2?")).
  { split; [reflexivity|]. split; [discriminate|]. repeat split. }
  destruct (endpoint_hides_chain_failure (py "groq") failing_world whatif _
              (py "x") (py "what if x were 2?")
              (Exn RuntimeError (py "401 Unauthorized: invalid key sk-live-1234"))
              [] WF I eq_refl eq_refl) as [R _].
  rewrite R. reflexivity.
Defined.

(** What a service can return: the payload under its key, its generic
    error, or (on [/explain]) the syntax error. *)
Lemma service_outcomes (provider : str) (w : World) (r : route)
    (code question : str) (t0 : trace) (d : dict) :
  fst (service_of provider w r code question t0) = Ret d ->
  (exists v, d = [(payload_key r, v)])
  \/ d = internal_error (chain_of r) \/ d = syntax_error_result.
Proof.
  assert (SR : forall c payload inputs o,
             service_run c payload inputs t0 o -> fst o = Ret d ->
             (exists v, d = [(payload, v)]) \/ d = internal_error c
             \/ d = syntax_error_result).
  { intros c payload inputs o R E. destruct R as [v|line|e I]; cbn [fst] in E.
    - injection E as <-. left. exists v. reflexivity.
    - injection E as <-. right. left. reflexivity.
    - discriminate E. }
  destruct r; cbn [service_of payload_key chain_of].
  - intros E.
    pose proof (parse_python_code_cases w code t0) as [_ C]. cbv zeta in C.
    destruct (parse_python_code w code t0) as [o t1] eqn:P. cbn [fst] in C.
    destruct C as [[tree [-> _]] | [[e [-> _]] | [e [-> I]]]].
    + pose proof (get_code_explanation_run provider w code tree t0 t1 P) as R.
      cbv zeta in R.
      destruct (ainvoke w explain_chain (code_inputs code)) as [text|e].
      * rewrite R in E. injection E as <-. left. eexists. reflexivity.
      * destruct (isinstance e Exception).
        -- destruct R as [line R]. rewrite R in E. injection E as <-.
           right. left. reflexivity.
        -- rewrite R in E. discriminate E.
    + destruct (explanation_after_failed_check provider w code t0 t1 P) as [R _].
      rewrite R in E. injection E as <-. right. right. reflexivity.
    + unfold get_code_explanation, bind in E. rewrite P in E. discriminate E.
  - apply (SR _ _ _ _ (get_code_suggestions_service_run provider w code t0)).
  - apply (SR _ _ _ _ (get_code_debugging_info_service_run provider w code t0)).
  - apply (SR _ _ _ _ (answer_what_if_question_service_run provider w code question t0)).
Qed.

(** A request that lacks a field is refused at once. *)
Lemma refused_when_field_missing (provider : str) (w : World) (r : route)
    (b : RequestBody) (t0 : trace) :
  field_missing r b = true ->
  post provider w r b t0
  = (match invalid_fields b with
     | [] => Raise (HTTPExn HTTP_400_BAD_REQUEST (VStr (fixed_message r)))
     | fields => Raise (Exn RequestValidationError (join comma fields))
     end, t0).
Proof.
  intros F. unfold post, validate_body, invalid_fields, field_missing in *.
  destruct (body_code b) as [c|] eqn:C;
    [|destruct (body_language b) as [[l|]|]; reflexivity].
  cbn [opt_truthy] in F.
  destruct (body_language b) as [[l|]|] eqn:L; cbn [app];
    [ | reflexivity | ];
    (destruct (truthy c) eqn:T;
     [ cbn [negb orb] in F; destruct r; try discriminate F;
       unfold what_if_scenario, bind, lift, raise;
       cbn [Schemas.code Schemas.user_question];
       rewrite T, F; reflexivity
     | apply empty_code_is_refused; exact T ]).
Qed.

(** A request whose [language] is null is refused by validation. *)
Lemma refused_when_language_null (provider : str) (w : World) (r : route)
    (b : RequestBody) (t0 : trace) :
  body_language b = Some None ->
  post provider w r b t0
  = (Raise (Exn RequestValidationError (join comma (invalid_fields b))), t0).
Proof.
  intros L. unfold post, validate_body. rewrite L.
  destruct (body_code b); reflexivity.
Qed.

(** A request that is answered has passed validation and the guard. *)
Lemma answered_is_well_formed (provider : str) (w : World) (r : route)
    (b : RequestBody) (t0 : trace) (resp : response) :
  fst (post provider w r b t0) = Ret resp ->
  exists code question, well_formed r b code question.
Proof.
  intros H.
  assert (L : body_language b <> Some None).
  { intros L. rewrite (refused_when_language_null provider w r b t0 L) in H.
    discriminate H. }
  destruct (field_missing r b) eqn:F.
  - rewrite (refused_when_field_missing provider w r b t0 F) in H.
    destruct (invalid_fields b); discriminate H.
  - unfold field_missing in F. apply orb_false_iff in F. destruct F as [C Q].
    apply negb_false_iff in C.
    destruct (body_code b) as [code|] eqn:BC; [|discriminate C].
    cbn [opt_truthy] in C.
    destruct r.
    + exists code, []. repeat split; assumption.
    + exists code, []. repeat split; assumption.
    + exists code, []. repeat split; assumption.
    + apply negb_false_iff in Q.
      destruct (body_user_question b) as [q|] eqn:BQ; [|discriminate Q].
      exists code, q. unfold well_formed. rewrite BC, BQ.
      repeat split; assumption.
Qed.

Lemma payload_key_is_not_error (r : route) (v : value) :
  get [(payload_key r, v)] (py "error") = VNone.
Proof. destruct r; reflexivity. Qed.

(** X7. A response that an endpoint returns never carries an error: its
    [error] field is always [None], and so are [line_by_line] and
    [modified_code]. Every error leaves the endpoint as an exception. *)
Theorem answered_response_has_no_error
    (provider : str) (w : World) (r : route) (b : RequestBody) (t0 : trace)
    (resp : response) :
  fst (post provider w r b t0) = Ret resp ->
  error_of resp = None /\ unused_fields_empty resp.
Proof.
  intros H.
  destruct (answered_is_well_formed provider w r b t0 resp H)
    as [code [question WF]].
  destruct (service_of provider w r code question t0) as [[d|e] t1] eqn:S.
  - pose proof (service_outcomes provider w r code question t0 d) as O.
    rewrite S in O. destruct (O eq_refl) as [[v ->] | E].
    + rewrite (post_well_formed provider w r b code question t0 WF) in H.
      destruct r; cbn [service_of payload_key] in S; unfold bind at 1 in H;
        rewrite S in H; unfold bind, lift, ret in H;
        cbn [fst] in H.
      * change (get [(py "overall_summary", v)] (py "error")) with VNone in H.
        cbn [value_truthy] in H.
        unfold ExplanationResponse.of_kwargs, obind, optional_int_dict,
          optional_str in H.
        change (get [(py "overall_summary", v)] (py "line_by_line")) with VNone in H.
        change (get [(py "overall_summary", v)] (py "overall_summary")) with v in H.
        change (get [(py "overall_summary", v)] (py "error")) with VNone in H.
        destruct v; cbn [fst] in H; try discriminate H;
          injection H as <-; split; reflexivity.
      * change (get [(py "suggestions", v)] (py "error")) with VNone in H.
        cbn [value_truthy] in H.
        unfold SuggestionResponse.of_kwargs, obind, optional_list_str,
          optional_str in H.
        change (get [(py "suggestions", v)] (py "suggestions")) with v in H.
        change (get [(py "suggestions", v)] (py "error")) with VNone in H.
        destruct v as [|s|items|entries]; cbn [fst] in H; try discriminate H.
        -- injection H as <-. split; reflexivity.
        -- destruct (all_str items); cbn [fst] in H; try discriminate H.
           injection H as <-. split; reflexivity.
      * change (get [(py "potential_bugs", v)] (py "error")) with VNone in H.
        cbn [value_truthy] in H.
        unfold DebugResponse.of_kwargs, obind, optional_list_dict,
          optional_str in H.
        change (get [(py "potential_bugs", v)] (py "potential_bugs")) with v in H.
        change (get [(py "potential_bugs", v)] (py "error")) with VNone in H.
        destruct v as [|s|items|entries]; cbn [fst] in H; try discriminate H.
        -- injection H as <-. split; reflexivity.
        -- destruct (all_str_dicts items); cbn [fst] in H; try discriminate H.
           injection H as <-. split; reflexivity.
      * change (get [(py "explanation", v)] (py "error")) with VNone in H.
        cbn [value_truthy] in H.
        unfold WhatIfResponse.of_kwargs, obind, optional_str in H.
        change (get [(py "explanation", v)] (py "explanation")) with v in H.
        change (get [(py "explanation", v)] (py "modified_code")) with VNone in H.
        change (get [(py "explanation", v)] (py "error")) with VNone in H.
        destruct v; cbn [fst] in H; try discriminate H;
          injection H as <-; split; reflexivity.
    + destruct (post_after_service provider w r b code question t0 t1 d WF S)
        as [KO _].
      rewrite (KO E) in H. discriminate H.
  - rewrite (post_well_formed provider w r b code question t0 WF) in H.
    destruct r; cbn [service_of] in S; unfold bind at 1 in H;
      rewrite S in H; discriminate H.
Qed.

Lemma answered_response_has_no_error_witness :
  let b := {| body_code := Some (py "x"); body_language := None;
              body_user_question := None |} in
  exists resp,
    fst (post (py "groq") sample_world debug b []) = Ret resp
    /\ error_of resp = None.
Proof.
  cbv zeta. eexists. split; [vm_compute; reflexivity|].
  exact (proj1 (answered_response_has_no_error (py "groq") sample_world debug
                  {| body_code := Some (py "x"); body_language := None;
                     body_user_question := None |} [] _ eq_refl)).
Defined.

(** ** What the endpoints do not read *)

(** X8. The value of [language] is never read; the field is only
    validated.  Two requests with the same code and the same question,
    whose [language] is null in both or in neither, get the same outcome
    and leave the same trace, on every route. *)
Theorem language_is_ignored
    (provider : str) (w : World) (r : route) (b b' : RequestBody) (t0 : trace) :
  body_code b = body_code b' ->
  body_user_question b = body_user_question b' ->
  language_is_null b = language_is_null b' ->
  post provider w r b t0 = post provider w r b' t0.
Proof.
  intros C Q L. unfold post, validate_body, invalid_fields, language_is_null in *.
  rewrite <- C, <- Q.
  destruct (body_code b) as [c|];
    destruct (body_language b) as [[l|]|];
    destruct (body_language b') as [[l'|]|];
    try discriminate L; try reflexivity;
    destruct r; unfold explain_code, suggest_improvements, debug_code,
      what_if_scenario, bind, lift;
    cbn [Schemas.code Schemas.user_question]; reflexivity.
Qed.

Lemma language_is_ignored_witness :
  post (py "groq") sample_world suggest
    {| body_code := Some (py "x"); body_language := Some (Some (py "rust"));
       body_user_question := None |} []
  = post (py "groq") sample_world suggest
      {| body_code := Some (py "x"); body_language := None;
         body_user_question := None |} [].
Proof.
  apply (language_is_ignored (py "groq") sample_world suggest); reflexivity.
Defined.



(** ** The explanation service *)

(** X10. On the explanation service the chain is invoked exactly when the
    pre-check has returned a tree, and then once; in every other case no
    network call is made. *)
Theorem explain_invokes_chain_iff_parsed
    (provider : str) (w : World) (code : str) (t0 : trace) :
  let calls := network_calls (snd (get_code_explanation provider w code t0)) in
  ((exists tree, fst (parse_python_code w code t0) = Ret (Some tree))
   /\ calls = network_calls t0 ++ [Ainvoke explain_chain (code_inputs code)])
  \/ ((forall tree, fst (parse_python_code w code t0) <> Ret (Some tree))
      /\ calls = network_calls t0).
Proof.
  cbv zeta.
  pose proof (parse_python_code_cases w code t0) as [N C]. cbv zeta in N, C.
  destruct (parse_python_code w code t0) as [o t1] eqn:P. cbn [fst snd] in *.
  destruct C as [[tree [-> _]] | [[e [-> _]] | [e [-> I]]]].
  - left. split; [exists tree; reflexivity|].
    pose proof (get_code_explanation_run provider w code tree t0 t1 P) as R.
    cbv zeta in R.
    destruct (ainvoke w explain_chain (code_inputs code)) as [text|e].
    + rewrite R. cbn [snd]. rewrite network_calls_ainvoke, N. reflexivity.
    + destruct (isinstance e Exception).
      * destruct R as [line ->]. cbn [snd].
        rewrite network_calls_print, network_calls_ainvoke, N. reflexivity.
      * rewrite R. cbn [snd]. rewrite network_calls_ainvoke, N. reflexivity.
  - right. split; [intros tree E; discriminate E|].
    destruct (explanation_after_failed_check provider w code t0 t1 P) as [-> _].
    exact N.
  - right. split; [intros tree E; discriminate E|].
    unfold get_code_explanation, bind. rewrite P. exact N.
Qed.

(** X11. The tree that the pre-check returns is not used: in two worlds
    that answer alike and in which the code parses, to whatever trees, the
    explanation service behaves alike. *)
Theorem explanation_does_not_depend_on_tree
    (provider : str) (w w' : World) (code : str) (tree tree' : node) (t0 : trace) :
  ainvoke w = ainvoke w' ->
  existsb is_surrogate code = false ->
  grammar w code = Ret tree ->
  grammar w' code = Ret tree' ->
  get_code_explanation provider w code t0
  = get_code_explanation provider w' code t0.
Proof.
  intros A S G G'.
  pose proof (parse_python_code_passes w code tree t0 S G) as P.
  pose proof (parse_python_code_passes w' code tree' t0 S G') as P'.
  assert (E : forall v (tr : node) (k : option node -> M dict),
             parse_python_code v code t0 = (Ret (Some tr), t0 ++ [AstParse code]) ->
             bind (parse_python_code v code) k t0
             = k (Some tr) (t0 ++ [AstParse code])).
  { intros v tr k H. unfold bind. rewrite H. reflexivity. }
  unfold get_code_explanation.
  rewrite (E w tree _ P), (E w' tree' _ P').
  unfold ainvoke_chain, try_except, bind, emit, lift. rewrite A. reflexivity.
Qed.

Lemma explanation_does_not_depend_on_tree_witness :
  get_code_explanation (py "groq") sample_world (py "x") []
  = get_code_explanation (py "groq")
      {| grammar := fun _ => Ret sample_tree; ainvoke := ainvoke sample_world |}
      (py "x") [].
Proof.
  apply (explanation_does_not_depend_on_tree (py "groq") sample_world
           {| grammar := fun _ => Ret sample_tree;
              ainvoke := ainvoke sample_world |}
           (py "x") (Node ModuleNode []) sample_tree []); reflexivity.
Defined.

(** ** Provider selection *)

(** X12. The module body returns a client exactly when the provider name,
    lowercased, is in the table, its credential is set and not empty, and
    the constructor does not raise; the client then has the class and the
    model of the table and the temperature 0.3. *)
Theorem initialise_returns_client_iff (h : Host) (t0 : trace) (client : llm_client) :
  fst (initialise h t0) = Ret client
  <-> exists config,
        config_lookup PROVIDER_CONFIG (LLM_PROVIDER_of h) = Some config
        /\ opt_truthy (getenv h (api_key_name config)) = true
        /\ construct h (class config) (model config) = None
        /\ client = {| client_class := class config;
                       client_model := model config;
                       client_temperature := (3, -1)%Z |}.
Proof.
  destruct (initialise_cases h t0) as [_ R]. rewrite R. split.
  - intros H.
    destruct (config_lookup PROVIDER_CONFIG (LLM_PROVIDER_of h)) as [config|];
      [|discriminate H].
    exists config. split; [reflexivity|].
    destruct (opt_truthy (getenv h (api_key_name config))); [|discriminate H].
    split; [reflexivity|].
    destruct (construct h (class config) (model config)) as [e|].
    + destruct (isinstance e Exception); discriminate H.
    + split; [reflexivity|]. injection H as <-. reflexivity.
  - intros [config [L [K [C ->]]]]. rewrite L, K, C. reflexivity.
Qed.

(** X13. Only the variables of the selected provider are read: two hosts
    that agree on [LLM_PROVIDER] and on the key of the provider it names
    start alike, whatever the keys of the other providers are. *)
Theorem initialise_reads_selected_key_only (h h' : Host) (t0 : trace) :
  lower h = lower h' ->
  construct h = construct h' ->
  getenv h (py "LLM_PROVIDER") = getenv h' (py "LLM_PROVIDER") ->
  (forall config,
     config_lookup PROVIDER_CONFIG (LLM_PROVIDER_of h) = Some config ->
     getenv h (api_key_name config) = getenv h' (api_key_name config)) ->
  initialise h t0 = initialise h' t0.
Proof.
  intros L C P K.
  assert (N : LLM_PROVIDER_of h' = LLM_PROVIDER_of h).
  { unfold LLM_PROVIDER_of. rewrite L, P. reflexivity. }
  unfold initialise. rewrite N.
  destruct (config_lookup PROVIDER_CONFIG (LLM_PROVIDER_of h)) as [config|];
    [|reflexivity].
  rewrite <- (K config eq_refl), <- C. reflexivity.
Qed.

Lemma initialise_reads_selected_key_only_witness :
  initialise groq_host [] = initialise groq_host_with_openai_key []
  /\ fst (initialise groq_host [])
     = Ret {| client_class := ChatGroq; client_model := py "llama3-8b-8192";
              client_temperature := (3, -1)%Z |}.
Proof.
  split; [|reflexivity].
  apply (initialise_reads_selected_key_only groq_host
           groq_host_with_openai_key []); try reflexivity.
  intros config H. vm_compute in H. injection H as <-. reflexivity.
Defined.

(** ** Function names of a module without nested definitions *)

Lemma flat_map_nil_iff {A B} (f : A -> list B) (l : list A) :
  flat_map f l = [] <-> Forall (fun x => f x = []) l.
Proof.
  induction l as [|x l IH]; cbn [flat_map].
  - split; [constructor | reflexivity].
  - split.
    + intros H. apply app_eq_nil in H. destruct H as [Hx Hl].
      constructor; [exact Hx | apply IH; exact Hl].
    + intros H. inversion H as [|? ? Hx Hl]; subst.
      rewrite Hx. apply IH. exact Hl.
Qed.

(** X14. For a module, [get_function_definitions] returns exactly the
    top-level function names if and only if no [FunctionDef] node lies
    below the top level (no method, no nested function). *)
Theorem top_level_names_iff_nothing_nested (body : list node) :
  let tree := Node ModuleNode body in
  get_function_definitions tree = spec_top_level_function_names tree
  <-> Forall (fun n => function_name n = []) (below_top_level tree).
Proof.
  cbv zeta. unfold below_top_level. cbn [iter_child_nodes].
  rewrite get_function_definitions_walk. unfold walk.
  rewrite walk_queue_levels. cbn [flat_map app]. rewrite app_nil_r.
  rewrite walk_queue_levels, flat_map_app.
  change (function_name (Node ModuleNode body)) with (@nil str).
  cbn [app]. unfold spec_top_level_function_names. cbn [iter_child_nodes].
  set (top := flat_map function_name body).
  set (deep := walk_queue (flat_map iter_child_nodes body)).
  assert (P : Permutation deep
                (flat_map descendants (flat_map iter_child_nodes body)))
    by apply walk_queue_descendants.
  split.
  - intros H.
    assert (E : flat_map function_name deep = []).
    { apply (app_inv_head top). rewrite app_nil_r. exact H. }
    apply flat_map_nil_iff in E.
    exact (Permutation_Forall P E).
  - intros F.
    apply (Permutation_Forall (Permutation_sym P)) in F.
    apply flat_map_nil_iff in F. rewrite F. apply app_nil_r.
Qed.

(** * The UI *)

Ltac unfold_ui :=
  unfold show in *;
  unfold ui_try, ui_bind, ui_emit, ui_lift, ui_ret, ui_raise in *;
  cbn [fst snd] in *.

Lemma posts_app (a b : list ui_event) : posts (a ++ b) = posts a ++ posts b.
Proof. apply filter_app. Qed.

Lemma quiet_ret {A} (a : A) : quiet (ui_ret a).
Proof. intros t. reflexivity. Qed.

Lemma quiet_raise {A} (e : py_exc) : quiet (@ui_raise A e).
Proof. intros t. reflexivity. Qed.

Lemma quiet_lift {A} (o : ui_outcome A) : quiet (ui_lift o).
Proof. intros t. reflexivity. Qed.

Lemma quiet_show (w : widget) (line : list ui_piece) : quiet (show w line).
Proof. intros t. unfold_ui. rewrite posts_app. apply app_nil_r. Qed.

Lemma quiet_bind {A B} (m : UI A) (k : A -> UI B) :
  quiet m -> (forall a, quiet (k a)) -> quiet (ui_bind m k).
Proof.
  intros Qm Qk t. unfold ui_bind. specialize (Qm t).
  destruct (m t) as [[a|e] t1]; cbn [snd] in *.
  - rewrite (Qk a t1). exact Qm.
  - exact Qm.
Qed.

Lemma quiet_try {A} (body : UI A) (h : py_exc -> UI A) :
  quiet body -> (forall e, quiet (h e)) -> quiet (ui_try body h).
Proof.
  intros Qb Qh t. unfold ui_try. specialize (Qb t).
  destruct (body t) as [[a|e] t1]; cbn [snd] in *.
  - exact Qb.
  - rewrite (Qh e t1). exact Qb.
Qed.

Lemma quiet_for_each {A} (items : list A) (body : A -> UI unit) :
  (forall x, quiet (body x)) -> quiet (for_each items body).
Proof.
  intros Q. induction items as [|x rest IH]; cbn [for_each].
  - apply quiet_ret.
  - apply quiet_bind; [apply Q | intros _; exact IH].
Qed.

Lemma quiet_py_get (v : value) (k : str) : quiet (py_get v k).
Proof. destruct v; first [apply quiet_ret | apply quiet_raise]. Qed.

Lemma quiet_py_get_default (v : value) (k : str) (d : value) :
  quiet (py_get_default v k d).
Proof. destruct v; first [apply quiet_ret | apply quiet_raise]. Qed.

Lemma quiet_py_item (v : value) (k : str) : quiet (py_item v k).
Proof.
  destruct v; try apply quiet_raise. unfold py_item.
  destruct (lookup entries k); [apply quiet_ret | apply quiet_raise].
Qed.

Lemma quiet_py_iter (v : value) : quiet (py_iter v).
Proof. destruct v; first [apply quiet_ret | apply quiet_raise]. Qed.

Lemma quiet_and_get (v : value) (k : str) : quiet (and_get v k).
Proof.
  unfold and_get. destruct (value_truthy v); [|apply quiet_ret].
  apply quiet_bind; [apply quiet_py_get | intros; apply quiet_ret].
Qed.

Lemma quiet_read_response (r : option HttpResponse) : quiet (read_response r).
Proof. destruct r; [apply quiet_ret | apply quiet_raise]. Qed.

Ltac quiet_step :=
  first
    [ apply quiet_ret | apply quiet_raise | apply quiet_lift | apply quiet_show
    | apply quiet_py_get | apply quiet_py_get_default | apply quiet_py_item
    | apply quiet_py_iter | apply quiet_and_get | apply quiet_read_response
    | apply quiet_for_each; intros
    | apply quiet_bind; [|intros]
    | apply quiet_try; [|intros]
    | match goal with
      | |- quiet (if ?c then _ else _) => destruct c
      end ].

Ltac quiet_all := repeat quiet_step.

Lemma quiet_handlers (r : option HttpResponse) (e : py_exc) : quiet (handlers r e).
Proof. unfold handlers. quiet_all. Qed.

(** What [handlers] returns is [None]. *)
Lemma handlers_return_none (r : option HttpResponse) (e : py_exc)
    (t : list ui_event) (v : value) :
  fst (handlers r e t) = Done v -> v = VNone.
Proof.
  unfold handlers.
  destruct (is_request_exception e).
  - unfold ui_bind at 1. unfold show at 1, ui_emit. 
    unfold ui_bind at 1.
    match goal with
    | |- fst (let (_, _) := ?m ?t' in _) = _ -> _ => destruct (m t') as [[u|e'] t1]
    end; cbn [fst ui_ret]; intros H; [injection H as <-; reflexivity | discriminate H].
  - destruct (is_json_decode_error e).
    + destruct r as [r|]; unfold_ui; cbn [read_response]; unfold_ui; intros H;
        [injection H as <-; reflexivity | discriminate H].
    + unfold_ui. intros H. discriminate H.
Qed.

(** One call of [call_api], case by case. *)
Lemma call_api_cases (net : Net) (endpoint code : str) (question : option str)
    (t : list ui_event) :
  let url := url_of endpoint in
  let payload := api_payload code question in
  let t1 := t ++ [HttpPost url payload 60] in
  call_api net endpoint code question t
  = match requests_post net url payload 60 with
    | Crash e => handlers None e t1
    | Done r =>
        if ((400 <=? status_code r) && (status_code r <? 600))%N
        then handlers (Some r) (HTTPError (status_code r)) t1
        else match json r with
             | Done v => (Done v, t1)
             | Crash e => handlers (Some r) e t1
             end
    end.
Proof.
  cbv zeta. unfold call_api, url_of.
  unfold ui_bind at 1, ui_emit.
  destruct (requests_post net _ _ _) as [r|e]; [|reflexivity].
  unfold ui_try, raise_for_status, ui_bind.
  destruct ((400 <=? status_code r) && (status_code r <? 600))%N.
  - reflexivity.
  - unfold ui_ret, ui_lift. destruct (json r); reflexivity.
Qed.

Lemma call_api_posts (net : Net) (endpoint code : str) (question : option str)
    (t : list ui_event) :
  posts (snd (call_api net endpoint code question t))
  = posts t ++ [HttpPost (url_of endpoint) (api_payload code question) 60].
Proof.
  pose proof (call_api_cases net endpoint code question t) as C. cbv zeta in C.
  rewrite C.
  assert (P : posts (t ++ [HttpPost (url_of endpoint) (api_payload code question) 60])
              = posts t ++ [HttpPost (url_of endpoint) (api_payload code question) 60]).
  { rewrite posts_app. reflexivity. }
  destruct (requests_post net _ _ _) as [r|e].
  - destruct ((400 <=? status_code r) && (status_code r <? 600))%N.
    + rewrite quiet_handlers. exact P.
    + destruct (json r); [exact P | rewrite quiet_handlers; exact P].
  - rewrite quiet_handlers. exact P.
Qed.

Lemma posts_bind {A B} (m : UI A) (k : A -> UI B) (sent : list ui_event) :
  (forall t, posts (snd (m t)) = posts t ++ sent) ->
  (forall a, quiet (k a)) ->
  forall t, posts (snd (ui_bind m k t)) = posts t ++ sent.
Proof.
  intros Pm Qk t. unfold ui_bind. specialize (Pm t).
  destruct (m t) as [[a|e] t1]; cbn [snd] in *.
  - rewrite (Qk a t1). exact Pm.
  - exact Pm.
Qed.

Lemma explain_branch_posts (net : Net) (code : str) (t : list ui_event) :
  posts (snd (explain_branch net code t))
  = posts t ++ [HttpPost (url_of (py "explain")) (api_payload code None) 60].
Proof.
  unfold explain_branch. apply posts_bind.
  - apply call_api_posts.
  - intros result. quiet_all.
Qed.

Lemma suggest_branch_posts (net : Net) (code : str) (t : list ui_event) :
  posts (snd (suggest_branch net code t))
  = posts t ++ [HttpPost (url_of (py "suggest")) (api_payload code None) 60].
Proof.
  unfold suggest_branch. apply posts_bind.
  - apply call_api_posts.
  - intros result. quiet_all.
Qed.

Lemma debug_branch_posts (net : Net) (code : str) (t : list ui_event) :
  posts (snd (debug_branch net code t))
  = posts t ++ [HttpPost (url_of (py "debug")) (api_payload code None) 60].
Proof.
  unfold debug_branch. apply posts_bind.
  - apply call_api_posts.
  - intros result. quiet_all.
Qed.

Lemma what_if_branch_posts (net : Net) (code question : str) (t : list ui_event) :
  posts (snd (what_if_branch net code question t))
  = posts t
    ++ (if truthy question then
          [HttpPost (url_of (py "whatif")) (api_payload code (Some question)) 60]
        else []).
Proof.
  unfold what_if_branch. destruct (truthy question).
  - apply posts_bind.
    + apply call_api_posts.
    + intros result. quiet_all.
  - rewrite app_nil_r.
    assert (Q : quiet (show st_warning [Lit (py "Please enter a 'What If' question.")] ;;;
                       ui_ret VNone)%ui) by quiet_all.
    apply Q.
Qed.

Lemma show_then {B} (w : widget) (line : list ui_piece) (k : unit -> UI B)
    (t : list ui_event) :
  ui_bind (show w line) k t = k tt (t ++ [Display w line]).
Proof. reflexivity. Qed.

Lemma posts_display (t : list ui_event) (w : widget) (line : list ui_piece) :
  posts (t ++ [Display w line]) = posts t.
Proof. rewrite posts_app. apply app_nil_r. Qed.

(** The network traffic of one run of the analysis block. *)
Lemma analysis_posts (net : Net) (code question action : str) (submit : bool)
    (t : list ui_event) :
  posts (snd (analysis net code question action submit t))
  = posts t ++ expected_posts code question action submit.
Proof.
  unfold analysis, expected_posts.
  destruct (submit && truthy code) eqn:S.
  - rewrite show_then.
    set (t1 := t ++ [Display st_spinner [Lit (py "Analyzing code... Please wait.")]]).
    replace (posts t) with (posts t1) by apply posts_display.
    assert (Tail : forall result, quiet
              (c <- and_get result (py "error") ;;
               if c then
                 e <- py_get result (py "error") ;;
                 show ph_error
                   [Lit (py "Error during '"); Lit action; Lit (py "': "); Val e]
               else if negb (value_truthy result)
                       && negb (Str.eqb action (py "Answer 'What If'")
                                && negb (truthy question)) then
                 show ph_error [Lit (py "Failed to get analysis from the backend.")]
               else ui_ret tt)%ui).
    { intros result. quiet_all. }
    destruct (Str.eqb action (py "Explain Code")).
    { apply posts_bind; [apply explain_branch_posts | exact Tail]. }
    destruct (Str.eqb action (py "Suggest Improvements")).
    { apply posts_bind; [apply suggest_branch_posts | exact Tail]. }
    destruct (Str.eqb action (py "Debug Code")).
    { apply posts_bind; [apply debug_branch_posts | exact Tail]. }
    destruct (Str.eqb action (py "Answer 'What If'")).
    { apply posts_bind; [apply what_if_branch_posts | exact Tail]. }
    rewrite app_nil_r.
    assert (Q : quiet (@ui_ret value VNone)) by apply quiet_ret.
    exact (quiet_bind _ _ Q Tail t1).
  - rewrite app_nil_r.
    destruct (submit && negb (truthy code)); apply quiet_show.
Qed.

(** X15. The fourth option of the select box, "Answer 'What Is Ask'", is
    compared with another label in the script: choosing it sends no
    request and only displays the failure message, whatever the code, the
    question and the network; and under none of the four options is a
    request sent to [/whatif]. *)
Theorem what_if_option_never_calls_the_api
    (net : Net) (code question : str) (t : list ui_event) :
  truthy code = true ->
  analysis net code question (py "Answer 'What Is Ask'") true t
  = (Done tt,
     t ++ [Display st_spinner [Lit (py "Analyzing code... Please wait.")];
           Display ph_error [Lit (py "Failed to get analysis from the backend.")]])
  /\ (forall action submit payload timeout,
        In action action_options ->
        ~ In (HttpPost (url_of (py "whatif")) payload timeout)
             (snd (analysis net code question action submit []))).
Proof.
  intros T. split.
  - unfold analysis. rewrite T. cbn [andb].
    rewrite show_then.
    change (Str.eqb (py "Answer 'What Is Ask'") (py "Explain Code")) with false.
    change (Str.eqb (py "Answer 'What Is Ask'") (py "Suggest Improvements")) with false.
    change (Str.eqb (py "Answer 'What Is Ask'") (py "Debug Code")) with false.
    change (Str.eqb (py "Answer 'What Is Ask'") (py "Answer 'What If'")) with false.
    cbv beta iota. unfold ui_bind at 1. unfold ui_ret at 1.
    unfold ui_bind at 1. unfold and_get. cbn [value_truthy]. unfold ui_ret at 1.
    cbn [negb andb]. unfold show, ui_emit. rewrite <- app_assoc. reflexivity.
  - intros action submit payload timeout A I.
    assert (I' : In (HttpPost (url_of (py "whatif")) payload timeout)
                   (posts (snd (analysis net code question action submit []))))
      by (apply filter_In; split; [exact I | reflexivity]).
    revert I'. clear I.
    rewrite analysis_posts. cbn [posts filter app].
    unfold expected_posts.
    destruct (submit && truthy code); [|intros []].
    destruct A as [<- | [<- | [<- | [<- | []]]]]; vm_compute;
      first [intros [H|[]]; discriminate H | intros []].
Qed.

Lemma what_if_option_never_calls_the_api_witness :
  analysis dead_net (py "print(1)") (py "what if it were 2?")
    (py "Answer 'What Is Ask'") true []
  = (Done tt,
     [Display st_spinner [Lit (py "Analyzing code... Please wait.")];
      Display ph_error [Lit (py "Failed to get analysis from the backend.")]]).
Proof.
  exact (proj1 (what_if_option_never_calls_the_api dead_net (py "print(1)")
                  (py "what if it were 2?") [] eq_refl)).
Defined.

(** X16. The UI sends a request only after a click and with code in the
    text area: every request of a run carries the code as it was typed, not
    empty, with the timeout of 60 seconds. *)
Theorem ui_requests_carry_code
    (net : Net) (code question action : str) (submit : bool)
    (url : str) (payload : dict) (timeout : N) :
  In (HttpPost url payload timeout)
     (snd (analysis net code question action submit [])) ->
  submit = true /\ truthy code = true
  /\ get payload (py "code") = VStr code /\ timeout = 60%N.
Proof.
  intros I.
  assert (I' : In (HttpPost url payload timeout)
                 (posts (snd (analysis net code question action submit []))))
    by (apply filter_In; split; [exact I | reflexivity]).
  revert I'. clear I. rewrite analysis_posts. cbn [posts filter app].
  unfold expected_posts.
  destruct submit; cbn [andb]; [|intros []].
  destruct (truthy code); [|intros []].
  assert (P : forall endpoint q,
             In (HttpPost url payload timeout)
                [HttpPost (url_of endpoint) (api_payload code q) 60] ->
             true = true /\ true = true
             /\ get payload (py "code") = VStr code /\ timeout = 60%N).
  { intros endpoint q [H|[]]. injection H as _ <- <-.
    repeat split. }
  destruct (Str.eqb action (py "Explain Code")); [apply P|].
  destruct (Str.eqb action (py "Suggest Improvements")); [apply P|].
  destruct (Str.eqb action (py "Debug Code")); [apply P|].
  destruct (Str.eqb action (py "Answer 'What If'")); [|intros []].
  destruct (truthy question); [apply P | intros []].
Qed.

Lemma ui_requests_carry_code_witness :
  In (HttpPost (url_of (py "explain")) [(py "code", VStr (py "x"))] 60)
     (snd (analysis dead_net (py "x") [] (py "Explain Code") true []))
  /\ truthy (py "x") = true.
Proof.
  assert (I : In (HttpPost (url_of (py "explain")) [(py "code", VStr (py "x"))] 60)
                (snd (analysis dead_net (py "x") [] (py "Explain Code") true [])))
    by (vm_compute; right; left; reflexivity).
  split; [exact I|].
  exact (proj1 (proj2 (ui_requests_carry_code dead_net (py "x") []
                         (py "Explain Code") true _ _ _ I))).
Defined.

(** ** [call_api] *)

(** X17. [call_api] hands a body to its caller only when the request got
    an answer whose status is no error status (not 400 to 599) and whose
    body decodes; in every other case it returns [None] or raises. *)
Theorem call_api_returns_body_only_on_success
    (net : Net) (endpoint code : str) (question : option str)
    (t : list ui_event) (v : value) :
  fst (call_api net endpoint code question t) = Done v ->
  v <> VNone ->
  exists r,
    requests_post net (url_of endpoint) (api_payload code question) 60 = Done r
    /\ ((400 <=? status_code r) && (status_code r <? 600))%N = false
    /\ json r = Done v.
Proof.
  intros H N.
  pose proof (call_api_cases net endpoint code question t) as C. cbv zeta in C.
  rewrite C in H. clear C.
  destruct (requests_post net _ _ _) as [r|e].
  - exists r. split; [reflexivity|].
    destruct ((400 <=? status_code r) && (status_code r <? 600))%N.
    + apply handlers_return_none in H. contradiction.
    + split; [reflexivity|].
      destruct (json r) as [v'|e].
      * cbn [fst] in H. exact H.
      * apply handlers_return_none in H. contradiction.
  - apply handlers_return_none in H. contradiction.
Qed.

Lemma call_api_returns_body_only_on_success_witness :
  let r := {| status_code := 200;
              json := Done (VDict [(py "overall_summary", VStr (py "ok"))]);
              text := [] |} in
  fst (call_api (constant_net r) (py "explain") (py "x") None [])
  = Done (VDict [(py "overall_summary", VStr (py "ok"))])
  /\ exists r',
       requests_post (constant_net r) (url_of (py "explain"))
         (api_payload (py "x") None) 60 = Done r'
       /\ json r' = Done (VDict [(py "overall_summary", VStr (py "ok"))]).
Proof.
  cbv zeta. split; [reflexivity|].
  destruct (call_api_returns_body_only_on_success
              (constant_net {| status_code := 200;
                               json := Done (VDict [(py "overall_summary", VStr (py "ok"))]);
                               text := [] |})
              (py "explain") (py "x") None []
              (VDict [(py "overall_summary", VStr (py "ok"))]) eq_refl)
    as [r' [P [_ J]]]; [discriminate|].
  exists r'. split; [exact P | exact J].
Defined.

(** X18. When the request itself fails ([requests.post] raises a
    [RequestException]: no connection, timeout), [call_api] returns [None]
    after two messages: the failure, and, because no response exists to
    read a detail from, that no details could be retrieved. *)
Theorem call_api_survives_connection_failure
    (net : Net) (endpoint code : str) (question : option str)
    (t : list ui_event) (e : py_exc) :
  requests_post net (url_of endpoint) (api_payload code question) 60 = Crash e ->
  is_request_exception e = true ->
  call_api net endpoint code question t
  = (Done VNone,
     t ++ [HttpPost (url_of endpoint) (api_payload code question) 60;
           Display st_error [Lit (py "API request failed: "); Exc e];
           Display st_error
             [Lit (py "Could not retrieve error details from the backend.")]]).
Proof.
  intros P R.
  pose proof (call_api_cases net endpoint code question t) as C. cbv zeta in C.
  rewrite C, P. unfold handlers. rewrite R.
  unfold_ui. cbn [read_response]. unfold_ui. cbn [is_exception].
  rewrite <- !app_assoc. reflexivity.
Qed.

Lemma call_api_survives_connection_failure_witness :
  fst (call_api dead_net (py "explain") (py "x") None []) = Done VNone.
Proof.
  rewrite (call_api_survives_connection_failure dead_net (py "explain") (py "x")
             None [] (Raised RequestError (py "Connection refused"))
             eq_refl eq_refl).
  reflexivity.
Defined.

(** ** The analysis block *)

Lemma endpoint_of_action (action endpoint : str) :
  endpoint_of action = Some endpoint ->
  (action = py "Explain Code" /\ endpoint = py "explain")
  \/ (action = py "Suggest Improvements" /\ endpoint = py "suggest")
  \/ (action = py "Debug Code" /\ endpoint = py "debug").
Proof.
  unfold endpoint_of.
  destruct (Str.eqb action (py "Explain Code")) eqn:E1.
  { intros H. injection H as <-. left. split; [apply eqb_eq; exact E1 | reflexivity]. }
  destruct (Str.eqb action (py "Suggest Improvements")) eqn:E2.
  { intros H. injection H as <-. right. left.
    split; [apply eqb_eq; exact E2 | reflexivity]. }
  destruct (Str.eqb action (py "Debug Code")) eqn:E3; [|discriminate].
  intros H. injection H as <-. right. right.
  split; [apply eqb_eq; exact E3 | reflexivity].
Qed.

(** After a call that returned [None], the run ends with the failure
    message. *)
Lemma analysis_after_failed_call (net : Net) (code question action endpoint : str)
    (t t2 : list ui_event) :
  endpoint_of action = Some endpoint ->
  truthy code = true ->
  call_api net endpoint code None (t ++ [spinner]) = (Done VNone, t2) ->
  analysis net code question action true t = (Done tt, t2 ++ [failed_analysis]).
Proof.
  intros E T C. unfold analysis. rewrite T. cbn [andb]. rewrite show_then.
  fold spinner.
  destruct (endpoint_of_action action endpoint E) as [[-> ->] | [[-> ->] | [-> ->]]].
  - change (Str.eqb (py "Explain Code") (py "Explain Code")) with true.
    change (Str.eqb (py "Explain Code") (py "Answer 'What If'")) with false.
    cbv beta iota. unfold explain_branch.
    unfold ui_bind at 1. unfold ui_bind at 1. unfold ui_bind at 1.
    rewrite C. reflexivity.
  - change (Str.eqb (py "Suggest Improvements") (py "Explain Code")) with false.
    change (Str.eqb (py "Suggest Improvements") (py "Suggest Improvements")) with true.
    change (Str.eqb (py "Suggest Improvements") (py "Answer 'What If'")) with false.
    cbv beta iota. unfold suggest_branch.
    unfold ui_bind at 1. unfold ui_bind at 1. unfold ui_bind at 1.
    rewrite C. reflexivity.
  - change (Str.eqb (py "Debug Code") (py "Explain Code")) with false.
    change (Str.eqb (py "Debug Code") (py "Suggest Improvements")) with false.
    change (Str.eqb (py "Debug Code") (py "Debug Code")) with true.
    change (Str.eqb (py "Debug Code") (py "Answer 'What If'")) with false.
    cbv beta iota. unfold debug_branch.
    unfold ui_bind at 1. unfold ui_bind at 1. unfold ui_bind at 1.
    rewrite C. reflexivity.
Qed.

(** X19. When the backend answers with an error status and a JSON object
    (as it does for its 400 and 500 answers), the user sees the failed
    request, then the detail of the answer, or "No details available." when
    there is none, and last the failure message; nothing else is shown. *)
Theorem error_answer_is_displayed
    (net : Net) (code question action endpoint : str) (t : list ui_event)
    (r : HttpResponse) (body : dict) :
  endpoint_of action = Some endpoint ->
  truthy code = true ->
  requests_post net (url_of endpoint) (api_payload code None) 60 = Done r ->
  ((400 <=? status_code r) && (status_code r <? 600))%N = true ->
  json r = Done (VDict body) ->
  analysis net code question action true t
  = (Done tt,
     t ++ [spinner;
           HttpPost (url_of endpoint) (api_payload code None) 60;
           Display st_error
             [Lit (py "API request failed: "); Exc (HTTPError (status_code r))];
           Display st_error
             [Lit (py "Backend Error: ");
              Val (get_default body (py "detail")
                     (VStr (py "No details available.")))];
           failed_analysis]).
Proof.
  intros E T P S J.
  rewrite (analysis_after_failed_call net code question action endpoint t
             ((t ++ [spinner])
              ++ [HttpPost (url_of endpoint) (api_payload code None) 60;
                  Display st_error
                    [Lit (py "API request failed: ");
                     Exc (HTTPError (status_code r))];
                  Display st_error
                    [Lit (py "Backend Error: ");
                     Val (get_default body (py "detail")
                            (VStr (py "No details available.")))]]) E T).
  - rewrite <- !app_assoc. reflexivity.
  - pose proof (call_api_cases net endpoint code None (t ++ [spinner])) as C.
    cbv zeta in C. rewrite C, P, S. unfold handlers.
    cbn [is_request_exception]. unfold_ui. cbn [read_response]. unfold_ui.
    rewrite J. cbn [py_get_default]. unfold_ui.
    rewrite <- !app_assoc. reflexivity.
Qed.

Lemma error_answer_is_displayed_witness :
  let net := constant_net
               (error_response 500
                  (VStr (py "Syntax error in code, cannot parse."))) in
  analysis net (py "def f(:") [] (py "Explain Code") true []
  = (Done tt,
     [spinner;
      HttpPost (url_of (py "explain")) [(py "code", VStr (py "def f(:"))] 60;
      Display st_error [Lit (py "API request failed: "); Exc (HTTPError 500)];
      Display st_error
        [Lit (py "Backend Error: ");
         Val (VStr (py "Syntax error in code, cannot parse."))];
      failed_analysis]).
Proof.
  cbv zeta.
  rewrite (error_answer_is_displayed
             (constant_net
                (error_response 500
                   (VStr (py "Syntax error in code, cannot parse."))))
             (py "def f(:") [] (py "Explain Code") (py "explain") []
             (error_response 500 (VStr (py "Syntax error in code, cannot parse.")))
             [(py "detail", VStr (py "Syntax error in code, cannot parse."))]
             eq_refl eq_refl eq_refl eq_refl eq_refl).
  reflexivity.
Defined.

Lemma call_api_ok (net : Net) (endpoint code : str) (question : option str)
    (t : list ui_event) (r : HttpResponse) (body : value) :
  requests_post net (url_of endpoint) (api_payload code question) 60 = Done r ->
  ((400 <=? status_code r) && (status_code r <? 600))%N = false ->
  json r = Done body ->
  call_api net endpoint code question t
  = (Done body, t ++ [HttpPost (url_of endpoint) (api_payload code question) 60]).
Proof.
  intros P S J.
  pose proof (call_api_cases net endpoint code question t) as C. cbv zeta in C.
  rewrite C, P, S, J. reflexivity.
Qed.

Lemma for_each_bug_lines (issues : list str) (t : list ui_event) :
  for_each
    (map json_record (map (fun issue => [(py "issue", issue)]) issues))
    (fun bug =>
       (issue <- py_get_default bug (py "issue") (VStr (py "Unknown issue")) ;;
        line <- py_get_default bug (py "line") (VStr (py "N/A")) ;;
        show ph_markdown
          [Lit (py "- **Line "); Val line; Lit (py ":** "); Val issue])%ui)
    t
  = (Done tt, t ++ map bug_line issues).
Proof.
  revert t. induction issues as [|issue issues IH]; intros t.
  - cbn [map for_each]. unfold ui_ret. rewrite app_nil_r. reflexivity.
  - cbn [map for_each]. unfold ui_bind at 1.
    change ((issue0 <- py_get_default (json_record [(py "issue", issue)])
                         (py "issue") (VStr (py "Unknown issue")) ;;
             line <- py_get_default (json_record [(py "issue", issue)])
                       (py "line") (VStr (py "N/A")) ;;
             show ph_markdown
               [Lit (py "- **Line "); Val line; Lit (py ":** "); Val issue0])%ui t)
      with (Done tt, t ++ [bug_line issue]).
    cbv beta iota. rewrite IH, <- app_assoc. reflexivity.
Qed.

Lemma for_each_suggestion_lines (suggestions : list str) (t : list ui_event) :
  for_each (map VStr suggestions)
    (fun suggestion => show ph_markdown [Lit (py "- "); Val suggestion]) t
  = (Done tt, t ++ map suggestion_line suggestions).
Proof.
  revert t. induction suggestions as [|s l IH]; intros t.
  - cbn [map for_each]. unfold ui_ret. rewrite app_nil_r. reflexivity.
  - cbn [map for_each]. rewrite show_then, IH, <- app_assoc. reflexivity.
Qed.

(** ** What stays in the placeholder *)

Lemma last_of_app {A} (l1 l2 : list A) :
  l2 <> [] -> last_of (l1 ++ l2) = last_of l2.
Proof.
  intros N. induction l1 as [|x l1 IH]; [reflexivity|].
  cbn [app last_of]. destruct (l1 ++ l2) eqn:E; [|exact IH].
  apply app_eq_nil in E. destruct E as [_ E]. congruence.
Qed.

Lemma last_of_map {A B} (f : A -> B) (l : list A) :
  last_of (map f l) = option_map f (last_of l).
Proof.
  induction l as [|x l IH]; [reflexivity|].
  cbn [map last_of]. destruct l as [|y l]; [reflexivity|]. exact IH.
Qed.

Lemma filter_all {A} (p : A -> bool) (l : list A) :
  forallb p l = true -> filter p l = l.
Proof.
  induction l as [|x l IH]; [reflexivity|].
  cbn [forallb filter]. intros H. apply andb_true_iff in H. destruct H as [Hx Hl].
  rewrite Hx, (IH Hl). reflexivity.
Qed.

(** After the request, what the placeholder shows is the last thing
    written to it. *)
Lemma placeholder_after_request (t : list ui_event) (url : str) (payload : dict)
    (timeout : N) (writes : list ui_event) :
  writes <> [] ->
  forallb on_placeholder writes = true ->
  placeholder_shows (t ++ [spinner; HttpPost url payload timeout] ++ writes)
  = last_of writes.
Proof.
  intros N W. unfold placeholder_shows. rewrite !filter_app.
  change (filter on_placeholder [spinner; HttpPost url payload timeout])
    with (@nil ui_event).
  cbn [app]. rewrite (filter_all on_placeholder writes W).
  apply last_of_app. exact N.
Qed.

Lemma bug_lines_on_placeholder (issues : list str) :
  forallb on_placeholder (map bug_line issues) = true.
Proof. induction issues as [|i l IH]; [reflexivity | exact IH]. Qed.

Lemma suggestion_lines_on_placeholder (suggestions : list str) :
  forallb on_placeholder (map suggestion_line suggestions) = true.
Proof. induction suggestions as [|i l IH]; [reflexivity | exact IH]. Qed.

Lemma display_bugs (issue : str) (issues : list str) (t : list ui_event) :
  let all := issue :: issues in
  let result :=
    VDict [(py "potential_bugs",
            VList (map json_record (map (fun i => [(py "issue", i)]) all)));
           (py "error", VNone)] in
  (c <- and_get result (py "potential_bugs") ;;
   (if c then
      show ph_markdown [Lit (py "### Potential Bugs / Issues:")] ;;;
      v <- py_item result (py "potential_bugs") ;;
      items <- py_iter v ;;
      for_each items (fun bug =>
        issue <- py_get_default bug (py "issue") (VStr (py "Unknown issue")) ;;
        line <- py_get_default bug (py "line") (VStr (py "N/A")) ;;
        show ph_markdown
          [Lit (py "- **Line "); Val line; Lit (py ":** "); Val issue])
    else if value_truthy result then
      show ph_warning [Lit (py "No debugging info received or an error occurred.")]
    else ui_ret tt) ;;;
   ui_ret result)%ui t
  = (Done result,
     (t ++ [Display ph_markdown [Lit (py "### Potential Bugs / Issues:")]])
     ++ map bug_line all).
Proof.
  cbv zeta.
  set (L := map json_record (map (fun i => [(py "issue", i)]) (issue :: issues))).
  unfold ui_bind at 1.
  change (and_get (VDict [(py "potential_bugs", VList L); (py "error", VNone)])
            (py "potential_bugs") t)
    with (Done true, t).
  cbv beta iota. unfold ui_bind at 1. rewrite show_then.
  set (t1 := t ++ [Display ph_markdown [Lit (py "### Potential Bugs / Issues:")]]).
  unfold ui_bind at 1.
  change (py_item (VDict [(py "potential_bugs", VList L); (py "error", VNone)])
            (py "potential_bugs") t1)
    with (Done (VList L), t1).
  cbv beta iota. unfold ui_bind at 1. cbn [py_iter]. unfold ui_ret at 1.
  cbv beta iota. unfold L. rewrite for_each_bug_lines. reflexivity.
Qed.

(** X20. A debug answer on the page.  The script writes the header and
    then one line per potential bug, in order, each under "Line N/A" since
    no record has a line, all to the result placeholder; the placeholder
    holds one element, so what stays on the page is the line of the last
    potential bug alone, without the header and the earlier ones.  When the
    list is empty, the warning alone is written and stays. *)
Theorem debug_answer_is_displayed
    (net : Net) (code question text : str) (t : list ui_event) (r : HttpResponse) :
  truthy code = true ->
  requests_post net (url_of (py "debug")) (api_payload code None) 60 = Done r ->
  ((400 <=? status_code r) && (status_code r <? 600))%N = false ->
  json r = Done (to_json (success_response debug text)) ->
  analysis net code question (py "Debug Code") true t
  = (Done tt,
     t ++ [spinner; HttpPost (url_of (py "debug")) (api_payload code None) 60]
       ++ match kept_lines text with
          | [] => [no_debugging_info]
          | issues =>
              Display ph_markdown [Lit (py "### Potential Bugs / Issues:")]
              :: map bug_line issues
          end)
  /\ placeholder_shows
       (snd (analysis net code question (py "Debug Code") true t))
     = Some (match last_of (kept_lines text) with
             | Some issue => bug_line issue
             | None => no_debugging_info
             end).
Proof.
  intros T P S J.
  assert (Run : analysis net code question (py "Debug Code") true t
                = (Done tt,
                   t ++ [spinner;
                         HttpPost (url_of (py "debug")) (api_payload code None) 60]
                     ++ match kept_lines text with
                        | [] => [no_debugging_info]
                        | issues =>
                            Display ph_markdown
                              [Lit (py "### Potential Bugs / Issues:")]
                            :: map bug_line issues
                        end)).
  { unfold analysis. rewrite T. cbn [andb]. rewrite show_then.
    fold spinner.
    change (Str.eqb (py "Debug Code") (py "Explain Code")) with false.
    change (Str.eqb (py "Debug Code") (py "Suggest Improvements")) with false.
    change (Str.eqb (py "Debug Code") (py "Debug Code")) with true.
    change (Str.eqb (py "Debug Code") (py "Answer 'What If'")) with false.
    cbv beta iota. unfold debug_branch.
    unfold ui_bind at 1. unfold ui_bind at 1.
    rewrite (call_api_ok net (py "debug") code None _ r _ P S J).
    cbn [success_response to_json json_opt DebugResponse.potential_bugs
         DebugResponse.error].
    set (t2 := (t ++ [spinner])
               ++ [HttpPost (url_of (py "debug")) (api_payload code None) 60]).
    assert (E : t ++ [spinner;
                      HttpPost (url_of (py "debug")) (api_payload code None) 60]
                = t2) by (unfold t2; rewrite <- app_assoc; reflexivity).
    rewrite app_assoc, E.
    destruct (kept_lines text) as [|issue issues].
    - reflexivity.
    - rewrite display_bugs. rewrite <- app_assoc. reflexivity. }
  split; [exact Run|].
  rewrite Run. cbn [snd].
  destruct (kept_lines text) as [|issue issues].
  - rewrite placeholder_after_request; [reflexivity | discriminate | reflexivity].
  - rewrite placeholder_after_request;
      [ | discriminate
        | cbn [forallb]; rewrite (bug_lines_on_placeholder (issue :: issues));
          reflexivity ].
    change (last_of
              (Display ph_markdown [Lit (py "### Potential Bugs / Issues:")]
               :: map bug_line (issue :: issues)))
      with (last_of (map bug_line (issue :: issues))).
    rewrite last_of_map.
    destruct (last_of (issue :: issues)) eqn:L; [reflexivity|].
    exfalso. clear - L. revert issue L.
    induction issues as [|i l IH]; intros issue L; [discriminate L|].
    exact (IH i L).
Qed.

Lemma debug_answer_is_displayed_witness :
  let text := py "  Use a list. " ++ [10; 32; 9; 10]%N ++ py "Avoid globals." in
  let net := constant_net (ok_response (to_json (success_response debug text))) in
  analysis net (py "x") [] (py "Debug Code") true []
  = (Done tt,
     [spinner; HttpPost (url_of (py "debug")) [(py "code", VStr (py "x"))] 60;
      Display ph_markdown [Lit (py "### Potential Bugs / Issues:")];
      bug_line (py "Use a list."); bug_line (py "Avoid globals.")])
  /\ placeholder_shows
       (snd (analysis net (py "x") [] (py "Debug Code") true []))
     = Some (bug_line (py "Avoid globals.")).
Proof.
  cbv zeta.
  destruct (debug_answer_is_displayed
              (constant_net
                 (ok_response
                    (to_json
                       (success_response debug
                          (py "  Use a list. " ++ [10; 32; 9; 10]%N
                           ++ py "Avoid globals.")))))
              (py "x") []
              (py "  Use a list. " ++ [10; 32; 9; 10]%N ++ py "Avoid globals.")
              [] _ eq_refl eq_refl eq_refl eq_refl) as [Run Shown].
  split.
  - rewrite Run. vm_compute. reflexivity.
  - rewrite Shown. vm_compute. reflexivity.
Defined.

Lemma display_suggestions (s : str) (l : list str) (t : list ui_event) :
  let all := s :: l in
  let result :=
    VDict [(py "suggestions", VList (map VStr all)); (py "error", VNone)] in
  (c <- and_get result (py "suggestions") ;;
   (if c then
      show ph_markdown [Lit (py "### Suggestions:")] ;;;
      v <- py_item result (py "suggestions") ;;
      items <- py_iter v ;;
      for_each items (fun suggestion =>
        show ph_markdown [Lit (py "- "); Val suggestion])
    else if value_truthy result then
      show ph_warning [Lit (py "No suggestions received or an error occurred.")]
    else ui_ret tt) ;;;
   ui_ret result)%ui t
  = (Done result,
     (t ++ [Display ph_markdown [Lit (py "### Suggestions:")]])
     ++ map suggestion_line all).
Proof.
  cbv zeta. set (L := map VStr (s :: l)).
  unfold ui_bind at 1.
  change (and_get (VDict [(py "suggestions", VList L); (py "error", VNone)])
            (py "suggestions") t)
    with (Done true, t).
  cbv beta iota. unfold ui_bind at 1. rewrite show_then.
  set (t1 := t ++ [Display ph_markdown [Lit (py "### Suggestions:")]]).
  unfold ui_bind at 1.
  change (py_item (VDict [(py "suggestions", VList L); (py "error", VNone)])
            (py "suggestions") t1)
    with (Done (VList L), t1).
  cbv beta iota. unfold ui_bind at 1. cbn [py_iter]. unfold ui_ret at 1.
  cbv beta iota. unfold L. rewrite for_each_suggestion_lines. reflexivity.
Qed.

(** X21. A suggestion answer on the page.  The script writes the header
    and then one line per suggestion, in order, all to the result
    placeholder; the placeholder holds one element, so what stays on the
    page is the last suggestion alone.  When the list is empty (a blank
    response of the model), the warning that speaks of no suggestions or
    an error is written alone and stays. *)
Theorem suggestion_answer_is_displayed
    (net : Net) (code question text : str) (t : list ui_event) (r : HttpResponse) :
  truthy code = true ->
  requests_post net (url_of (py "suggest")) (api_payload code None) 60 = Done r ->
  ((400 <=? status_code r) && (status_code r <? 600))%N = false ->
  json r = Done (to_json (success_response suggest text)) ->
  analysis net code question (py "Suggest Improvements") true t
  = (Done tt,
     t ++ [spinner; HttpPost (url_of (py "suggest")) (api_payload code None) 60]
       ++ match kept_lines text with
          | [] => [no_suggestions]
          | suggestions =>
              Display ph_markdown [Lit (py "### Suggestions:")]
              :: map suggestion_line suggestions
          end)
  /\ placeholder_shows
       (snd (analysis net code question (py "Suggest Improvements") true t))
     = Some (match last_of (kept_lines text) with
             | Some suggestion => suggestion_line suggestion
             | None => no_suggestions
             end).
Proof.
  intros T P S J.
  assert (Run : analysis net code question (py "Suggest Improvements") true t
                = (Done tt,
                   t ++ [spinner;
                         HttpPost (url_of (py "suggest")) (api_payload code None) 60]
                     ++ match kept_lines text with
                        | [] => [no_suggestions]
                        | suggestions =>
                            Display ph_markdown [Lit (py "### Suggestions:")]
                            :: map suggestion_line suggestions
                        end)).
  { unfold analysis. rewrite T. cbn [andb]. rewrite show_then.
    fold spinner.
    change (Str.eqb (py "Suggest Improvements") (py "Explain Code")) with false.
    change (Str.eqb (py "Suggest Improvements") (py "Suggest Improvements"))
      with true.
    change (Str.eqb (py "Suggest Improvements") (py "Answer 'What If'")) with false.
    cbv beta iota. unfold suggest_branch.
    unfold ui_bind at 1. unfold ui_bind at 1.
    rewrite (call_api_ok net (py "suggest") code None _ r _ P S J).
    cbn [success_response to_json json_opt SuggestionResponse.suggestions
         SuggestionResponse.error].
    set (t2 := (t ++ [spinner])
               ++ [HttpPost (url_of (py "suggest")) (api_payload code None) 60]).
    assert (E : t ++ [spinner;
                      HttpPost (url_of (py "suggest")) (api_payload code None) 60]
                = t2) by (unfold t2; rewrite <- app_assoc; reflexivity).
    rewrite app_assoc, E.
    destruct (kept_lines text) as [|s l].
    - reflexivity.
    - rewrite display_suggestions. rewrite <- app_assoc. reflexivity. }
  split; [exact Run|].
  rewrite Run. cbn [snd].
  destruct (kept_lines text) as [|s l].
  - rewrite placeholder_after_request; [reflexivity | discriminate | reflexivity].
  - rewrite placeholder_after_request;
      [ | discriminate
        | cbn [forallb]; rewrite (suggestion_lines_on_placeholder (s :: l));
          reflexivity ].
    change (last_of
              (Display ph_markdown [Lit (py "### Suggestions:")]
               :: map suggestion_line (s :: l)))
      with (last_of (map suggestion_line (s :: l))).
    rewrite last_of_map.
    destruct (last_of (s :: l)) eqn:L; [reflexivity|].
    exfalso. clear - L. revert s L.
    induction l as [|i l IH]; intros s L; [discriminate L|].
    exact (IH i L).
Qed.

Lemma suggestion_answer_is_displayed_witness :
  let text := py "  Use a list. " ++ [10; 32; 9; 10]%N ++ py "Avoid globals." in
  let net := constant_net (ok_response (to_json (success_response suggest text))) in
  analysis net (py "x") [] (py "Suggest Improvements") true []
  = (Done tt,
     [spinner; HttpPost (url_of (py "suggest")) [(py "code", VStr (py "x"))] 60;
      Display ph_markdown [Lit (py "### Suggestions:")];
      suggestion_line (py "Use a list."); suggestion_line (py "Avoid globals.")])
  /\ placeholder_shows
       (snd (analysis net (py "x") [] (py "Suggest Improvements") true []))
     = Some (suggestion_line (py "Avoid globals.")).
Proof.
  cbv zeta.
  destruct (suggestion_answer_is_displayed
              (constant_net
                 (ok_response
                    (to_json
                       (success_response suggest
                          (py "  Use a list. " ++ [10; 32; 9; 10]%N
                           ++ py "Avoid globals.")))))
              (py "x") []
              (py "  Use a list. " ++ [10; 32; 9; 10]%N ++ py "Avoid globals.")
              [] _ eq_refl eq_refl eq_refl eq_refl) as [Run Shown].
  split.
  - rewrite Run. vm_compute. reflexivity.
  - rewrite Shown. vm_compute. reflexivity.
Defined.

(** X22. An explanation answer on the page.  The script writes the header
    and then the summary to the result placeholder, or, when the summary is
    the empty string, the header and then the notice that no explanation
    was received; the placeholder holds one element, so what stays on the
    page is the summary, or the notice, without the header. *)
Theorem explanation_answer_is_displayed
    (net : Net) (code question text : str) (t : list ui_event) (r : HttpResponse) :
  truthy code = true ->
  requests_post net (url_of (py "explain")) (api_payload code None) 60 = Done r ->
  ((400 <=? status_code r) && (status_code r <? 600))%N = false ->
  json r = Done (to_json (success_response explain text)) ->
  analysis net code question (py "Explain Code") true t
  = (Done tt,
     t ++ [spinner; HttpPost (url_of (py "explain")) (api_payload code None) 60;
           Display ph_markdown [Lit (py "### Explanation:")];
           if truthy text then Display ph_markdown [Val (VStr text)]
           else no_explanation])
  /\ placeholder_shows
       (snd (analysis net code question (py "Explain Code") true t))
     = Some (if truthy text then Display ph_markdown [Val (VStr text)]
             else no_explanation).
Proof.
  intros T P S J.
  assert (Run : analysis net code question (py "Explain Code") true t
                = (Done tt,
                   t ++ [spinner;
                         HttpPost (url_of (py "explain")) (api_payload code None) 60;
                         Display ph_markdown [Lit (py "### Explanation:")];
                         if truthy text then Display ph_markdown [Val (VStr text)]
                         else no_explanation])).
  { unfold analysis. rewrite T. cbn [andb]. rewrite show_then.
    fold spinner.
    change (Str.eqb (py "Explain Code") (py "Explain Code")) with true.
    change (Str.eqb (py "Explain Code") (py "Answer 'What If'")) with false.
    cbv beta iota. unfold explain_branch.
    unfold ui_bind at 1. unfold ui_bind at 1.
    rewrite (call_api_ok net (py "explain") code None _ r _ P S J).
    cbn [success_response to_json json_opt ExplanationResponse.overall_summary
         ExplanationResponse.error ExplanationResponse.line_by_line].
    set (t2 := (t ++ [spinner])
               ++ [HttpPost (url_of (py "explain")) (api_payload code None) 60]).
    destruct text as [|c text].
    - match goal with
      | |- ?lhs = _ =>
          assert (L : lhs
                      = (Done tt,
                         (t2 ++ [Display ph_markdown [Lit (py "### Explanation:")]])
                         ++ [no_explanation]))
            by reflexivity;
          rewrite L
      end.
      unfold t2. rewrite <- !app_assoc. reflexivity.
    - match goal with
      | |- ?lhs = _ =>
          assert (L : lhs
                      = (Done tt,
                         (t2 ++ [Display ph_markdown [Lit (py "### Explanation:")]])
                         ++ [Display ph_markdown [Val (VStr (c :: text))]]))
            by reflexivity;
          rewrite L
      end.
      unfold t2. rewrite <- !app_assoc. reflexivity. }
  split; [exact Run|].
  rewrite Run. cbn [snd].
  change (t ++ [spinner;
                HttpPost (url_of (py "explain")) (api_payload code None) 60;
                Display ph_markdown [Lit (py "### Explanation:")];
                if truthy text then Display ph_markdown [Val (VStr text)]
                else no_explanation])
    with (t ++ [spinner;
                HttpPost (url_of (py "explain")) (api_payload code None) 60]
            ++ [Display ph_markdown [Lit (py "### Explanation:")];
                if truthy text then Display ph_markdown [Val (VStr text)]
                else no_explanation]).
  rewrite placeholder_after_request;
    [reflexivity | discriminate | destruct (truthy text); reflexivity].
Qed.

Lemma explanation_answer_is_displayed_witness :
  let net := constant_net
               (ok_response (to_json (success_response explain (py "It prints 1.")))) in
  analysis net (py "print(1)") [] (py "Explain Code") true []
  = (Done tt,
     [spinner;
      HttpPost (url_of (py "explain")) [(py "code", VStr (py "print(1)"))] 60;
      Display ph_markdown [Lit (py "### Explanation:")];
      Display ph_markdown [Val (VStr (py "It prints 1."))]])
  /\ placeholder_shows
       (snd (analysis net (py "print(1)") [] (py "Explain Code") true []))
     = Some (Display ph_markdown [Val (VStr (py "It prints 1."))]).
Proof.
  cbv zeta.
  destruct (explanation_answer_is_displayed
              (constant_net
                 (ok_response (to_json (success_response explain (py "It prints 1.")))))
              (py "print(1)") [] (py "It prints 1.") [] _
              eq_refl eq_refl eq_refl eq_refl) as [Run Shown].
  split.
  - rewrite Run. reflexivity.
  - rewrite Shown. reflexivity.
Defined.
